(** * Legal Chatbot page (app2.py): a shallow embedding and its properties

    The page is one Streamlit script. Its helpers ([extract_placeholders],
    [fill_docx_template], [extract_text_from_file], the two [save_*_to_csv])
    and its sections are embedded in the order of the script: string
    functions for what is pure, and a small state-and-exception monad over a
    [world] (the screen, [st.session_state.chat_history], the CSV files) for
    what draws, keeps state or writes.

    Text is [string]: a Python [str] read as its sequence of characters,
    each an [ascii] code point. What lies outside the script is a parameter:
    the libraries that read DOCX, PDF and UTF-8 bytes ([Libraries]), and per
    run of the script the values of the widgets, the summarization pipeline
    and the stream of the workflow ([pass]). A CSV file is its rows of
    cells; the quoting pandas applies to a cell is not modelled. A widget
    is known by its label and returns its value; a text input raises
    Streamlit's [DuplicateWidgetID] when the run has already made a text
    input of the same label, which on this page can only happen among the
    inputs of the placeholders: the two text inputs of the questionnaire
    end in a question mark where those end in a colon, and the input of the
    query has a key of its own. Assigning the text of a DOCX paragraph
    raises lxml's [ValueError] on a character XML cannot hold. The title,
    the introduction, the sidebar and the footer, which only draw fixed
    text, are left out. *)

From stdpp Require Import gmap strings list pretty.
From Stdlib Require Import Ascii.

#[local] Arguments String.append : simpl nomatch.
#[local] Arguments Ascii.eqb : simpl never.

(** ** Python [str] primitives used by the page *)

Module Str.

(** [s.startswith(p)]: the test behind substring search and replacement. *)
Fixpoint startswith (p s : string) : bool :=
  match p, s with
  | EmptyString, _ => true
  | String _ _, EmptyString => false
  | String a p', String b s' => Ascii.eqb a b && startswith p' s'
  end.

(** [sub in s]. *)
Fixpoint contains (sub s : string) : bool :=
  startswith sub s ||
  match s with
  | EmptyString => false
  | String _ s' => contains sub s'
  end.

(** [s.replace("", new)]: [new] before every character and at the end. *)
Fixpoint interleave (new s : string) : string :=
  match s with
  | EmptyString => new
  | String c s' => new +:+ String c (interleave new s')
  end.

(** The left-to-right scan of [s.replace(old, new)] for a non-empty [old]:
    [skip] counts the characters of the occurrence just replaced that the
    scan still has to step over. *)
Fixpoint replace_from (skip : nat) (old new s : string) : string :=
  match s with
  | EmptyString => EmptyString
  | String c s' =>
      match skip with
      | S k => replace_from k old new s'
      | O =>
          if startswith old s
          then new +:+ replace_from (String.length old - 1) old new s'
          else String c (replace_from 0 old new s')
      end
  end.

(** [s.replace(old, new)]. *)
Definition replace (old new s : string) : string :=
  match old with
  | EmptyString => interleave new s
  | String _ _ => replace_from 0 old new s
  end.

(** [sep.join(parts)]. *)
Fixpoint join (sep : string) (parts : list string) : string :=
  match parts with
  | [] => EmptyString
  | [p] => p
  | p :: rest => p +:+ sep +:+ join sep rest
  end.

(** Every character of [s] satisfies [f]. *)
Fixpoint all_chars (f : ascii -> bool) (s : string) : bool :=
  match s with
  | EmptyString => true
  | String c s' => f c && all_chars f s'
  end.

(** Python's [str.isspace] on one character (code points below 256). *)
Definition isspace (c : ascii) : bool :=
  let n := nat_of_ascii c in
  ((9 <=? n) && (n <=? 13)) || ((28 <=? n) && (n <=? 32))
  || (n =? 133) || (n =? 160).

(** [bool(s.strip())]: stripping leaves something exactly when some
    character is not whitespace. *)
Definition strip_truthy (s : string) : bool := negb (all_chars isspace s).

(** [bool(s)] for a string. *)
Definition truthy (s : string) : bool :=
  match s with
  | EmptyString => false
  | String _ _ => true
  end.

End Str.

(** ** The regular expression [\{\{(.*?)\}\}] *)

Module Re.

Definition newline : ascii := "010"%char.

(** [.] without [re.DOTALL]: any character but the newline. *)
Definition dot (c : ascii) : bool := negb (Ascii.eqb c newline).

(** [(.*?)\}\}] tried at the head of [s]: the lazy star takes the fewest
    characters after which [}}] matches, and gives up at a character [.]
    refuses or at the end of the text. The result is the group. *)
Fixpoint lazy_group (s : string) : option string :=
  if Str.startswith "}}" s then Some EmptyString
  else
    match s with
    | EmptyString => None
    | String c s' => if dot c then String c <$> lazy_group s' else None
    end.

(** The remainder of [s] after the literal [{{], when [s] starts with it. *)
Definition after_open (s : string) : option string :=
  match s with
  | String a (String b s') =>
      if Ascii.eqb a "{" && Ascii.eqb b "{" then Some s' else None
  | _ => None
  end.

(** The whole pattern tried at the head of [s]; the result is group 1. *)
Definition match_here (s : string) : option string :=
  after_open s ≫= lazy_group.

(** [re.findall]: try the pattern at each position from the left; after a
    match of group [g] (which spans [length g + 4] characters) resume right
    behind it, otherwise move one character on. [skip] counts the characters
    of the last match still to step over. *)
Fixpoint findall_from (skip : nat) (s : string) : list string :=
  match s with
  | EmptyString => []
  | String _ s' =>
      match skip with
      | S k => findall_from k s'
      | O =>
          match match_here s with
          | Some g => g :: findall_from (String.length g + 3) s'
          | None => findall_from 0 s'
          end
      end
  end.

Definition findall (s : string) : list string := findall_from 0 s.

End Re.

(** ** Document Filling Assistance: the helpers *)

(** [re.findall(r"\{\{(.*?)\}\}", text)]. *)
Definition extract_placeholders (text : string) : list string :=
  Re.findall text.

(** The f-string [f"{{{{{field}}}}}"]: the field name between two pairs of
    braces. *)
Definition marker (field : string) : string := "{{" +:+ field +:+ "}}".

(** A text written as markers with the text before each of them, and the
    text after the last one. *)
Fixpoint render_marked (items : list (string * string)) (tail : string) : string :=
  match items with
  | [] => tail
  | (gap, name) :: rest => gap +:+ marker name +:+ render_marked rest tail
  end.

(** The text before a marker: it holds no [{{] and does not end in [{], so
    the marker's own [{{] is the first one. *)
Definition gap_ok (gap : string) : bool := negb (Str.contains "{{" (gap +:+ "{")).

(** The text after the last marker holds no [{{]. *)
Definition tail_ok (tail : string) : bool := negb (Str.contains "{{" tail).

(** The name as the specification words it: a run of characters that does
    not contain [}}]; the marker's own [}}] is then the first one when the
    name does not end in [}] either. *)
Definition spec_name_ok (name : string) : bool :=
  negb (Str.contains "}}" (name +:+ "}")).

(** The name as the pattern reads it: as above, and on one line. *)
Definition name_ok (name : string) : bool :=
  spec_name_ok name && Str.all_chars Re.dot name.

(** The markers of a text are well formed, with names as the specification
    words them. *)
Definition spec_marked_ok (items : list (string * string)) (tail : string) : bool :=
  forallb (fun item => gap_ok item.1 && spec_name_ok item.2) items && tail_ok tail.

(** The markers of a text are well formed, with names as the pattern reads
    them. *)
Definition marked_ok (items : list (string * string)) (tail : string) : bool :=
  forallb (fun item => gap_ok item.1 && name_ok item.2) items && tail_ok tail.

(** A paragraph written as literal text and markers, the shape in which
    substitution can be followed marker by marker. *)
Inductive segment :=
| Lit (text : string)
| Marker (name : string).

Definition render_segment (seg : segment) : string :=
  match seg with
  | Lit text => text
  | Marker name => marker name
  end.

Fixpoint render (segs : list segment) : string :=
  match segs with
  | [] => EmptyString
  | seg :: rest => render_segment seg +:+ render rest
  end.

Definition is_brace (c : ascii) : bool := Ascii.eqb c "{" || Ascii.eqb c "}".

(** No [{] and no [}] anywhere in the string. *)
Definition brace_free (s : string) : bool :=
  Str.all_chars (fun c => negb (is_brace c)) s.

(** No [{] anywhere in the string. *)
Definition no_open (s : string) : bool :=
  Str.all_chars (fun c => negb (Ascii.eqb c "{")) s.

(** Literal text holds no [{], so that every [{{] of the paragraph opens a
    marker; a name holds no brace, so that it ends at the marker's [}}]. *)
Definition segment_ok (seg : segment) : bool :=
  match seg with
  | Lit text => no_open text
  | Marker name => brace_free name
  end.

(** A Python [dict] of strings: its items in insertion order, keys unique. *)
Definition dict := list (string * string).

(** [d[k]] read with [d.get(k)]: the value of the first item with key [k]. *)
Fixpoint dict_get (k : string) (d : dict) : option string :=
  match d with
  | [] => None
  | (k', v) :: rest => if String.eqb k' k then Some v else dict_get k rest
  end.

(** [d[k] = v]: an existing key keeps its place, a new one goes last. *)
Fixpoint dict_set (k v : string) (d : dict) : dict :=
  match d with
  | [] => [(k, v)]
  | (k', v') :: rest =>
      if String.eqb k' k then (k, v) :: rest else (k', v') :: dict_set k v rest
  end.

Definition dict_keys (d : dict) : list string := d.*1.
Definition dict_values (d : dict) : list string := d.*2.

(** [all(d.values())]: every value is a non-empty string. *)
Definition all_values (d : dict) : bool := forallb Str.truthy (dict_values d).

(** What substitution makes of one segment. *)
Definition fill_segment (user_inputs : dict) (seg : segment) : segment :=
  match seg with
  | Lit text => Lit text
  | Marker name =>
      match dict_get name user_inputs with
      | Some value => Lit value
      | None => Marker name
      end
  end.

(** What the replacement of one field makes of one segment. *)
Definition fill_one (field value : string) (seg : segment) : segment :=
  match seg with
  | Lit text => Lit text
  | Marker name => if String.eqb name field then Lit value else Marker name
  end.

(** Some segment is the marker of [field]. *)
Definition has_marker (field : string) (segs : list segment) : bool :=
  existsb (fun seg =>
             match seg with
             | Lit _ => false
             | Marker name => String.eqb name field
             end) segs.

(** Every paragraph is literal text without [{] and markers with names
    without braces. *)
Definition doc_ok (doc : list (list segment)) : bool :=
  forallb (forallb segment_ok) doc.

(** No field name holds a brace and no value holds a [{]. *)
Definition inputs_ok (user_inputs : dict) : bool :=
  forallb (fun item => brace_free item.1 && no_open item.2) user_inputs.

(** The body of the inner loop of [fill_docx_template] for one item, on
    strings: the text [str.replace] computes when the marker occurs. *)
Definition fill_field (text : string) (item : string * string) : string :=
  if Str.contains (marker item.1) text
  then Str.replace (marker item.1) item.2 text
  else text.

(** The inner loop of [fill_docx_template] on strings: the items of
    [user_inputs] in order, each applied to the text the previous ones
    left. *)
Definition fill_paragraph (user_inputs : dict) (text : string) : string :=
  foldl fill_field text user_inputs.

(** The outer loop of [fill_docx_template] on strings, over the texts of
    [doc.paragraphs]. *)
Definition fill_paragraphs (user_inputs : dict) (doc : list string) : list string :=
  fill_paragraph user_inputs <$> doc.

(** [s.split(c)] for a one-character separator: the runs between the
    separators. It states what [join] builds, the page does not call it. *)
Fixpoint split_on (c : ascii) (s : string) : list string :=
  match s with
  | EmptyString => [EmptyString]
  | String a s' =>
      if Ascii.eqb a c then EmptyString :: split_on c s'
      else
        match split_on c s' with
        | [] => [String a EmptyString]
        | first :: rest => String a first :: rest
        end
  end.

(** The strings of a list one after the other. *)
Definition concat_all (parts : list string) : string :=
  foldr String.append EmptyString parts.

(** ** The world of the page *)

(** Messages of the conversation: [HumanMessage], [AIMessage] (with its
    chunk subclass), and any other message class the workflow streams. *)
Inductive message :=
| HumanMessage (content : string)
| AIMessage (content : string)
| OtherMessage (content : string).

(** What the script draws, in the order of the calls. *)
Inductive element :=
| Subheader (body : string)
| Write (body : string)
| Markdown (body : string)
| Success (body : string)
| Warning (body : string)
| Error (body : string)
| TextArea (label value : string) (key : option string)
| DownloadButton (label : string) (data : list string) (file_name mime : string).

(** A CSV file as its rows of cells. *)
Definition csv := list (list string).

Record world := World {
  screen : list element;
  chat_history : option (list message);
  files : gmap string csv }.

(** A call returns or raises; an exception is kept as its message. *)
Inductive outcome (A : Type) :=
| Returns (a : A)
| Raises (e : string).
Arguments Returns {A} a.
Arguments Raises {A} e.

(** *** Assigning the text of a paragraph *)

Definition carriage_return : ascii := "013"%char.

(** The characters lxml takes as the text of an element: every one but NUL
    and the control characters other than tab, line feed and carriage
    return. *)
Definition xml_char (c : ascii) : bool :=
  let n := nat_of_ascii c in
  (32 <=? n) || (n =? 9) || (n =? 10) || (n =? 13).

Definition xml_ok (s : string) : bool := Str.all_chars xml_char s.

(** The message of the [ValueError] lxml raises on any other character. *)
Definition XML_INCOMPATIBLE : string :=
  "All strings must be XML compatible: Unicode or ASCII, no NULL bytes or control characters".

(** What [paragraph.text] reads after [paragraph.text = s]: python-docx
    writes a line feed and a carriage return alike as a line break, and a
    line break reads as a line feed. *)
Fixpoint read_back (s : string) : string :=
  match s with
  | EmptyString => EmptyString
  | String c s' =>
      String (if Ascii.eqb c carriage_return then Re.newline else c) (read_back s')
  end.

(** [paragraph.text = s]: the text the paragraph reads afterwards, or the
    exception of lxml. *)
Definition set_paragraph_text (s : string) : outcome string :=
  if xml_ok s then Returns (read_back s) else Raises XML_INCOMPATIBLE.

(** A text that a paragraph reads back as it was assigned: characters XML
    holds, and no carriage return. *)
Definition docx_text (s : string) : bool :=
  Str.all_chars (fun c => xml_char c && negb (Ascii.eqb c carriage_return)) s.

(** The body of the inner loop of [fill_docx_template] for one item, on a
    paragraph that reads [text]. *)
Definition fill_field_docx (text : string) (item : string * string) : outcome string :=
  if Str.contains (marker item.1) text
  then set_paragraph_text (Str.replace (marker item.1) item.2 text)
  else Returns text.

(** The inner loop of [fill_docx_template] on one paragraph: it ends at the
    first assignment that raises. *)
Fixpoint fill_paragraph_docx (user_inputs : dict) (text : string) : outcome string :=
  match user_inputs with
  | [] => Returns text
  | item :: rest =>
      match fill_field_docx text item with
      | Returns text' => fill_paragraph_docx rest text'
      | Raises e => Raises e
      end
  end.

(** The outer loop of [fill_docx_template] over [doc.paragraphs]: what the
    paragraphs read when it is through, or the exception that ended it. *)
Fixpoint fill_document (user_inputs : dict) (doc : list string)
    : outcome (list string) :=
  match doc with
  | [] => Returns []
  | text :: rest =>
      match fill_paragraph_docx user_inputs text with
      | Returns text' =>
          match fill_document user_inputs rest with
          | Returns rest' => Returns (text' :: rest')
          | Raises e => Raises e
          end
      | Raises e => Raises e
      end
  end.

(** Streamlit's exception for a second widget of the same kind, label and
    parameters in one run. Its message differs between Streamlit's versions;
    the exception is kept as the name of its class. *)
Definition DuplicateWidgetID : string := "DuplicateWidgetID".

(** Script code: it changes the world and returns or raises. What was drawn
    or written before an exception stays. *)
Definition M (A : Type) : Type := world -> world * outcome A.

#[global] Instance M_ret : MRet M := fun A a w => (w, Returns a).

#[global] Instance M_bind : MBind M := fun A B k m w =>
  match m w with
  | (w', Returns a) => k a w'
  | (w', Raises e) => (w', Raises e)
  end.

Definition raise {A : Type} (e : string) : M A := fun w => (w, Raises e).

(** [try: body  except Exception as e: handler(e)]. *)
Definition try_except {A : Type} (body : M A) (handler : string -> M A) : M A :=
  fun w =>
    match body w with
    | (w', Returns a) => (w', Returns a)
    | (w', Raises e) => handler e w'
    end.

(** A library call that may raise. *)
Definition call {A : Type} (r : outcome A) : M A := fun w => (w, r).

Definition emit (e : element) : M unit :=
  fun w => (World (screen w ++ [e]) (chat_history w) (files w), Returns ()).

Definition get_chat_history : M (option (list message)) :=
  fun w => (w, Returns (chat_history w)).

Definition set_chat_history (h : list message) : M unit :=
  fun w => (World (screen w) (Some h) (files w), Returns ()).

Definition get_files : M (gmap string csv) := fun w => (w, Returns (files w)).

Definition set_files (fs : gmap string csv) : M unit :=
  fun w => (World (screen w) (chat_history w) fs, Returns ()).

Definition when (b : bool) (body : M unit) : M unit :=
  if b then body else mret ().

(** [for x in xs: body(x)]. *)
Fixpoint for_each {A : Type} (xs : list A) (body : A -> M unit) : M unit :=
  match xs with
  | [] => mret ()
  | x :: rest => body x ;; for_each rest body
  end.

(** An uploaded file: the content type the browser declared and the bytes. *)
Record UploadedFile := Upload {
  file_type : string;
  file_bytes : string }.

(** The libraries the page calls on file contents. Each reads the bytes and
    returns, or raises on bytes it cannot read. *)
Class Libraries := {
  (** [[p.text for p in docx.Document(file).paragraphs]] *)
  docx_paragraphs : string -> outcome (list string);
  (** [[page.extract_text() for page in PyPDF2.PdfReader(file).pages]] *)
  pdf_pages : string -> outcome (list string);
  (** [bytes.decode("utf-8")] *)
  utf8_decode : string -> outcome string }.

(** One run of the script: what the widgets return in it, and what the
    summarization pipeline and the workflow do when called in it. The stream
    of the workflow is the chunks it delivers and, when it fails, the
    exception that ends it. *)
Record pass := Pass {
  form_upload : option UploadedFile;
  file_upload : option UploadedFile;
  text_input : string -> string;
  text_area : string -> string;
  choice : string -> nat;
  button : string -> bool;
  summarizer : string -> outcome (list dict);
  astream : list message -> string -> list message * option string }.

(** [st.selectbox] and [st.radio]: one of the options, the first by default. *)
Definition select (options : list string) (i : nat) : string :=
  default (default EmptyString (head options)) (options !! i).

Definition nl : string := String Re.newline EmptyString.

Definition PDF : string := "application/pdf".
Definition DOCX : string :=
  "application/vnd.openxmlformats-officedocument.wordprocessingml.document".
Definition TXT : string := "text/plain".

Definition FEEDBACK_FILE : string := "feedback_responses.csv".
Definition QUESTIONNAIRE_FILE : string := "questionnaire_responses.csv".

(** The label of the chat's text input. *)
Definition ASK_LABEL : string := "Ask a legal-related question or give a command:".

Definition language_mapping : dict :=
  [("English", "en"); ("German", "de"); ("French", "fr"); ("Hindi", "hi")].

(** [pd.DataFrame([record]).to_csv(path, index=False)]: a new file of the
    header and one row. *)
Definition to_csv (path : string) (record : dict) : M unit :=
  fs ← get_files;
  set_files (<[path := [dict_keys record; dict_values record]]> fs).

(** [pd.DataFrame([record]).to_csv(path, mode='a', header=False, index=False)]:
    one row behind what the file holds. *)
Definition to_csv_append (path : string) (record : dict) : M unit :=
  fs ← get_files;
  set_files (<[path := default [] (fs !! path) ++ [dict_values record]]> fs).

(** [os.path.exists(path)]. *)
Definition path_exists (path : string) : M bool :=
  fs ← get_files; mret (bool_decide (is_Some (fs !! path))).

(** The body shared by [save_feedback_to_csv] and [save_questionnaire_to_csv]. *)
Definition append_row (path : string) (record : dict) : M unit :=
  there ← path_exists path;
  if negb there then to_csv path record else to_csv_append path record.

Definition save_feedback_to_csv (feedback_data : dict) : M unit :=
  append_row FEEDBACK_FILE feedback_data.

Definition save_questionnaire_to_csv (data : dict) : M unit :=
  append_row QUESTIONNAIRE_FILE data.

(** The streaming loop of [display_response]: [chunks] are what is left of
    the stream, [failure] the exception that ends it, if any. *)
Fixpoint display_chunks (chunks : list message) (failure : option string)
    (accumulated_response : string) (chunk_counter : nat) : M unit :=
  match chunks with
  | [] =>
      match failure with
      | None => mret ()
      | Some e => raise e
      end
  | AIMessage content :: rest =>
      let accumulated_response := accumulated_response +:+ content in
      let chunk_counter := chunk_counter + 1 in
      emit (TextArea "Response" accumulated_response
              (Some ("response_area_" +:+ pretty chunk_counter))) ;;
      display_chunks rest failure accumulated_response chunk_counter
  | _ :: rest => display_chunks rest failure accumulated_response chunk_counter
  end.

(** [st.session_state.chat_history.append(m)]. *)
Definition chat_history_append (m : message) : M unit :=
  h ← get_chat_history;
  match h with
  | Some h => set_chat_history (h ++ [m])
  | None => raise "AttributeError"
  end.

Section Page.

Context `{libs : Libraries}.
Variable p : pass.

(** ** Document Filling Assistance *)

Definition read_docx (file : UploadedFile) : M string :=
  paragraphs ← call (docx_paragraphs (file_bytes file));
  mret (Str.join nl paragraphs).

Definition fill_docx_template (file : UploadedFile) (user_inputs : dict)
    : M (list string) :=
  doc ← call (docx_paragraphs (file_bytes file));
  call (fill_document user_inputs doc).

(** [st.text_input(label)] behind the text inputs of the labels [made]
    earlier in the run. *)
Definition st_text_input (made : list string) (label : string) : M string :=
  if bool_decide (label ∈ made) then raise DuplicateWidgetID
  else mret (text_input p label).

(** The loop that asks one value per placeholder, behind the text inputs
    [made] and with the entries [user_inputs] it has so far. *)
Fixpoint ask_fields (made : list string) (user_inputs : dict)
    (placeholders : list string) : M dict :=
  match placeholders with
  | [] => mret user_inputs
  | placeholder :: rest =>
      value ← st_text_input made (placeholder +:+ ":");
      ask_fields ((placeholder +:+ ":") :: made)
                 (dict_set placeholder value user_inputs) rest
  end.

(** The loop from the empty map; no text input is made before it. *)
Definition collect_inputs (placeholders : list string) : M dict :=
  ask_fields [] [] placeholders.

Definition generate_filled_document (uploaded_form : UploadedFile)
    (user_inputs : dict) : M unit :=
  if all_values user_inputs then
    filled_document ← fill_docx_template uploaded_form user_inputs;
    emit (Success "Document filled successfully!") ;;
    emit (DownloadButton "Download Completed Document" filled_document
            "completed_form.docx" DOCX)
  else
    emit (Warning "Please fill in all fields before generating the document.").

Definition template_section : M unit :=
  emit (Subheader "Document Filling Assistance for Legal Forms") ;;
  match form_upload p with
  | None => mret ()
  | Some uploaded_form =>
      form_text ← read_docx uploaded_form;
      let placeholders := extract_placeholders form_text in
      match placeholders with
      | _ :: _ =>
          emit (Write "Placeholders detected in the document:") ;;
          emit (Write (Str.join ", " placeholders)) ;;
          emit (Subheader "Fill in the Following Fields") ;;
          user_inputs ← collect_inputs placeholders;
          when (button p "Generate Filled Document")
               (generate_filled_document uploaded_form user_inputs)
      | [] =>
          emit (Warning "No placeholders found in the document. Please upload a document with placeholders like {{Name}}.")
      end
  end.

(** ** Document summarization *)

Definition extract_text_from_file (file : UploadedFile) : M (option string) :=
  if String.eqb (file_type file) PDF then
    pages ← call (pdf_pages (file_bytes file));
    mret (Some (foldl (fun text page => text +:+ page) EmptyString pages))
  else if String.eqb (file_type file) DOCX then
    paragraphs ← call (docx_paragraphs (file_bytes file));
    mret (Some (Str.join nl paragraphs))
  else if String.eqb (file_type file) TXT then
    text ← call (utf8_decode (file_bytes file));
    mret (Some text)
  else mret None.

(** [summary[0]['summary_text']]. *)
Definition first_summary_text (summary : list dict) : M string :=
  match summary with
  | [] => raise "list index out of range"
  | first :: _ =>
      match dict_get "summary_text" first with
      | Some text => mret text
      | None => raise "'summary_text'"
      end
  end.

Definition summarize_document (document_text : string) : M unit :=
  try_except
    (summary ← call (summarizer p document_text);
     emit (Subheader "Document Summary") ;;
     text ← first_summary_text summary;
     emit (Write text))
    (fun e => emit (Error ("Error during summarization: " +:+ e))).

(** [if document_text:] is false for [None] and for the empty string. *)
Definition text_truthy (document_text : option string) : bool :=
  match document_text with
  | None => false
  | Some text => Str.truthy text
  end.

(** The body of [if uploaded_file:] behind the extraction. In the first
    branch [document_text] is a non-empty string. *)
Definition show_document (document_text : option string) : M unit :=
  if text_truthy document_text then
    let text := default EmptyString document_text in
    emit (Write "File Uploaded Successfully!") ;;
    emit (TextArea "Extracted Document Content" text None) ;;
    when (button p "Summarize Document") (summarize_document text)
  else
    emit (Error "Unable to extract text from the uploaded file. Please try another format (PDF, DOCX, or TXT).").

Definition summarization_section : M unit :=
  emit (Subheader "Upload a Legal Document for Summarization") ;;
  match file_upload p with
  | None => mret ()
  | Some uploaded_file =>
      document_text ← extract_text_from_file uploaded_file;
      show_document document_text
  end.

(** ** Chat *)

Definition display_response (input_messages : list message)
    (selected_language : string) : M unit :=
  let stream := astream p input_messages selected_language in
  display_chunks stream.1 stream.2 EmptyString 0.

Definition ask (user_input selected_language : string) : M unit :=
  if Str.strip_truthy user_input then
    let input_messages := [HumanMessage user_input] in
    chat_history_append (HumanMessage user_input) ;;
    display_response input_messages selected_language
  else
    emit (Warning "Please enter a valid query.").

Definition chat_section : M unit :=
  emit (Subheader "Chat with the Legal Chatbot") ;;
  h ← get_chat_history;
  when (bool_decide (h = None)) (set_chat_history []) ;;
  let language :=
    select ["English"; "German"; "French"; "Hindi"]
           (choice p "Choose the language for responses:") in
  selected_language ←
    match dict_get language language_mapping with
    | Some code => mret code
    | None => raise ("'" +:+ language +:+ "'")
    end;
  let user_input := text_input p ASK_LABEL in
  when (button p "Ask") (ask user_input selected_language).

Definition render_message (m : message) : M unit :=
  match m with
  | HumanMessage content => emit (Markdown ("**You:** " +:+ content))
  | AIMessage content => emit (Markdown ("**Chatbot:** " +:+ content))
  | OtherMessage _ => mret ()
  end.

Definition history_section : M unit :=
  emit (Subheader "Chat History") ;;
  h ← get_chat_history;
  match h with
  | Some h => for_each h render_message
  | None => raise "AttributeError"
  end.

(** ** The two forms *)

Definition questionnaire_responses : dict :=
  dict_set "Details" (text_area p "Please provide a brief description of your legal issue.")
  (dict_set "Urgency"
     (select ["Immediate"; "Within a Week"; "Not Urgent"]
             (choice p "How urgent is your legal issue?"))
  (dict_set "Issue Type"
     (select ["Family Law"; "Criminal Law"; "Corporate Law"; "Civil Disputes"; "Other"]
             (choice p "What type of legal issue are you facing?"))
  (dict_set "Contact" (text_input p "What is your contact information?")
  (dict_set "Name" (text_input p "What is your name?") [])))).

Definition submit_questionnaire : M unit :=
  if all_values questionnaire_responses then
    save_questionnaire_to_csv questionnaire_responses ;;
    emit (Success "Thank you for submitting the questionnaire. We will get back to you shortly!")
  else
    emit (Warning "Please fill out all fields before submitting.").

Definition questionnaire_section : M unit :=
  emit (Subheader "Guided Intake Questionnaire for Legal Issues") ;;
  emit (Write "Answer the following questions to help us understand your legal issue better.") ;;
  when (button p "Submit Questionnaire") submit_questionnaire.

Definition feedback : dict :=
  dict_set "Comments" (text_area p "Any additional comments or suggestions?")
  (dict_set "Accuracy"
     (select ["Yes"; "No"] (choice p "Was the response accurate?"))
  (dict_set "Ease of Use"
     (select ["Yes"; "No"] (choice p "Was the chatbot easy to use?"))
  (dict_set "User Experience"
     (select ["Excellent"; "Good"; "Average"; "Poor"]
             (choice p "How was your overall experience?")) []))).

Definition submit_feedback : M unit :=
  save_feedback_to_csv feedback ;;
  emit (Success "Thank you for your feedback!") ;;
  emit (Write "**Summary of Feedback:**") ;;
  for_each feedback
    (fun item => emit (Write ("**" +:+ item.1 +:+ "**: " +:+ item.2))).

Definition feedback_section : M unit :=
  when (button p "Submit Feedback") submit_feedback.

(** ** The script *)

Definition page : M unit :=
  template_section ;;
  summarization_section ;;
  chat_section ;;
  history_section ;;
  emit (Subheader "Feedback Form") ;;
  emit (Write "Please provide your valuable feedback to improve the Legal Chatbot Assistant.") ;;
  questionnaire_section ;;
  feedback_section.

(** The content types [extract_text_from_file] reads. *)
Definition supported (content_type : string) : bool :=
  String.eqb content_type PDF || String.eqb content_type DOCX
  || String.eqb content_type TXT.

(** The bytes of the file are what its declared content type says: the
    library that reads that type returns on them. *)
Definition well_formed `{libs : Libraries} (file : UploadedFile) : Prop :=
  (file_type file = PDF -> exists pages, pdf_pages (file_bytes file) = Returns pages)
  /\ (file_type file = DOCX ->
      exists paragraphs, docx_paragraphs (file_bytes file) = Returns paragraphs)
  /\ (file_type file = TXT -> exists text, utf8_decode (file_bytes file) = Returns text).

Definition unable_to_extract : element :=
  Error "Unable to extract text from the uploaded file. Please try another format (PDF, DOCX, or TXT).".

(** ** Running the script *)

(** The world after more elements are drawn. *)
Definition draw (es : list element) (w : world) : world :=
  World (screen w ++ es) (chat_history w) (files w).

(** One run: the screen is drawn afresh; the session state and the files
    are those the previous run left. *)
Definition run (w : world) : world * outcome unit :=
  page (World [] (chat_history w) (files w)).

End Page.

(** A session: the runs of the script one after the other, each on the
    world its predecessor left, whether that one ended or raised. *)
Definition session `{libs : Libraries} (passes : list pass) (w : world) : world :=
  foldl (fun w p => (run p w).1) w passes.

(** Stand-ins for the libraries, for the examples: a file is read as one
    paragraph, one page, or the text of its bytes. *)
Definition sample_libraries : Libraries := {|
  docx_paragraphs bytes := Returns [bytes];
  pdf_pages bytes := Returns [bytes];
  utf8_decode bytes := Returns bytes |}.

Definition form_feed : ascii := "012"%char.

(** Stand-ins for examples with several pages or paragraphs, and with bytes
    a reader refuses: the bytes list the pages of a PDF with a form feed
    between them and the paragraphs of a DOCX one on a line; ASCII bytes
    are decoded to themselves, and bytes with one above 127 stand for a file
    that is not UTF-8, which the decoder refuses. *)
Definition paged_libraries : Libraries := {|
  docx_paragraphs bytes := Returns (split_on Re.newline bytes);
  pdf_pages bytes := Returns (split_on form_feed bytes);
  utf8_decode bytes :=
    if Str.all_chars (fun c => nat_of_ascii c <? 128) bytes then Returns bytes
    else Raises "UnicodeDecodeError" |}.

(** A run in which no file is uploaded, every text widget is empty, every
    choice is the first option and no button is clicked; the pipeline fails
    and the workflow streams nothing. *)
Definition idle : pass := {|
  form_upload := None;
  file_upload := None;
  text_input _ := EmptyString;
  text_area _ := EmptyString;
  choice _ := 0;
  button _ := false;
  summarizer _ := Raises "pipeline unavailable";
  astream _ _ := ([], None) |}.

(** The run [p] with [file] in the summarization uploader. *)
Definition with_file (file : UploadedFile) (p : pass) : pass := {|
  form_upload := form_upload p;
  file_upload := Some file;
  text_input := text_input p;
  text_area := text_area p;
  choice := choice p;
  button := button p;
  summarizer := summarizer p;
  astream := astream p |}.

(** The run [p] with the button [label] clicked, and no other. *)
Definition pressing (label : string) (p : pass) : pass := {|
  form_upload := form_upload p;
  file_upload := file_upload p;
  text_input := text_input p;
  text_area := text_area p;
  choice := choice p;
  button l := String.eqb l label;
  summarizer := summarizer p;
  astream := astream p |}.

(** The run [p] with [file] in the form uploader. *)
Definition with_form (file : UploadedFile) (p : pass) : pass := {|
  form_upload := Some file;
  file_upload := file_upload p;
  text_input := text_input p;
  text_area := text_area p;
  choice := choice p;
  button := button p;
  summarizer := summarizer p;
  astream := astream p |}.

(** The run [p] with [value] typed into the text input [label]. *)
Definition typing (label value : string) (p : pass) : pass := {|
  form_upload := form_upload p;
  file_upload := file_upload p;
  text_input l := if String.eqb l label then value else text_input p l;
  text_area := text_area p;
  choice := choice p;
  button := button p;
  summarizer := summarizer p;
  astream := astream p |}.

(** The run [p] in which the workflow streams [chunks] and ends as
    [failure] says. *)
Definition streaming (chunks : list message) (failure : option string) (p : pass)
    : pass := {|
  form_upload := form_upload p;
  file_upload := file_upload p;
  text_input := text_input p;
  text_area := text_area p;
  choice := choice p;
  button := button p;
  summarizer := summarizer p;
  astream _ _ := (chunks, failure) |}.

(** What the template section draws before the button, given the
    placeholders it found. *)
Definition fields_asked (placeholders : list string) : list element :=
  [Subheader "Document Filling Assistance for Legal Forms";
   Write "Placeholders detected in the document:";
   Write (Str.join ", " placeholders);
   Subheader "Fill in the Following Fields"].

(** What a run adds to the chat history when it reaches the chat section:
    the query as a user message when [Ask] is clicked on a query that is not
    all whitespace, nothing otherwise. *)
Definition asked (p : pass) : list message :=
  if button p "Ask" && Str.strip_truthy (text_input p ASK_LABEL)
  then [HumanMessage (text_input p ASK_LABEL)]
  else [].

Definition is_human (m : message) : bool :=
  match m with
  | HumanMessage _ => true
  | _ => false
  end.

(** Every message of the chat history, if the session has one yet, is a
    user message. *)
Definition only_user_messages (w : world) : Prop :=
  forall h, chat_history w = Some h -> forallb is_human h = true.

(** Script code that leaves the chat history as it found it. *)
Definition keeps_history {A : Type} (m : M A) : Prop :=
  forall w, chat_history (m w).1 = chat_history w.

(** The texts of the assistant's chunks of a stream, in its order. *)
Definition ai_contents (chunks : list message) : list string :=
  omap (fun m => match m with AIMessage content => Some content | _ => None end) chunks.

(** The response area as the [k]-th assistant chunk leaves it. *)
Definition response_area (k : nat) (text : string) : element :=
  TextArea "Response" text (Some ("response_area_" +:+ pretty k)).

(** A fresh session: nothing drawn, no [chat_history] key yet. *)
Definition fresh (fs : gmap string csv) : world := World [] None fs.

(** ** Notions for the properties of the whole script *)

(** The names of the markers of a paragraph, in its order. *)
Definition marker_names (segs : list segment) : list string :=
  omap (fun seg => match seg with Marker name => Some name | Lit _ => None end) segs.

(** The name of a marker is on one line. *)
Definition one_line (seg : segment) : bool :=
  match seg with
  | Lit _ => true
  | Marker name => Str.all_chars Re.dot name
  end.

(** A segment with what was typed for its marker in its place. *)
Definition typed (p : pass) (seg : segment) : segment :=
  match seg with
  | Lit text => Lit text
  | Marker name => Lit (text_input p (name +:+ ":"))
  end.

(** Script code that leaves the files as it found them. *)
Definition keeps_files {A : Type} (m : M A) : Prop :=
  forall w, files (m w).1 = files w.

(** Script code that only draws: it adds to the screen and leaves the
    session state and the files alone, whether it returns or raises. *)
Definition only_draws {A : Type} (m : M A) : Prop :=
  forall w, exists es r, m w = (draw es w, r).

Definition is_download (e : element) : bool :=
  match e with
  | DownloadButton _ _ _ _ => true
  | _ => false
  end.

(** The map of what is typed for each of the placeholders. *)
Definition field_values (p : pass) (placeholders : list string) : dict :=
  (fun placeholder => (placeholder, text_input p (placeholder +:+ ":")))
    <$> placeholders.

(** The form of the run, if there is one, goes through the template
    section: the DOCX library reads it, no placeholder stands in it twice,
    and its paragraphs and what is typed for its placeholders hold only
    characters XML holds. *)
Definition form_fits `{libs : Libraries} (p : pass) : Prop :=
  forall form,
    form_upload p = Some form ->
    exists doc,
      docx_paragraphs (file_bytes form) = Returns doc
      /\ NoDup (extract_placeholders (Str.join nl doc))
      /\ forallb xml_ok doc = true
      /\ forall placeholder,
           placeholder ∈ extract_placeholders (Str.join nl doc) ->
           xml_ok (text_input p (placeholder +:+ ":")) = true.

(** The uploads of the run go through the first two sections: the form
    fits, and the file for summarization is what its content type says. *)
Definition readable `{libs : Libraries} (p : pass) : Prop :=
  form_fits p
  /\ (forall file, file_upload p = Some file -> well_formed file).

(** The workflow does not fail in the run. *)
Definition stream_ends (p : pass) : Prop :=
  forall messages language, (astream p messages language).2 = None.

(** The language code the chat section hands to the workflow. *)
Definition selected_language (p : pass) : string :=
  default EmptyString
    (dict_get (select ["English"; "German"; "French"; "Hindi"]
                      (choice p "Choose the language for responses:"))
              language_mapping).

(** The response areas the streaming loop draws for a stream. *)
Definition response_areas (chunks : list message) : list element :=
  imap (fun k _ => response_area (S k) (concat_all (take (S k) (ai_contents chunks))))
       (ai_contents chunks).

(** What [append_row] makes of the files. *)
Definition append_row_files (path : string) (record : dict) (fs : gmap string csv)
    : gmap string csv :=
  match fs !! path with
  | None => <[path := [dict_keys record; dict_values record]]> fs
  | Some rows => <[path := rows ++ [dict_values record]]> fs
  end.

(** What the questionnaire section of a run makes of the files. *)
Definition questionnaire_files (p : pass) (fs : gmap string csv) : gmap string csv :=
  if button p "Submit Questionnaire" && all_values (questionnaire_responses p)
  then append_row_files QUESTIONNAIRE_FILE (questionnaire_responses p) fs
  else fs.

(** What the feedback section of a run makes of the files. *)
Definition feedback_files (p : pass) (fs : gmap string csv) : gmap string csv :=
  if button p "Submit Feedback"
  then append_row_files FEEDBACK_FILE (feedback p) fs
  else fs.

Definition QUESTIONNAIRE_HEADER : list string :=
  ["Name"; "Contact"; "Issue Type"; "Urgency"; "Details"].

Definition FEEDBACK_HEADER : list string :=
  ["User Experience"; "Ease of Use"; "Accuracy"; "Comments"].

Definition one_of (options : list string) (s : string) : bool :=
  existsb (String.eqb s) options.

(** A row of the questionnaire log: five cells, none empty, the two choices
    among their options. *)
Definition questionnaire_row_ok (row : list string) : bool :=
  match row with
  | [name; contact; issue; urgency; details] =>
      Str.truthy name && Str.truthy contact
      && one_of ["Family Law"; "Criminal Law"; "Corporate Law"; "Civil Disputes"; "Other"] issue
      && one_of ["Immediate"; "Within a Week"; "Not Urgent"] urgency
      && Str.truthy details
  | _ => false
  end.

(** A row of the feedback log: four cells, the three choices among their
    options, the comments free. *)
Definition feedback_row_ok (row : list string) : bool :=
  match row with
  | [experience; ease; accuracy; _] =>
      one_of ["Excellent"; "Good"; "Average"; "Poor"] experience
      && one_of ["Yes"; "No"] ease && one_of ["Yes"; "No"] accuracy
  | _ => false
  end.

(** A log is missing, or it is its header followed by well-formed rows. *)
Definition log_ok (header : list string) (row_ok : list string -> bool)
    (file : option csv) : Prop :=
  match file with
  | None => True
  | Some rows => exists body, rows = header :: body /\ forallb row_ok body = true
  end.

Definition logs_ok (fs : gmap string csv) : Prop :=
  log_ok QUESTIONNAIRE_HEADER questionnaire_row_ok (fs !! QUESTIONNAIRE_FILE)
  /\ log_ok FEEDBACK_HEADER feedback_row_ok (fs !! FEEDBACK_FILE).

(** * Properties *)

(** ** Strings *)

Module StrFacts.

Lemma sapp_cons c s t : String c s +:+ t = String c (s +:+ t).
Proof. reflexivity. Qed.

Lemma sapp_nil_l s : EmptyString +:+ s = s.
Proof. reflexivity. Qed.

Lemma sapp_nil_r s : s +:+ EmptyString = s.
Proof. induction s as [|c s IH]; [reflexivity|]. by rewrite sapp_cons, IH. Qed.

Lemma sapp_assoc s t u : (s +:+ t) +:+ u = s +:+ t +:+ u.
Proof. induction s as [|c s IH]; [reflexivity|]. by rewrite !sapp_cons, IH. Qed.

Lemma slength_app s t : String.length (s +:+ t) = String.length s + String.length t.
Proof. induction s as [|c s IH]; [reflexivity|]. rewrite sapp_cons. simpl. by rewrite IH. Qed.

Lemma eqb_true a b : Ascii.eqb a b = true <-> a = b.
Proof. apply Ascii.eqb_eq. Qed.

Lemma startswith_refl_app p s : Str.startswith p (p +:+ s) = true.
Proof.
  induction p as [|c p IH]; [by destruct s|].
  rewrite sapp_cons. simpl. by rewrite Ascii.eqb_refl, IH.
Qed.

(** A prefix no longer than [s] is decided inside [s]. *)
Lemma startswith_app_le p s t :
  String.length p <= String.length s ->
  Str.startswith p (s +:+ t) = Str.startswith p s.
Proof.
  revert s. induction p as [|a p IH]; intros [|b s] Hle; simpl in *; try done; try lia.
  rewrite IH by lia. done.
Qed.

Lemma startswith_split p s :
  Str.startswith p s = true <-> exists t, s = p +:+ t.
Proof.
  split.
  - revert s. induction p as [|a p IH]; intros s Hs.
    + by exists s.
    + destruct s as [|b s]; [done|]. simpl in Hs.
      apply andb_true_iff in Hs as [Hab Hs]. apply eqb_true in Hab as ->.
      destruct (IH _ Hs) as [t ->]. by exists t.
  - intros [t ->]. apply startswith_refl_app.
Qed.

Lemma contains_cons_false sub c s :
  Str.contains sub (String c s) = false ->
  Str.startswith sub (String c s) = false /\ Str.contains sub s = false.
Proof. simpl. intros Hc. by apply orb_false_iff in Hc. Qed.

Lemma contains_app_r sub s t :
  Str.contains sub t = true -> Str.contains sub (s +:+ t) = true.
Proof.
  intros Ht. induction s as [|c s IH]; [done|].
  rewrite sapp_cons. simpl. rewrite IH. apply orb_true_r.
Qed.

Lemma contains_prefix sub t : Str.contains sub (sub +:+ t) = true.
Proof.
  destruct (sub +:+ t) eqn:E; simpl.
  - destruct sub; [done|]. by rewrite sapp_cons in E.
  - rewrite <- E, startswith_refl_app. done.
Qed.

(** [sub in s] exactly when [s] can be cut around an occurrence of [sub]. *)
Lemma contains_split sub s :
  Str.contains sub s = true <-> exists a b, s = a +:+ sub +:+ b.
Proof.
  split.
  - induction s as [|c s IH]; simpl; intros Hc.
    + rewrite orb_false_r in Hc. apply startswith_split in Hc as [t Ht].
      exists EmptyString, t. done.
    + apply orb_true_iff in Hc as [Hc|Hc].
      * apply startswith_split in Hc as [t Ht]. exists EmptyString, t. done.
      * destruct (IH Hc) as (a & b & ->). exists (String c a), b. done.
  - intros (a & b & ->). apply contains_app_r, contains_prefix.
Qed.

Lemma all_chars_app f s t :
  Str.all_chars f (s +:+ t) = Str.all_chars f s && Str.all_chars f t.
Proof.
  induction s as [|c s IH]; [done|]. rewrite sapp_cons. simpl.
  by rewrite IH, andb_assoc.
Qed.

(** Replacement leaves a text alone when it holds no occurrence. *)
Lemma replace_from_absent old new s :
  Str.contains old s = false -> Str.replace_from 0 old new s = s.
Proof.
  induction s as [|c s IH]; [done|]. intros Hc.
  apply contains_cons_false in Hc as [Hp Hc].
  simpl Str.replace_from. rewrite Hp, IH by done. done.
Qed.

Lemma replace_from_skip old new p s :
  Str.replace_from (String.length p) old new (p +:+ s) = Str.replace_from 0 old new s.
Proof.
  induction p as [|c p IH]; [done|]. rewrite sapp_cons. simpl. apply IH.
Qed.

(** Replacement at an occurrence: the new text, then the scan goes on
    behind the occurrence. *)
Lemma replace_from_here a old new s :
  Str.replace_from 0 (String a old) new (String a old +:+ s)
  = new +:+ Str.replace_from 0 (String a old) new s.
Proof.
  pose proof (startswith_refl_app (String a old) s) as Hp.
  rewrite sapp_cons in *. unfold Str.replace_from at 1; fold Str.replace_from.
  rewrite Hp. f_equal. simpl String.length.
  replace (S (String.length old) - 1) with (String.length old) by lia.
  apply replace_from_skip.
Qed.

(** Replacement steps over a character at which [old] does not start. *)
Lemma replace_from_step old new c s :
  Str.startswith old (String c s) = false ->
  Str.replace_from 0 old new (String c s) = String c (Str.replace_from 0 old new s).
Proof. intros Hp. simpl Str.replace_from. by rewrite Hp. Qed.

Lemma all_chars_interleave f new s :
  Str.all_chars f s = true -> Str.all_chars f new = true ->
  Str.all_chars f (Str.interleave new s) = true.
Proof.
  intros Hs Hnew. induction s as [|c s IH]; [done|].
  cbn [Str.all_chars Str.interleave] in *. apply andb_true_iff in Hs as [Hc Hs].
  rewrite all_chars_app, Hnew. cbn [Str.all_chars]. by rewrite Hc, IH.
Qed.

Lemma all_chars_replace_from f skip old new s :
  Str.all_chars f s = true -> Str.all_chars f new = true ->
  Str.all_chars f (Str.replace_from skip old new s) = true.
Proof.
  intros Hs Hnew. revert skip. induction s as [|c s IH]; intros skip; [done|].
  cbn [Str.all_chars] in Hs. apply andb_true_iff in Hs as [Hc Hs].
  cbn [Str.replace_from]. destruct skip as [|k]; [|by apply IH].
  destruct (Str.startswith old (String c s)).
  - by rewrite all_chars_app, Hnew, IH.
  - cbn [Str.all_chars]. by rewrite Hc, IH.
Qed.

(** [s.replace(old, new)] brings no character that [s] and [new] have
    not. *)
Lemma all_chars_replace f old new s :
  Str.all_chars f s = true -> Str.all_chars f new = true ->
  Str.all_chars f (Str.replace old new s) = true.
Proof.
  intros Hs Hnew. destruct old; [by apply all_chars_interleave|].
  by apply all_chars_replace_from.
Qed.

(** A suffix can be taken off both sides. *)
Lemma sapp_inv_r s t u : s +:+ u = t +:+ u -> s = t.
Proof.
  revert t. induction s as [|a s IH]; intros [|b t] E; [done|..].
  - apply (f_equal String.length) in E. rewrite sapp_cons, sapp_nil_l in E.
    cbn [String.length] in E. rewrite slength_app in E. lia.
  - apply (f_equal String.length) in E. rewrite sapp_cons, sapp_nil_l in E.
    cbn [String.length] in E. rewrite slength_app in E. lia.
  - rewrite !sapp_cons in E. injection E as -> E. f_equal. by apply IH.
Qed.

End StrFacts.

(** ** Placeholder extraction *)

Module Placeholders.

Import StrFacts.

Lemma after_open_startswith s :
  Str.startswith "{{" s = false -> Re.after_open s = None.
Proof.
  destruct s as [|a [|b s]]; try done. simpl.
  rewrite (Ascii.eqb_sym "{" a), (Ascii.eqb_sym "{" b), andb_true_r.
  by intros ->.
Qed.

Lemma after_open_marker s : Re.after_open (String "{" (String "{" s)) = Some s.
Proof. reflexivity. Qed.

Lemma findall_from_cons c s :
  Re.findall_from 0 (String c s)
  = match Re.match_here (String c s) with
    | Some g => g :: Re.findall_from (String.length g + 3) s
    | None => Re.findall_from 0 s
    end.
Proof. reflexivity. Qed.

(** On a well-formed name the lazy group stops at the marker's own [}}]. *)
Lemma lazy_group_name name rest :
  name_ok name = true -> Re.lazy_group (name +:+ "}}" +:+ rest) = Some name.
Proof.
  unfold name_ok, spec_name_ok. induction name as [|c name IH]; [done|].
  intros Hok. apply andb_true_iff in Hok as [Hclose Hdot].
  rewrite sapp_cons in Hclose.
  apply negb_true_iff, contains_cons_false in Hclose as [Hhere Hlater].
  simpl in Hdot. apply andb_true_iff in Hdot as [Hc Hdot].
  assert (Str.startswith "}}" (String c (name +:+ "}}" +:+ rest)) = false) as Hp.
  { change (String c (name +:+ "}}" +:+ rest))
      with (String c name +:+ "}" +:+ "}" +:+ rest).
    rewrite <- sapp_assoc, startswith_app_le; [done|].
    rewrite slength_app. simpl. lia. }
  rewrite sapp_cons. unfold Re.lazy_group; fold Re.lazy_group.
  rewrite Hp, Hc, IH; [done|]. by rewrite Hlater, Hdot.
Qed.

(** The scan finds nothing in the text before a marker. *)
Lemma findall_gap gap s :
  gap_ok gap = true ->
  Re.findall_from 0 (gap +:+ "{" +:+ s) = Re.findall_from 0 ("{" +:+ s).
Proof.
  unfold gap_ok. induction gap as [|c gap IH]; [done|].
  intros Hok. rewrite sapp_cons in Hok.
  apply negb_true_iff, contains_cons_false in Hok as [Hhere Hlater].
  rewrite sapp_cons, findall_from_cons.
  unfold Re.match_here. rewrite after_open_startswith.
  - simpl. apply IH. by rewrite Hlater.
  - change (String c (gap +:+ "{" +:+ s)) with (String c gap +:+ "{" +:+ s).
    rewrite <- sapp_assoc, startswith_app_le; [done|].
    rewrite slength_app. simpl. lia.
Qed.

(** The scan finds nothing in a text without [{{]. *)
Lemma findall_tail tail : tail_ok tail = true -> Re.findall_from 0 tail = [].
Proof.
  unfold tail_ok. induction tail as [|c tail IH]; [done|].
  intros Hok. apply negb_true_iff, contains_cons_false in Hok as [Hhere Hlater].
  rewrite findall_from_cons.
  unfold Re.match_here. rewrite after_open_startswith by done.
  simpl. apply IH. by rewrite Hlater.
Qed.

Lemma findall_skip skipped s :
  Re.findall_from (String.length skipped) (skipped +:+ s) = Re.findall_from 0 s.
Proof. induction skipped as [|c skipped IH]; [done|]. simpl. apply IH. Qed.

(** At a marker the scan yields the name and goes on behind the marker. *)
Lemma findall_marker name rest :
  name_ok name = true ->
  Re.findall_from 0 (marker name +:+ rest) = name :: Re.findall_from 0 rest.
Proof.
  intros Hok. unfold marker. rewrite !sapp_assoc.
  change ("{{" +:+ name +:+ "}}" +:+ rest)
    with (String "{" (String "{" (name +:+ "}}" +:+ rest))).
  rewrite findall_from_cons. unfold Re.match_here.
  rewrite after_open_marker.
  change (Some ?x ≫= Re.lazy_group) with (Re.lazy_group x).
  rewrite lazy_group_name by done. f_equal.
  change (String "{" (name +:+ "}}" +:+ rest))
    with ("{" +:+ name +:+ "}}" +:+ rest).
  rewrite <- (sapp_assoc name), <- (sapp_assoc "{").
  replace (String.length name + 3) with (String.length ("{" +:+ name +:+ "}}")).
  - apply findall_skip.
  - rewrite !slength_app. simpl. lia.
Qed.

Lemma findall_item gap name rest :
  gap_ok gap = true -> name_ok name = true ->
  Re.findall_from 0 (gap +:+ marker name +:+ rest) = name :: Re.findall_from 0 rest.
Proof.
  intros Hgap Hname. rewrite <- (findall_marker name rest Hname).
  unfold marker. rewrite !sapp_assoc.
  change ("{{" +:+ name +:+ "}}" +:+ rest) with ("{" +:+ "{" +:+ name +:+ "}}" +:+ rest).
  by apply findall_gap.
Qed.

(** C1, as amended: on a text whose markers are well formed, with names on
    one line, [extract_placeholders] returns exactly the names of the
    markers, in the order of the text and with repetitions. *)
Theorem extract_placeholders_marked items tail :
  marked_ok items tail = true ->
  extract_placeholders (render_marked items tail) = items.*2
  /\ length (extract_placeholders (render_marked items tail)) = length items.
Proof.
  intros Hok. assert (extract_placeholders (render_marked items tail) = items.*2) as E.
  { unfold marked_ok in Hok. apply andb_true_iff in Hok as [Hitems Htail].
    unfold extract_placeholders, Re.findall.
    induction items as [|[gap name] items IH].
    - by apply findall_tail.
    - cbn [forallb fst snd] in Hitems.
      apply andb_true_iff in Hitems as [Hitem Hitems].
      apply andb_true_iff in Hitem as [Hgap Hname].
      change (render_marked ((gap, name) :: items) tail)
        with (gap +:+ marker name +:+ render_marked items tail).
      rewrite findall_item, IH, fmap_cons; done. }
  split; [done|]. by rewrite E, length_fmap.
Qed.

Lemma extract_placeholders_marked_witness :
  marked_ok [("Dear ", "Name"); (", on ", "Date"); (" ", "Name")] " signed." = true
  /\ extract_placeholders "Dear {{Name}}, on {{Date}} {{Name}} signed."
      = ["Name"; "Date"; "Name"]
  /\ length (extract_placeholders "Dear {{Name}}, on {{Date}} {{Name}} signed.") = 3.
Proof.
  split; [reflexivity|].
  exact (extract_placeholders_marked
           [("Dear ", "Name"); (", on ", "Date"); (" ", "Name")] " signed."
           eq_refl).
Defined.

(** C1, as stated, fails: a name that holds a line break is a run of
    characters without [}}], yet the pattern does not match its marker. *)
Lemma extract_placeholders_line_break :
  let items := [("Dear ", "First" +:+ nl +:+ "Last")] in
  spec_marked_ok items "," = true
  /\ extract_placeholders (render_marked items ",") = []
  /\ extract_placeholders (render_marked items ",") <> items.*2.
Proof. vm_compute. repeat split; discriminate. Qed.

End Placeholders.

(** ** Template filling *)

Module Template.

Import StrFacts.

Lemma marker_cons field : marker field = String "{" (String "{" (field +:+ "}}")).
Proof. reflexivity. Qed.

Lemma brace_free_no_open s : brace_free s = true -> no_open s = true.
Proof.
  unfold brace_free, no_open, is_brace. induction s as [|c s IH]; [done|].
  simpl. intros Hs. apply andb_true_iff in Hs as [Hc Hs].
  rewrite IH by done. apply negb_true_iff, orb_false_iff in Hc as [-> _]. done.
Qed.

Lemma brace_free_cons c s :
  brace_free (String c s) = true ->
  Ascii.eqb c "{" = false /\ Ascii.eqb c "}" = false /\ brace_free s = true.
Proof.
  unfold brace_free, is_brace. simpl. intros Hs.
  apply andb_true_iff in Hs as [Hc Hs].
  apply negb_true_iff, orb_false_iff in Hc as [? ?]. done.
Qed.

Lemma no_open_close name : brace_free name = true -> no_open (name +:+ "}}") = true.
Proof.
  intros Hn. unfold no_open. rewrite all_chars_app.
  apply brace_free_no_open in Hn. unfold no_open in Hn. by rewrite Hn.
Qed.

(** A marker starts with [{]: it does not start at any other character. *)
Lemma startswith_marker_other field c s :
  Ascii.eqb c "{" = false -> Str.startswith (marker field) (String c s) = false.
Proof.
  intros Hc. rewrite marker_cons. simpl.
  by rewrite (Ascii.eqb_sym "{" c), Hc.
Qed.

(** The marker of [field] starts where the marker of [name] stands only
    when the two names are the same. *)
Lemma startswith_close field name rest :
  brace_free field = true -> brace_free name = true ->
  Str.startswith (field +:+ "}}") (name +:+ "}}" +:+ rest) = true -> field = name.
Proof.
  revert name. induction field as [|a field IH]; intros [|b name] Hf Hn Hp; try done.
  - apply brace_free_cons in Hn as (_ & Hb & _). simpl in Hp.
    by rewrite (Ascii.eqb_sym "}" b), Hb in Hp.
  - apply brace_free_cons in Hf as (_ & Ha & _). simpl in Hp.
    by rewrite Ha in Hp.
  - simpl in Hp. apply andb_true_iff in Hp as [Hab Hp].
    apply eqb_true in Hab as ->.
    apply brace_free_cons in Hf as (_ & _ & Hf).
    apply brace_free_cons in Hn as (_ & _ & Hn).
    f_equal. by apply IH.
Qed.

Lemma startswith_marker_marker field name rest :
  brace_free field = true -> brace_free name = true -> name <> field ->
  Str.startswith (marker field) (marker name +:+ rest) = false.
Proof.
  intros Hf Hn Hne. apply not_true_is_false. intros Hp. apply Hne. symmetry.
  apply (startswith_close field name rest); [done..|].
  unfold marker in Hp. rewrite !sapp_assoc in Hp. exact Hp.
Qed.

(** Behind the first [{] of a marker no marker starts: a name holds no
    brace, so the next two characters are not [{{]. *)
Lemma startswith_marker_inner field name rest :
  brace_free name = true ->
  Str.startswith (marker field) (String "{" (name +:+ "}}" +:+ rest)) = false.
Proof.
  intros Hn. rewrite marker_cons. simpl.
  destruct name as [|b name]; [done|].
  apply brace_free_cons in Hn as (Hb & _ & _). simpl.
  by rewrite (Ascii.eqb_sym "{" b), Hb.
Qed.

(** The replacement scan copies text without [{]. *)
Lemma replace_from_lit field value text rest :
  no_open text = true ->
  Str.replace_from 0 (marker field) value (text +:+ rest)
  = text +:+ Str.replace_from 0 (marker field) value rest.
Proof.
  unfold no_open. induction text as [|c text IH]; [done|].
  intros Ht. cbn [Str.all_chars] in Ht. apply andb_true_iff in Ht as [Hc Ht].
  apply negb_true_iff in Hc. rewrite !sapp_cons.
  rewrite replace_from_step by by apply startswith_marker_other.
  by rewrite IH.
Qed.

(** The replacement scan copies the marker of another field. *)
Lemma replace_from_other field value name rest :
  brace_free field = true -> brace_free name = true -> name <> field ->
  Str.replace_from 0 (marker field) value (marker name +:+ rest)
  = marker name +:+ Str.replace_from 0 (marker field) value rest.
Proof.
  intros Hf Hn Hne.
  pose proof (startswith_marker_marker field name rest Hf Hn Hne) as H0.
  pose proof (startswith_marker_inner field name rest Hn) as H1.
  assert (forall r, marker name +:+ r = String "{" (String "{" (name +:+ "}}" +:+ r))) as E.
  { intros r. unfold marker. by rewrite !sapp_assoc. }
  rewrite !E in *.
  rewrite replace_from_step by done.
  rewrite replace_from_step by done.
  rewrite <- (sapp_assoc name), replace_from_lit by by apply no_open_close.
  by rewrite sapp_assoc.
Qed.

(** The replacement scan puts the value where the marker of the field
    stands. *)
Lemma replace_from_same field value rest :
  Str.replace_from 0 (marker field) value (marker field +:+ rest)
  = value +:+ Str.replace_from 0 (marker field) value rest.
Proof. rewrite marker_cons. apply replace_from_here. Qed.

Lemma render_cons seg segs : render (seg :: segs) = render_segment seg +:+ render segs.
Proof. reflexivity. Qed.

(** One replacement, read on the segments. *)
Lemma replace_render field value segs :
  brace_free field = true -> forallb segment_ok segs = true ->
  Str.replace_from 0 (marker field) value (render segs)
  = render (fill_one field value <$> segs).
Proof.
  intros Hf. induction segs as [|seg segs IH]; [done|].
  cbn [forallb]. intros Hok. apply andb_true_iff in Hok as [Hseg Hok].
  rewrite fmap_cons, !render_cons.
  destruct seg as [text|name]; cbn [render_segment fill_one].
  - rewrite replace_from_lit by done. by rewrite IH.
  - destruct (String.eqb_spec name field) as [->|Hne]; cbn [render_segment].
    + rewrite replace_from_same. by rewrite IH.
    + rewrite replace_from_other by done. by rewrite IH.
Qed.

(** The guard of the inner loop changes nothing: without an occurrence the
    replacement is the identity. *)
Lemma fill_field_replace text item :
  fill_field text item = Str.replace_from 0 (marker item.1) item.2 text.
Proof.
  unfold fill_field. destruct (Str.contains _ text) eqn:Hc; [done|].
  by rewrite replace_from_absent.
Qed.

Lemma fill_one_ok field value segs :
  no_open value = true -> forallb segment_ok segs = true ->
  forallb segment_ok (fill_one field value <$> segs) = true.
Proof.
  intros Hv. induction segs as [|seg segs IH]; [done|].
  cbn [forallb]. intros Hok. apply andb_true_iff in Hok as [Hseg Hok].
  rewrite fmap_cons. cbn [forallb]. rewrite IH by done.
  destruct seg as [text|name]; cbn [fill_one]; [by rewrite Hseg|].
  simpl in Hseg. destruct (String.eqb name field); simpl; by rewrite ?Hv, ?Hseg.
Qed.

Lemma fill_segment_cons field value user_inputs seg :
  fill_segment ((field, value) :: user_inputs) seg
  = fill_segment user_inputs (fill_one field value seg).
Proof.
  destruct seg as [text|name]; [done|]. cbn [fill_segment fill_one dict_get].
  rewrite (String.eqb_sym field name). by destruct (String.eqb name field).
Qed.

(** All replacements on one paragraph, read on the segments. *)
Lemma fill_paragraph_render user_inputs segs :
  inputs_ok user_inputs = true -> forallb segment_ok segs = true ->
  fill_paragraph user_inputs (render segs) = render (fill_segment user_inputs <$> segs).
Proof.
  unfold fill_paragraph, inputs_ok. revert segs.
  induction user_inputs as [|[field value] user_inputs IH]; intros segs Hin Hok.
  - cbn [foldl]. f_equal. symmetry. rewrite <- (list_fmap_id segs) at 2.
    apply list_fmap_ext. by intros _ [?|?] _.
  - cbn [forallb fst snd] in Hin. apply andb_true_iff in Hin as [Hitem Hin].
    apply andb_true_iff in Hitem as [Hf Hv].
    cbn [foldl]. rewrite fill_field_replace. cbn [fst snd].
    rewrite replace_render, IH by (done || by apply fill_one_ok).
    f_equal. rewrite <- list_fmap_compose. apply list_fmap_ext.
    intros _ seg _. simpl. by rewrite fill_segment_cons.
Qed.

(** The containment test steps over text without [{]. *)
Lemma contains_lit field text rest :
  no_open text = true ->
  Str.contains (marker field) (text +:+ rest) = Str.contains (marker field) rest.
Proof.
  unfold no_open. induction text as [|c text IH]; [done|].
  intros Ht. cbn [Str.all_chars] in Ht. apply andb_true_iff in Ht as [Hc Ht].
  apply negb_true_iff in Hc. rewrite sapp_cons. cbn [Str.contains].
  rewrite startswith_marker_other by done. by rewrite IH.
Qed.

Lemma contains_other field name rest :
  brace_free field = true -> brace_free name = true -> name <> field ->
  Str.contains (marker field) (marker name +:+ rest) = Str.contains (marker field) rest.
Proof.
  intros Hf Hn Hne.
  pose proof (startswith_marker_marker field name rest Hf Hn Hne) as H0.
  pose proof (startswith_marker_inner field name rest Hn) as H1.
  assert (marker name +:+ rest = String "{" (String "{" (name +:+ "}}" +:+ rest))) as E.
  { unfold marker. by rewrite !sapp_assoc. }
  rewrite E in *. cbn [Str.contains]. rewrite H0, H1. cbn [orb].
  rewrite <- (sapp_assoc name). apply contains_lit. by apply no_open_close.
Qed.

(** A marker occurs in a paragraph exactly when it is one of its segments. *)
Lemma contains_render field segs :
  brace_free field = true -> forallb segment_ok segs = true ->
  Str.contains (marker field) (render segs) = has_marker field segs.
Proof.
  intros Hf. induction segs as [|seg segs IH]; [done|].
  cbn [forallb]. intros Hok. apply andb_true_iff in Hok as [Hseg Hok].
  rewrite render_cons. unfold has_marker. cbn [existsb]. fold (has_marker field segs).
  destruct seg as [text|name]; cbn [render_segment].
  - rewrite contains_lit by done. by rewrite IH.
  - destruct (String.eqb_spec name field) as [->|Hne].
    + by rewrite contains_prefix.
    + rewrite contains_other by done. by rewrite IH.
Qed.

Lemma dict_get_key field (user_inputs : dict) :
  field ∈ dict_keys user_inputs -> is_Some (dict_get field user_inputs).
Proof.
  unfold dict_keys. induction user_inputs as [|[k v] user_inputs IH]; intros Hin.
  - by apply elem_of_nil in Hin.
  - rewrite fmap_cons in Hin. apply elem_of_cons in Hin. cbn [dict_get].
    destruct (String.eqb_spec k field) as [->|Hne]; [by eexists|].
    destruct Hin as [->|Hin]; [done|]. by apply IH.
Qed.

Lemma dict_get_no_key field (user_inputs : dict) :
  field ∉ dict_keys user_inputs -> dict_get field user_inputs = None.
Proof.
  unfold dict_keys. induction user_inputs as [|[k v] user_inputs IH]; intros Hin; [done|].
  rewrite fmap_cons in Hin. apply not_elem_of_cons in Hin as [Hne Hin]. cbn [dict_get].
  destruct (String.eqb_spec k field) as [->|_]; [done|]. by apply IH.
Qed.

(** No marker of a field of the map is left among the segments. *)
Lemma has_marker_filled field user_inputs segs :
  field ∈ dict_keys user_inputs ->
  has_marker field (fill_segment user_inputs <$> segs) = false.
Proof.
  intros Hin. apply dict_get_key in Hin as [value Hget].
  unfold has_marker. induction segs as [|seg segs IH]; [done|].
  rewrite fmap_cons. cbn [existsb]. rewrite IH, orb_false_r.
  destruct seg as [text|name]; [done|]. cbn [fill_segment].
  destruct (dict_get name user_inputs) eqn:Hname; [done|].
  destruct (String.eqb_spec name field) as [->|_]; [congruence|done].
Qed.

(** The markers of a field outside the map are where they were. *)
Lemma has_marker_kept field user_inputs segs :
  field ∉ dict_keys user_inputs ->
  has_marker field (fill_segment user_inputs <$> segs) = has_marker field segs.
Proof.
  intros Hin. apply dict_get_no_key in Hin.
  unfold has_marker. induction segs as [|seg segs IH]; [done|].
  rewrite fmap_cons. cbn [existsb]. rewrite IH. f_equal.
  destruct seg as [text|name]; [done|]. cbn [fill_segment].
  destruct (dict_get name user_inputs) eqn:Hname; [|done].
  destruct (String.eqb_spec name field) as [->|_]; [congruence|done].
Qed.

Lemma fill_segment_ok user_inputs segs :
  inputs_ok user_inputs = true -> forallb segment_ok segs = true ->
  forallb segment_ok (fill_segment user_inputs <$> segs) = true.
Proof.
  unfold inputs_ok. revert segs.
  induction user_inputs as [|[field value] user_inputs IH]; intros segs Hin Hok.
  - replace (fill_segment [] <$> segs) with segs; [done|].
    rewrite <- (list_fmap_id segs) at 1. apply list_fmap_ext. by intros _ [?|?] _.
  - cbn [forallb fst snd] in Hin. apply andb_true_iff in Hin as [Hitem Hin].
    apply andb_true_iff in Hitem as [Hf Hv].
    replace (fill_segment ((field, value) :: user_inputs) <$> segs)
      with (fill_segment user_inputs <$> (fill_one field value <$> segs)).
    + apply IH; [done|]. by apply fill_one_ok.
    + rewrite <- list_fmap_compose. apply list_fmap_ext.
      intros _ seg _. simpl. by rewrite fill_segment_cons.
Qed.

Lemma inputs_ok_key field user_inputs :
  inputs_ok user_inputs = true -> field ∈ dict_keys user_inputs -> brace_free field = true.
Proof.
  unfold inputs_ok, dict_keys. intros Hok Hin.
  apply list_elem_of_fmap in Hin as ([k v] & -> & Hin).
  rewrite forallb_forall in Hok. apply list_elem_of_In, Hok in Hin.
  by apply andb_true_iff in Hin as [? _].
Qed.

(** *** The assignment of the text *)

Lemma docx_text_xml_ok s : docx_text s = true -> xml_ok s = true.
Proof.
  unfold docx_text, xml_ok. induction s as [|c s IH]; [done|].
  cbn [Str.all_chars]. intros [[Hc _]%andb_true_iff Hs]%andb_true_iff.
  by rewrite Hc, IH.
Qed.

Lemma read_back_docx_text s : docx_text s = true -> read_back s = s.
Proof.
  unfold docx_text. induction s as [|c s IH]; [done|].
  cbn [Str.all_chars read_back]. intros [[_ Hc]%andb_true_iff Hs]%andb_true_iff.
  apply negb_true_iff in Hc. by rewrite Hc, IH.
Qed.

Lemma xml_ok_read_back s : xml_ok s = true -> xml_ok (read_back s) = true.
Proof.
  unfold xml_ok. induction s as [|c s IH]; [done|].
  cbn [Str.all_chars read_back]. intros [Hc Hs]%andb_true_iff.
  rewrite IH by done. by destruct (Ascii.eqb c carriage_return); rewrite ?Hc.
Qed.

Lemma set_paragraph_text_kept s :
  docx_text s = true -> set_paragraph_text s = Returns s.
Proof.
  intros Hs. unfold set_paragraph_text.
  by rewrite docx_text_xml_ok, read_back_docx_text.
Qed.

Lemma all_values_cons (f : string -> bool) field value (user_inputs : dict) :
  forallb f (dict_values ((field, value) :: user_inputs)) = true ->
  f value = true /\ forallb f (dict_values user_inputs) = true.
Proof. unfold dict_values. rewrite fmap_cons. cbn [forallb snd]. apply andb_true_iff. Qed.

Lemma fill_field_docx_kept text field value :
  docx_text text = true -> docx_text value = true ->
  fill_field_docx text (field, value) = Returns (fill_field text (field, value))
  /\ docx_text (fill_field text (field, value)) = true.
Proof.
  intros Ht Hv. unfold fill_field_docx, fill_field. cbn [fst snd].
  destruct (Str.contains _ text); [|done].
  assert (docx_text (Str.replace (marker field) value text) = true) as Hr
    by by apply all_chars_replace.
  by rewrite set_paragraph_text_kept.
Qed.

(** On texts that a paragraph reads back as assigned, the loop over a
    paragraph returns what the replacements compute. *)
Lemma fill_paragraph_docx_kept user_inputs text :
  docx_text text = true -> forallb docx_text (dict_values user_inputs) = true ->
  fill_paragraph_docx user_inputs text = Returns (fill_paragraph user_inputs text).
Proof.
  unfold fill_paragraph. revert text.
  induction user_inputs as [|[field value] user_inputs IH]; intros text Ht Hv; [done|].
  apply all_values_cons in Hv as [Hvalue Hv]. cbn [fill_paragraph_docx foldl].
  destruct (fill_field_docx_kept text field value Ht Hvalue) as [-> Hkept].
  by apply IH.
Qed.

Lemma fill_document_kept user_inputs doc :
  forallb docx_text doc = true -> forallb docx_text (dict_values user_inputs) = true ->
  fill_document user_inputs doc = Returns (fill_paragraphs user_inputs doc).
Proof.
  intros Hdoc Hv. unfold fill_paragraphs. induction doc as [|text doc IH]; [done|].
  cbn [forallb] in Hdoc. apply andb_true_iff in Hdoc as [Ht Hdoc].
  cbn [fill_document]. by rewrite fill_paragraph_docx_kept, IH.
Qed.

Lemma fill_field_docx_xml text field value :
  xml_ok text = true -> xml_ok value = true ->
  exists text', fill_field_docx text (field, value) = Returns text' /\ xml_ok text' = true.
Proof.
  intros Ht Hv. unfold fill_field_docx. cbn [fst snd].
  destruct (Str.contains _ text); [|by exists text].
  assert (xml_ok (Str.replace (marker field) value text) = true) as Hr
    by by apply all_chars_replace.
  unfold set_paragraph_text. rewrite Hr. eexists. split; [done|].
  by apply xml_ok_read_back.
Qed.

Lemma fill_paragraph_docx_xml user_inputs text :
  xml_ok text = true -> forallb xml_ok (dict_values user_inputs) = true ->
  exists text', fill_paragraph_docx user_inputs text = Returns text'.
Proof.
  revert text.
  induction user_inputs as [|[field value] user_inputs IH]; intros text Ht Hv;
    [by exists text|].
  apply all_values_cons in Hv as [Hvalue Hv]. cbn [fill_paragraph_docx].
  destruct (fill_field_docx_xml text field value Ht Hvalue) as (text' & -> & Ht').
  by apply IH.
Qed.

(** On characters XML holds, no assignment raises. *)
Lemma fill_document_xml user_inputs doc :
  forallb xml_ok doc = true -> forallb xml_ok (dict_values user_inputs) = true ->
  exists filled, fill_document user_inputs doc = Returns filled.
Proof.
  intros Hdoc Hv. induction doc as [|text doc IH]; [by exists []|].
  cbn [forallb] in Hdoc. apply andb_true_iff in Hdoc as [Ht Hdoc].
  cbn [fill_document].
  destruct (fill_paragraph_docx_xml user_inputs text Ht Hv) as [text' ->].
  destruct (IH Hdoc) as [filled ->]. by eexists.
Qed.

Lemma fill_paragraph_docx_untouched user_inputs text :
  (forall field, field ∈ dict_keys user_inputs -> Str.contains (marker field) text = false) ->
  fill_paragraph_docx user_inputs text = Returns text.
Proof.
  unfold dict_keys.
  induction user_inputs as [|[field value] user_inputs IH]; intros Hno; [done|].
  cbn [fill_paragraph_docx]. unfold fill_field_docx. cbn [fst snd].
  rewrite Hno by (rewrite fmap_cons; apply list_elem_of_here).
  apply IH. intros f Hf. apply Hno. rewrite fmap_cons. by apply list_elem_of_further.
Qed.

(** When the loop over the document returns, each paragraph reads what the
    loop over it returned. *)
Lemma fill_document_lookup user_inputs doc filled i text :
  fill_document user_inputs doc = Returns filled -> doc !! i = Some text ->
  exists text',
    fill_paragraph_docx user_inputs text = Returns text' /\ filled !! i = Some text'.
Proof.
  revert filled i. induction doc as [|first doc IH]; intros filled i Hfill Hi; [done|].
  cbn [fill_document] in Hfill.
  destruct (fill_paragraph_docx user_inputs first) as [first'|] eqn:Hfirst; [|done].
  destruct (fill_document user_inputs doc) as [rest|] eqn:Hrest; [|done].
  injection Hfill as <-. destruct i as [|i].
  - injection Hi as ->. by exists first'.
  - by apply (IH rest i).
Qed.

Lemma fill_paragraph_docx_raises user_inputs text e :
  fill_paragraph_docx user_inputs text = Raises e -> e = XML_INCOMPATIBLE.
Proof.
  revert text. induction user_inputs as [|item user_inputs IH]; intros text; [done|].
  cbn [fill_paragraph_docx]. unfold fill_field_docx, set_paragraph_text.
  destruct (Str.contains _ text); [destruct (xml_ok _)|]; try apply IH.
  by intros [= <-].
Qed.

(** The only exception of the loop is the one of the assignment. *)
Lemma fill_document_raises user_inputs doc e :
  fill_document user_inputs doc = Raises e -> e = XML_INCOMPATIBLE.
Proof.
  induction doc as [|text doc IH]; [done|]. cbn [fill_document].
  destruct (fill_paragraph_docx user_inputs text) eqn:Ht.
  - destruct (fill_document user_inputs doc); [done|]. intros [= <-]. by apply IH.
  - intros [= <-]. by eapply fill_paragraph_docx_raises.
Qed.

(** C2, as amended. [fill_docx_template] runs the two loops over the
    paragraphs of the document; it raises only the [ValueError] of an
    assignment, and none when the paragraphs and the values hold only
    characters XML holds. When it returns, a paragraph in which no marker of
    a mapped field occurs reads as it did, for every document and every
    map. On a document made of literal text without [{] and markers whose
    names hold no brace, with field names without braces and values without
    [{], where paragraphs and values are read back as assigned: it returns,
    every marker of a mapped field has become its value and every other
    segment is where it was, so that no marker of a mapped field occurs in
    the result and a marker of any other field occurs in a paragraph exactly
    when it did before. *)
Theorem fill_docx_template_spec `{libs : Libraries} :
  (forall file user_inputs w doc,
      docx_paragraphs (file_bytes file) = Returns doc ->
      fill_docx_template file user_inputs w = (w, fill_document user_inputs doc))
  /\ (forall user_inputs doc e,
        fill_document user_inputs doc = Raises e -> e = XML_INCOMPATIBLE)
  /\ (forall user_inputs doc,
        forallb xml_ok doc = true -> forallb xml_ok (dict_values user_inputs) = true ->
        exists filled, fill_document user_inputs doc = Returns filled)
  /\ (forall user_inputs (doc filled : list string) i text,
        fill_document user_inputs doc = Returns filled ->
        doc !! i = Some text ->
        (forall field, field ∈ dict_keys user_inputs ->
                       Str.contains (marker field) text = false) ->
        filled !! i = Some text)
  /\ (forall user_inputs (doc : list (list segment)),
        doc_ok doc = true -> inputs_ok user_inputs = true ->
        forallb docx_text (render <$> doc) = true ->
        forallb docx_text (dict_values user_inputs) = true ->
        exists filled,
          fill_document user_inputs (render <$> doc) = Returns filled
          /\ filled = render <$> (fmap (fill_segment user_inputs) <$> doc)
          /\ (forall field text,
                field ∈ dict_keys user_inputs -> text ∈ filled ->
                Str.contains (marker field) text = false)
          /\ (forall field i segs,
                brace_free field = true -> field ∉ dict_keys user_inputs ->
                doc !! i = Some segs ->
                exists text,
                  filled !! i = Some text
                  /\ Str.contains (marker field) text
                     = Str.contains (marker field) (render segs))).
Proof.
  split; [|split; [|split; [|split]]].
  - intros file user_inputs w doc Hdoc.
    unfold fill_docx_template, call, mbind, M_bind. by rewrite Hdoc.
  - apply fill_document_raises.
  - apply fill_document_xml.
  - intros user_inputs doc filled i text Hfill Hi Hno.
    destruct (fill_document_lookup _ _ _ _ _ Hfill Hi) as (text' & Ht & ->).
    rewrite fill_paragraph_docx_untouched in Ht by done. by injection Ht as <-.
  - intros user_inputs doc Hdoc Hin Hkept Hvalues.
    assert (forall segs, segs ∈ doc -> forallb segment_ok segs = true) as Hsegs.
    { intros segs Hel. unfold doc_ok in Hdoc. rewrite forallb_forall in Hdoc.
      by apply Hdoc, list_elem_of_In. }
    assert (fill_paragraphs user_inputs (render <$> doc)
            = render <$> (fmap (fill_segment user_inputs) <$> doc)) as E.
    { unfold fill_paragraphs. rewrite <- !list_fmap_compose.
      apply list_fmap_ext. intros i segs Hi. simpl.
      apply fill_paragraph_render; [done|]. by eapply Hsegs, list_elem_of_lookup_2. }
    eexists. split; [by apply fill_document_kept|]. rewrite E.
    split; [done|]. split.
    + intros field text Hfield Htext.
      apply list_elem_of_fmap in Htext as (filled & -> & Hfilled).
      apply list_elem_of_fmap in Hfilled as (segs & -> & Hel).
      rewrite contains_render.
      * by apply has_marker_filled.
      * by eapply inputs_ok_key.
      * apply fill_segment_ok; [done|]. by apply Hsegs.
    + intros field i segs Hfield Hout Hi.
      exists (render (fill_segment user_inputs <$> segs)). split.
      * by rewrite !list_lookup_fmap, Hi.
      * assert (forallb segment_ok segs = true) as Hok
          by by eapply Hsegs, list_elem_of_lookup_2.
        rewrite !contains_render by (done || by apply fill_segment_ok).
        by apply has_marker_kept.
Qed.

Lemma fill_docx_template_spec_witness :
  let doc := [[Lit "Dear "; Marker "Name"; Lit ", see clause "; Marker "Clause"; Lit "."];
              [Lit "Signed, "; Marker "Name"]] in
  let user_inputs := [("Name", "Ada Lovelace")] in
  exists filled,
    fill_document user_inputs
      ["Dear {{Name}}, see clause {{Clause}}."; "Signed, {{Name}}"] = Returns filled
    /\ filled = ["Dear Ada Lovelace, see clause {{Clause}}."; "Signed, Ada Lovelace"].
Proof.
  destruct (proj2 (proj2 (proj2 (proj2 (fill_docx_template_spec (libs := sample_libraries)))))
              [("Name", "Ada Lovelace")]
              [[Lit "Dear "; Marker "Name"; Lit ", see clause "; Marker "Clause"; Lit "."];
               [Lit "Signed, "; Marker "Name"]]
              eq_refl eq_refl eq_refl eq_refl) as (filled & Hfill & Hfilled & _).
  exists filled. split; [exact Hfill|exact Hfilled].
Defined.

(** C2, as stated, fails: a value may itself hold the marker of a field
    that the loop has already passed, and that marker is left in the
    result. *)
Lemma fill_docx_template_marker_in_value :
  let user_inputs := [("Name", "Ada"); ("Address", "c/o {{Name}}, London")] in
  "Name" ∈ dict_keys user_inputs
  /\ fill_paragraphs user_inputs ["{{Name}} lives at {{Address}}."]
     = ["Ada lives at c/o {{Name}}, London."]
  /\ fill_document user_inputs ["{{Name}} lives at {{Address}}."]
     = Returns ["Ada lives at c/o {{Name}}, London."]
  /\ Str.contains (marker "Name") "Ada lives at c/o {{Name}}, London." = true.
Proof. split; [|split; [|split]]; [|reflexivity..]. apply list_elem_of_here. Qed.

End Template.

(** ** Script code *)

Module Script.

Lemma bind_run {A B : Type} (m : M A) (k : A -> M B) w :
  (m ≫= k) w
  = match m w with
    | (w', Returns a) => k a w'
    | (w', Raises e) => (w', Raises e)
    end.
Proof. reflexivity. Qed.

Lemma ret_run {A : Type} (a : A) w : (mret a : M A) w = (w, Returns a).
Proof. reflexivity. Qed.

Lemma emit_run e w : emit e w = (draw [e] w, Returns ()).
Proof. reflexivity. Qed.

Lemma emit_bind {B : Type} e (k : unit -> M B) w :
  (emit e ≫= k) w = k () (draw [e] w).
Proof. reflexivity. Qed.

Lemma call_bind {A B : Type} (r : outcome A) (k : A -> M B) w :
  (call r ≫= k) w
  = match r with
    | Returns a => k a w
    | Raises e => (w, Raises e)
    end.
Proof. by destruct r. Qed.

Lemma draw_draw es es' w : draw es' (draw es w) = draw (es ++ es') w.
Proof. unfold draw. simpl. by rewrite app_assoc. Qed.

Lemma draw_nil w : draw [] w = w.
Proof. destruct w. unfold draw. simpl. by rewrite app_nil_r. Qed.

Lemma chat_history_draw es w : chat_history (draw es w) = chat_history w.
Proof. reflexivity. Qed.

Lemma files_draw es w : files (draw es w) = files w.
Proof. reflexivity. Qed.

Lemma screen_draw es w : screen (draw es w) = screen w ++ es.
Proof. reflexivity. Qed.

End Script.

(** ** Text extraction and summarization *)

Module Summarizer.

Import StrFacts Script.

Section Extraction.

Context `{libs : Libraries}.

Lemma extract_pdf file w :
  file_type file = PDF ->
  extract_text_from_file file w
  = match pdf_pages (file_bytes file) with
    | Returns pages =>
        (w, Returns (Some (foldl (fun text page => text +:+ page) EmptyString pages)))
    | Raises e => (w, Raises e)
    end.
Proof.
  intros E. unfold extract_text_from_file. rewrite E. cbn [String.eqb].
  change (String.eqb PDF PDF) with true. cbv iota.
  rewrite call_bind. by destruct (pdf_pages _).
Qed.

Lemma extract_docx file w :
  file_type file = DOCX ->
  extract_text_from_file file w
  = match docx_paragraphs (file_bytes file) with
    | Returns paragraphs => (w, Returns (Some (Str.join nl paragraphs)))
    | Raises e => (w, Raises e)
    end.
Proof.
  intros E. unfold extract_text_from_file. rewrite E.
  change (String.eqb DOCX PDF) with false.
  change (String.eqb DOCX DOCX) with true. cbv iota.
  rewrite call_bind. by destruct (docx_paragraphs _).
Qed.

Lemma extract_txt file w :
  file_type file = TXT ->
  extract_text_from_file file w
  = match utf8_decode (file_bytes file) with
    | Returns text => (w, Returns (Some text))
    | Raises e => (w, Raises e)
    end.
Proof.
  intros E. unfold extract_text_from_file. rewrite E.
  change (String.eqb TXT PDF) with false.
  change (String.eqb TXT DOCX) with false.
  change (String.eqb TXT TXT) with true. cbv iota.
  rewrite call_bind. by destruct (utf8_decode _).
Qed.

Lemma extract_other file w :
  supported (file_type file) = false ->
  extract_text_from_file file w = (w, Returns None).
Proof.
  unfold supported, extract_text_from_file. intros E.
  apply orb_false_iff in E as [E Etxt]. apply orb_false_iff in E as [Epdf Edocx].
  by rewrite Epdf, Edocx, Etxt.
Qed.

Lemma supported_cases content_type :
  supported content_type = true ->
  content_type = PDF \/ content_type = DOCX \/ content_type = TXT.
Proof.
  unfold supported. intros E.
  apply orb_true_iff in E as [E|E]; [apply orb_true_iff in E as [E|E]|];
    apply String.eqb_eq in E; auto.
Qed.

(** On a supported type the function returns a text or raises, never the
    unsupported signal. *)
Lemma extract_supported file w :
  supported (file_type file) = true ->
  (exists text, extract_text_from_file file w = (w, Returns (Some text)))
  \/ (exists e, extract_text_from_file file w = (w, Raises e)).
Proof.
  intros E. destruct (supported_cases _ E) as [E'|[E'|E']].
  - rewrite extract_pdf by done. destruct (pdf_pages _); eauto.
  - rewrite extract_docx by done. destruct (docx_paragraphs _); eauto.
  - rewrite extract_txt by done. destruct (utf8_decode _); eauto.
Qed.

Lemma extract_frame file w w0 :
  extract_text_from_file file w = (w, (extract_text_from_file file w0).2).
Proof.
  destruct (supported (file_type file)) eqn:E.
  - destruct (supported_cases _ E) as [E'|[E'|E']].
    + rewrite !extract_pdf by done. by destruct (pdf_pages _).
    + rewrite !extract_docx by done. by destruct (docx_paragraphs _).
    + rewrite !extract_txt by done. by destruct (utf8_decode _).
  - by rewrite !extract_other.
Qed.

Lemma foldl_append acc pages :
  foldl (fun text page => text +:+ page) acc pages = acc +:+ concat_all pages.
Proof.
  revert acc. induction pages as [|page pages IH]; intros acc; simpl.
  - by rewrite sapp_nil_r.
  - by rewrite IH, sapp_assoc.
Qed.

Lemma split_on_line s :
  Str.all_chars Re.dot s = true -> split_on Re.newline s = [s].
Proof.
  induction s as [|c s IH]; [done|]. cbn [Str.all_chars split_on].
  intros Hs. apply andb_true_iff in Hs as [Hc Hs].
  apply negb_true_iff in Hc. by rewrite Hc, IH.
Qed.

Lemma split_on_first s t :
  Str.all_chars Re.dot s = true ->
  split_on Re.newline (s +:+ nl +:+ t) = s :: split_on Re.newline t.
Proof.
  induction s as [|c s IH].
  - intros _. cbn. by rewrite Ascii.eqb_refl.
  - cbn [Str.all_chars]. intros Hs. apply andb_true_iff in Hs as [Hc Hs].
    apply negb_true_iff in Hc. rewrite sapp_cons. cbn [split_on].
    by rewrite Hc, IH.
Qed.

Lemma join_cons sep first second rest :
  Str.join sep (first :: second :: rest)
  = first +:+ sep +:+ Str.join sep (second :: rest).
Proof. reflexivity. Qed.

Lemma split_on_join first rest :
  Forall (fun paragraph => Str.all_chars Re.dot paragraph = true) (first :: rest) ->
  split_on Re.newline (Str.join nl (first :: rest)) = first :: rest.
Proof.
  revert first. induction rest as [|second rest IH]; intros first Hall.
  - apply split_on_line. by apply Forall_inv in Hall.
  - rewrite join_cons. apply Forall_cons in Hall as [Hfirst Hrest].
    by rewrite split_on_first, IH.
Qed.

Lemma join_app sep before after :
  before <> [] -> after <> [] ->
  Str.join sep (before ++ after) = Str.join sep before +:+ sep +:+ Str.join sep after.
Proof.
  intros Hb Ha. induction before as [|first before IH]; [done|].
  destruct before as [|second before].
  - destruct after as [|third after]; [done|]. reflexivity.
  - rewrite <- !app_comm_cons, !join_cons, !sapp_assoc. do 2 f_equal.
    rewrite app_comm_cons. by apply IH.
Qed.

Lemma summarization_unreadable file p w e :
  file_upload p = Some file -> extract_text_from_file file w = (w, Raises e) ->
  summarization_section p w
  = (draw [Subheader "Upload a Legal Document for Summarization"] w, Raises e).
Proof.
  intros Hfile Hraise. unfold summarization_section.
  rewrite emit_bind, Hfile, bind_run.
  rewrite (extract_frame file _ w), Hraise. done.
Qed.

(** C3, as amended: [extract_text_from_file] returns [None] exactly for a
    content type outside PDF, DOCX and plain text. For those three it
    returns a text exactly when the reader of the declared type returns on
    the bytes, and it raises exactly the exception the reader raises: it
    catches nothing, and neither does its caller, so that the exception ends
    the section behind its heading. The caller draws the same error for
    [None] and for an empty text, and shows only a non-empty one. *)
Theorem extract_text_unsupported file p w :
  (extract_text_from_file file w = (w, Returns None)
   <-> supported (file_type file) = false)
  /\ (supported (file_type file) = true ->
      (well_formed file
       <-> exists text, extract_text_from_file file w = (w, Returns (Some text)))
      /\ (forall e,
            extract_text_from_file file w = (w, Raises e)
            <-> (file_type file = PDF /\ pdf_pages (file_bytes file) = Raises e)
                \/ (file_type file = DOCX
                    /\ docx_paragraphs (file_bytes file) = Raises e)
                \/ (file_type file = TXT /\ utf8_decode (file_bytes file) = Raises e)))
  /\ (forall e,
        file_upload p = Some file -> extract_text_from_file file w = (w, Raises e) ->
        summarization_section p w
        = (draw [Subheader "Upload a Legal Document for Summarization"] w, Raises e))
  /\ show_document p None w = (draw [unable_to_extract] w, Returns ())
  /\ show_document p (Some EmptyString) w = (draw [unable_to_extract] w, Returns ())
  /\ (forall c text,
        show_document p (Some (String c text)) w
        = when (button p "Summarize Document") (summarize_document p (String c text))
            (draw [Write "File Uploaded Successfully!";
                   TextArea "Extracted Document Content" (String c text) None] w)).
Proof.
  split; [split|split; [|split; [|split; [|split]]]]; try done.
  - intros Hnone. destruct (supported (file_type file)) eqn:E; [|done].
    destruct (extract_supported file w E) as [[t Ht]|[e He]]; congruence.
  - apply extract_other.
  - intros E. split; [split|].
    + intros (Hpdf & Hdocx & Htxt). destruct (supported_cases _ E) as [E'|[E'|E']].
      * destruct (Hpdf E') as [pages Hr]. rewrite extract_pdf, Hr by done. eauto.
      * destruct (Hdocx E') as [paragraphs Hr]. rewrite extract_docx, Hr by done. eauto.
      * destruct (Htxt E') as [text Hr]. rewrite extract_txt, Hr by done. eauto.
    + intros [text Hr]. split; [|split]; intros E'.
      * rewrite extract_pdf in Hr by done. destruct (pdf_pages _); [eauto|done].
      * rewrite extract_docx in Hr by done. destruct (docx_paragraphs _); [eauto|done].
      * rewrite extract_txt in Hr by done. destruct (utf8_decode _); [eauto|done].
    + intros e. split.
      * intros Hr. destruct (supported_cases _ E) as [E'|[E'|E']].
        -- left. split; [done|]. rewrite extract_pdf in Hr by done.
           destruct (pdf_pages _); congruence.
        -- right; left. split; [done|]. rewrite extract_docx in Hr by done.
           destruct (docx_paragraphs _); congruence.
        -- right; right. split; [done|]. rewrite extract_txt in Hr by done.
           destruct (utf8_decode _); congruence.
      * intros [[E' Hr]|[[E' Hr]|[E' Hr]]].
        -- by rewrite extract_pdf, Hr.
        -- by rewrite extract_docx, Hr.
        -- by rewrite extract_txt, Hr.
  - intros e. apply summarization_unreadable.
  - intros c text. unfold show_document. cbn [text_truthy Str.truthy default].
    rewrite !emit_bind. by rewrite draw_draw.
Qed.

(** C7, as amended: the text of a PDF is its pages one after the other in
    the order of the document, with nothing between them; the text of a DOCX
    its paragraphs in that order with one newline between consecutive
    paragraphs (so that splitting at the newlines gives the paragraphs back
    when none holds a newline itself); and the text of a plain-text file its
    decoded bytes. *)
Theorem extract_text_document_order file w :
  (forall pages,
      file_type file = PDF -> pdf_pages (file_bytes file) = Returns pages ->
      extract_text_from_file file w = (w, Returns (Some (concat_all pages))))
  /\ (forall paragraphs,
        file_type file = DOCX ->
        docx_paragraphs (file_bytes file) = Returns paragraphs ->
        extract_text_from_file file w = (w, Returns (Some (Str.join nl paragraphs))))
  /\ (forall text,
        file_type file = TXT -> utf8_decode (file_bytes file) = Returns text ->
        extract_text_from_file file w = (w, Returns (Some text)))
  /\ (forall first rest,
        Forall (fun paragraph => Str.all_chars Re.dot paragraph = true) (first :: rest) ->
        split_on Re.newline (Str.join nl (first :: rest)) = first :: rest)
  /\ (forall before after,
        before <> [] -> after <> [] ->
        Str.join nl (before ++ after)
        = Str.join nl before +:+ nl +:+ Str.join nl after).
Proof.
  split; [|split; [|split; [|split]]].
  - intros pages E Hr. rewrite extract_pdf, Hr by done.
    by rewrite foldl_append.
  - intros paragraphs E Hr. by rewrite extract_docx, Hr.
  - intros text E Hr. by rewrite extract_txt, Hr.
  - apply split_on_join.
  - apply join_app.
Qed.

End Extraction.

Lemma sample_well_formed file : well_formed (libs := sample_libraries) file.
Proof. repeat split; intros _; eexists; reflexivity. Defined.

Lemma extract_text_unsupported_witness :
  let latin1 := Upload TXT (String "233"%char "t" +:+ String "233"%char EmptyString) in
  supported TXT = true
  /\ (exists text,
         extract_text_from_file (libs := paged_libraries) (Upload TXT "Lease of 1 May")
           (fresh ∅)
         = (fresh ∅, Returns (Some text)))
  /\ extract_text_from_file (libs := paged_libraries) latin1 (fresh ∅)
     = (fresh ∅, Raises "UnicodeDecodeError").
Proof.
  split; [reflexivity|]. split.
  - apply (proj1 (proj1 (proj1 (proj2 (extract_text_unsupported (libs := paged_libraries)
                                          (Upload TXT "Lease of 1 May") idle (fresh ∅)))
                                eq_refl))).
    repeat split; intros _; eexists; reflexivity.
  - apply (proj2 (proj1 (proj2 (extract_text_unsupported (libs := paged_libraries)
                                  (Upload TXT (String "233"%char "t"
                                               +:+ String "233"%char EmptyString))
                                  idle (fresh ∅)))
                        eq_refl)).
    right; right. split; reflexivity.
Defined.

(** C3, as stated, fails: an empty plain-text file is extracted to the empty
    text, an image gets the unsupported signal, and the page draws the same
    for both. *)
Lemma summarization_conflates_empty_and_unsupported :
  let empty := Upload TXT EmptyString in
  let image := Upload "image/png" "PNG" in
  extract_text_from_file (libs := sample_libraries) empty (fresh ∅)
    = (fresh ∅, Returns (Some EmptyString))
  /\ extract_text_from_file (libs := sample_libraries) image (fresh ∅)
     = (fresh ∅, Returns None)
  /\ summarization_section (libs := sample_libraries) (with_file empty idle) (fresh ∅)
     = summarization_section (libs := sample_libraries) (with_file image idle) (fresh ∅).
Proof. repeat split. Qed.

Lemma extract_text_document_order_witness :
  let pdf := Upload PDF ("Parties" +:+ String form_feed "Term" +:+ String form_feed "Rent") in
  let docx := Upload DOCX ("Parties" +:+ nl +:+ "Term" +:+ nl +:+ "Rent") in
  extract_text_from_file (libs := paged_libraries) pdf (fresh ∅)
  = (fresh ∅, Returns (Some "PartiesTermRent"))
  /\ extract_text_from_file (libs := paged_libraries) docx (fresh ∅)
     = (fresh ∅, Returns (Some (Str.join nl ["Parties"; "Term"; "Rent"])))
  /\ split_on Re.newline (Str.join nl ["Parties"; "Term"; "Rent"]) = ["Parties"; "Term"; "Rent"].
Proof.
  split; [|split].
  - exact (proj1 (extract_text_document_order (libs := paged_libraries)
                    (Upload PDF ("Parties" +:+ String form_feed "Term"
                                 +:+ String form_feed "Rent"))
                    (fresh ∅))
                 ["Parties"; "Term"; "Rent"] eq_refl eq_refl).
  - exact (proj1 (proj2 (extract_text_document_order (libs := paged_libraries)
                           (Upload DOCX ("Parties" +:+ nl +:+ "Term" +:+ nl +:+ "Rent"))
                           (fresh ∅)))
                 ["Parties"; "Term"; "Rent"] eq_refl eq_refl).
  - apply (proj1 (proj2 (proj2 (proj2 (extract_text_document_order (libs := paged_libraries)
                    (Upload PDF "page") (fresh ∅)))))).
    repeat constructor.
Defined.

(** C7, as stated, fails: between two pages of a PDF the function puts no
    newline and nothing else, the text of the second page follows the text
    of the first directly. *)
Lemma extract_text_pages_glued :
  let pdf := Upload PDF ("Page one" +:+ String form_feed "Page two") in
  pdf_pages (Libraries := paged_libraries) (file_bytes pdf)
    = Returns ["Page one"; "Page two"]
  /\ extract_text_from_file (libs := paged_libraries) pdf (fresh ∅)
     = (fresh ∅, Returns (Some "Page onePage two"))
  /\ Str.contains nl "Page onePage two" = false
  /\ "Page onePage two" <> Str.join nl ["Page one"; "Page two"].
Proof. repeat split. discriminate. Qed.

End Summarizer.

(** ** The summarize action *)

Module Summarize.

Import StrFacts Script.

Lemma first_summary_text_frame summary w :
  exists r, first_summary_text summary w = (w, r).
Proof.
  destruct summary as [|first rest]; [by eexists|]. simpl.
  destruct (dict_get _ first); by eexists.
Qed.

(** Whatever the pipeline does, [summarize_document] returns, having only
    drawn. *)
Lemma summarize_document_returns p document_text w :
  exists drawn, summarize_document p document_text w = (draw drawn w, Returns ()).
Proof.
  unfold summarize_document, try_except. rewrite call_bind.
  destruct (summarizer p document_text) as [summary|e].
  - rewrite emit_bind, bind_run.
    destruct (first_summary_text_frame summary (draw [Subheader "Document Summary"] w))
      as [[text|e] ->].
    + rewrite emit_run, draw_draw. by eexists.
    + rewrite emit_run, draw_draw. by eexists.
  - rewrite emit_run. by eexists.
Qed.

(** C9: a failure of the summarization pipeline is caught and drawn as an
    error; [summarize_document] never raises and changes nothing but the
    screen, to which it only adds; the section then shows the extracted text
    and, below it, the error, and returns, so the script goes on with the
    sections that follow. *)
Theorem summarize_failure_caught `{libs : Libraries} p document_text w :
  (forall e,
      summarizer p document_text = Raises e ->
      summarize_document p document_text w
      = (draw [Error ("Error during summarization: " +:+ e)] w, Returns ()))
  /\ (exists drawn, summarize_document p document_text w = (draw drawn w, Returns ()))
  /\ (forall file e,
        file_upload p = Some file ->
        (extract_text_from_file file w).2 = Returns (Some document_text) ->
        Str.truthy document_text = true ->
        button p "Summarize Document" = true ->
        summarizer p document_text = Raises e ->
        summarization_section p w
        = (draw [Subheader "Upload a Legal Document for Summarization";
                 Write "File Uploaded Successfully!";
                 TextArea "Extracted Document Content" document_text None;
                 Error ("Error during summarization: " +:+ e)] w,
           Returns ())).
Proof.
  assert (forall e w', summarizer p document_text = Raises e ->
            summarize_document p document_text w'
            = (draw [Error ("Error during summarization: " +:+ e)] w', Returns ())) as Hcaught.
  { intros e w' He. unfold summarize_document, try_except.
    by rewrite call_bind, He, emit_run. }
  split; [|split].
  - intros e. apply Hcaught.
  - apply summarize_document_returns.
  - intros file e Hfile Htext Htruthy Hbutton He.
    unfold summarization_section. rewrite emit_bind, Hfile, bind_run.
    rewrite (Summarizer.extract_frame file _ w), Htext.
    unfold show_document. cbn [text_truthy default].
    rewrite Htruthy, !emit_bind, Hbutton. cbn [when].
    rewrite (Hcaught e) by done. by rewrite !draw_draw.
Qed.

Lemma summarize_failure_caught_witness :
  let p := pressing "Summarize Document" (with_file (Upload TXT "Lease of 1 May") idle) in
  summarizer p "Lease of 1 May" = Raises "pipeline unavailable"
  /\ summarization_section (libs := sample_libraries) p (fresh ∅)
     = (draw [Subheader "Upload a Legal Document for Summarization";
              Write "File Uploaded Successfully!";
              TextArea "Extracted Document Content" "Lease of 1 May" None;
              Error "Error during summarization: pipeline unavailable"] (fresh ∅),
        Returns ()).
Proof.
  split; [reflexivity|].
  exact (proj2 (proj2 (summarize_failure_caught (libs := sample_libraries)
                         (pressing "Summarize Document"
                            (with_file (Upload TXT "Lease of 1 May") idle))
                         "Lease of 1 May" (fresh ∅)))
               (Upload TXT "Lease of 1 May") "pipeline unavailable"
               eq_refl eq_refl eq_refl eq_refl eq_refl).
Defined.

End Summarize.

(** ** The chat stream *)

Module Chat.

Import StrFacts Script.

Lemma ai_contents_cons content rest :
  ai_contents (AIMessage content :: rest) = content :: ai_contents rest.
Proof. reflexivity. Qed.

(** What the streaming loop draws: after the [k]-th assistant chunk, the
    texts of the first [k] assistant chunks one after the other. *)
Lemma display_chunks_frames chunks failure acc n w :
  display_chunks chunks failure acc n w
  = (draw (imap (fun k _ =>
                   response_area (n + S k)
                     (acc +:+ concat_all (take (S k) (ai_contents chunks))))
                (ai_contents chunks)) w,
     match failure with
     | None => Returns ()
     | Some e => Raises e
     end).
Proof.
  revert acc n w. induction chunks as [|chunk chunks IH]; intros acc n w.
  - simpl. rewrite draw_nil. by destruct failure.
  - destruct chunk as [content|content|content]; cbn [display_chunks]; [apply IH| |apply IH].
    rewrite emit_bind, IH, draw_draw, ai_contents_cons, imap_cons.
    f_equal. f_equal. cbn [app]. f_equal.
    + cbn [take concat_all foldr]. by rewrite sapp_nil_r.
    + apply imap_ext. intros k c _. cbn [compose take concat_all foldr].
      rewrite sapp_assoc. f_equal. lia.
Qed.

(** C4: the handler draws the response area once per assistant chunk, in the
    order of delivery; after the [k]-th it shows the texts of the first [k]
    assistant chunks one after the other; chunks of other classes draw
    nothing and add nothing. For the stream "Hel", "lo ", "world" the area
    shows "Hel", then "Hello ", then "Hello world". *)
Theorem display_response_in_order p input_messages selected_language w :
  let chunks := (astream p input_messages selected_language).1 in
  let failure := (astream p input_messages selected_language).2 in
  display_response p input_messages selected_language w
  = (draw (imap (fun k _ =>
                   response_area (S k) (concat_all (take (S k) (ai_contents chunks))))
                (ai_contents chunks)) w,
     match failure with
     | None => Returns ()
     | Some e => Raises e
     end)
  /\ (forall k, k < length (ai_contents chunks) ->
        screen (display_response p input_messages selected_language w).1
          !! (length (screen w) + k)
        = Some (response_area (S k) (concat_all (take (S k) (ai_contents chunks)))))
  /\ length (screen (display_response p input_messages selected_language w).1)
     = length (screen w) + length (ai_contents chunks)
  /\ display_chunks [AIMessage "Hel"; AIMessage "lo "; AIMessage "world"] None EmptyString 0 w
     = (draw [response_area 1 "Hel"; response_area 2 "Hello ";
              response_area 3 "Hello world"] w, Returns ())
  /\ display_chunks [OtherMessage "tool"; AIMessage "Hel"; HumanMessage "hi";
                     AIMessage "lo "; AIMessage "world"] None EmptyString 0 w
     = display_chunks [AIMessage "Hel"; AIMessage "lo "; AIMessage "world"] None EmptyString 0 w.
Proof.
  intros chunks failure.
  assert (display_response p input_messages selected_language w
          = (draw (imap (fun k _ =>
                           response_area (S k)
                             (concat_all (take (S k) (ai_contents chunks))))
                        (ai_contents chunks)) w,
             match failure with
             | None => Returns ()
             | Some e => Raises e
             end)) as E.
  { unfold display_response. cbv zeta. by rewrite display_chunks_frames. }
  split; [done|]. rewrite E. cbn [fst]. rewrite screen_draw. split; [|split; [|split]].
  - intros k Hk. rewrite lookup_app_r by lia.
    replace (length (screen w) + k - length (screen w)) with k by lia.
    rewrite list_lookup_imap.
    destruct (lookup_lt_is_Some_2 (ai_contents chunks) k Hk) as [c ->]. done.
  - by rewrite length_app, length_imap.
  - by rewrite display_chunks_frames.
  - by rewrite !display_chunks_frames.
Qed.

End Chat.

(** ** The two CSV logs *)

Module Persistence.

Import Script.

Lemma append_row_new path record w :
  files w !! path = None ->
  append_row path record w
  = (World (screen w) (chat_history w)
           (<[path := [dict_keys record; dict_values record]]> (files w)),
     Returns ()).
Proof.
  intros Hnew.
  unfold append_row, path_exists, to_csv, get_files, set_files, mbind, M_bind, mret, M_ret.
  cbv beta iota. case_bool_decide as Hthere; [|done].
  destruct Hthere as [rows Hrows]. congruence.
Qed.

Lemma append_row_existing path record w rows :
  files w !! path = Some rows ->
  append_row path record w
  = (World (screen w) (chat_history w)
           (<[path := rows ++ [dict_values record]]> (files w)),
     Returns ()).
Proof.
  intros Hold.
  unfold append_row, path_exists, to_csv_append, get_files, set_files, mbind, M_bind, mret, M_ret.
  cbv beta iota. case_bool_decide as Hthere; [|by destruct Hthere; eexists].
  cbn [negb]. cbv beta. by rewrite Hold.
Qed.

(** Calls on an existing file: one row each, behind the rows it held. *)
Lemma append_rows_existing path records w rows :
  files w !! path = Some rows ->
  for_each records (append_row path) w
  = (World (screen w) (chat_history w)
           (<[path := rows ++ (dict_values <$> records)]> (files w)),
     Returns ()).
Proof.
  revert w rows. induction records as [|record records IH]; intros w rows Hold.
  - cbn [for_each fmap list_fmap]. rewrite ret_run, app_nil_r, insert_id by done.
    by destruct w.
  - cbn [for_each]. rewrite bind_run, (append_row_existing _ _ _ rows) by done.
    rewrite (IH _ (rows ++ [dict_values record])) by apply lookup_insert_eq.
    cbn [screen chat_history files]. rewrite insert_insert_eq, fmap_cons, <- app_assoc.
    done.
Qed.

(** From a missing file: the header and the row of the first call, then one
    row for each later call. *)
Lemma append_rows_new path first later w :
  files w !! path = None ->
  for_each (first :: later) (append_row path) w
  = (World (screen w) (chat_history w)
           (<[path := dict_keys first :: dict_values first :: (dict_values <$> later)]>
              (files w)),
     Returns ()).
Proof.
  intros Hnew. cbn [for_each]. rewrite bind_run, append_row_new by done.
  rewrite (append_rows_existing _ _ _ [dict_keys first; dict_values first])
    by apply lookup_insert_eq.
  cbn [screen chat_history files]. by rewrite insert_insert_eq.
Qed.

(** C5: on a missing file the first call writes the field names of its
    record as the first row and the values as the second; every later call,
    and every call on a file that exists, adds exactly one row of values and
    no header. So for the feedback log and for the questionnaire log. Nothing
    else changes: not the screen, not the session, not another file. *)
Theorem append_row_header_once first later w :
  (files w !! FEEDBACK_FILE = None ->
   for_each (first :: later) save_feedback_to_csv w
   = (World (screen w) (chat_history w)
            (<[FEEDBACK_FILE :=
                 dict_keys first :: dict_values first :: (dict_values <$> later)]>
               (files w)),
      Returns ()))
  /\ (files w !! QUESTIONNAIRE_FILE = None ->
      for_each (first :: later) save_questionnaire_to_csv w
      = (World (screen w) (chat_history w)
               (<[QUESTIONNAIRE_FILE :=
                    dict_keys first :: dict_values first :: (dict_values <$> later)]>
                  (files w)),
         Returns ()))
  /\ (forall rows,
        files w !! FEEDBACK_FILE = Some rows ->
        save_feedback_to_csv first w
        = (World (screen w) (chat_history w)
                 (<[FEEDBACK_FILE := rows ++ [dict_values first]]> (files w)),
           Returns ()))
  /\ (forall rows,
        files w !! QUESTIONNAIRE_FILE = Some rows ->
        save_questionnaire_to_csv first w
        = (World (screen w) (chat_history w)
                 (<[QUESTIONNAIRE_FILE := rows ++ [dict_values first]]> (files w)),
           Returns ())).
Proof.
  split; [|split; [|split]].
  - apply append_rows_new.
  - apply append_rows_new.
  - intros rows. apply append_row_existing.
  - intros rows. apply append_row_existing.
Qed.

Lemma append_row_header_once_witness :
  let first := [("User Experience", "Good"); ("Comments", "Clear answers")] in
  let second := [("User Experience", "Poor"); ("Comments", "Too slow")] in
  files (fresh ∅) !! FEEDBACK_FILE = None
  /\ files (for_each [first; second] save_feedback_to_csv (fresh ∅)).1 !! FEEDBACK_FILE
     = Some [["User Experience"; "Comments"]; ["Good"; "Clear answers"];
             ["Poor"; "Too slow"]].
Proof.
  split; [apply lookup_empty|].
  rewrite (proj1 (append_row_header_once
                    [("User Experience", "Good"); ("Comments", "Clear answers")]
                    [[("User Experience", "Poor"); ("Comments", "Too slow")]]
                    (fresh ∅)) (lookup_empty _)).
  apply lookup_insert_eq.
Defined.

End Persistence.

(** ** The Generate Filled Document action *)

Module TemplateForm.

Import Script.

Lemma dict_set_new k v (d : dict) : k ∉ dict_keys d -> dict_set k v d = d ++ [(k, v)].
Proof.
  unfold dict_keys. induction d as [|[k' v'] d IH]; intros Hout; [done|].
  rewrite fmap_cons in Hout. apply not_elem_of_cons in Hout as [Hne Hout].
  cbn [dict_set fst] in *. destruct (String.eqb_spec k' k) as [?|_]; [by subst|].
  by rewrite IH.
Qed.

Lemma dict_keys_field_values p placeholders :
  dict_keys (field_values p placeholders) = placeholders.
Proof.
  unfold dict_keys, field_values. rewrite <- list_fmap_compose.
  induction placeholders as [|x placeholders IH]; [done|].
  rewrite fmap_cons. by rewrite IH.
Qed.

Lemma truthy_empty s : Str.truthy s = true <-> s <> EmptyString.
Proof. by destruct s. Qed.

(** [all(user_inputs.values())] holds exactly when something was typed for
    every placeholder. *)
Lemma all_values_field_values p placeholders :
  all_values (field_values p placeholders) = true
  <-> forall placeholder, placeholder ∈ placeholders ->
                          text_input p (placeholder +:+ ":") <> EmptyString.
Proof.
  unfold all_values, dict_values, field_values. rewrite <- list_fmap_compose.
  rewrite forallb_forall. split.
  - intros Hall placeholder Hin. apply truthy_empty, Hall, list_elem_of_In.
    apply list_elem_of_fmap. by exists placeholder.
  - intros Hall v Hin. apply list_elem_of_In, list_elem_of_fmap in Hin as (k & -> & Hin).
    by apply truthy_empty, Hall.
Qed.

Lemma values_field_values (f : string -> bool) p placeholders :
  forallb f (dict_values (field_values p placeholders)) = true
  <-> forall placeholder, placeholder ∈ placeholders ->
                          f (text_input p (placeholder +:+ ":")) = true.
Proof.
  unfold dict_values, field_values. rewrite <- list_fmap_compose.
  rewrite forallb_forall. split.
  - intros Hall placeholder Hin. apply Hall, list_elem_of_In.
    apply list_elem_of_fmap. by exists placeholder.
  - intros Hall v Hin. apply list_elem_of_In, list_elem_of_fmap in Hin as (k & -> & Hin).
    by apply Hall.
Qed.

(** *** The loop over the placeholders *)

Section Asking.

Variable p : pass.

(** Over placeholders that are distinct, with no text input of their labels
    made before, the loop adds one entry for each, in their order, with what
    is typed into its input. *)
Lemma ask_fields_run made user_inputs placeholders w :
  NoDup placeholders ->
  (forall placeholder, placeholder ∈ placeholders -> placeholder +:+ ":" ∉ made) ->
  (forall placeholder, placeholder ∈ placeholders -> placeholder ∉ dict_keys user_inputs) ->
  ask_fields p made user_inputs placeholders w
  = (w, Returns (user_inputs ++ field_values p placeholders)).
Proof.
  revert made user_inputs.
  induction placeholders as [|x placeholders IH]; intros made user_inputs Hnd Hmade Hkeys.
  - cbn. by rewrite app_nil_r.
  - apply NoDup_cons in Hnd as [Hx Hnd]. cbn [ask_fields]. rewrite bind_run.
    unfold st_text_input.
    rewrite bool_decide_eq_false_2 by apply Hmade, list_elem_of_here.
    rewrite ret_run, dict_set_new by apply Hkeys, list_elem_of_here.
    rewrite IH; [by rewrite <- app_assoc|done|..].
    + intros y Hy [E|Hin]%elem_of_cons.
      * apply StrFacts.sapp_inv_r in E. by subst.
      * by apply (Hmade y); [apply list_elem_of_further|].
    + intros y Hy. unfold dict_keys. rewrite fmap_app.
      intros [Hin|Hin]%elem_of_app.
      * by apply (Hkeys y); [apply list_elem_of_further|].
      * apply list_elem_of_singleton in Hin. cbn in Hin. by subst.
Qed.

(** A placeholder that stands twice, or one whose label was used before,
    ends the loop with Streamlit's exception. *)
Lemma ask_fields_dup made user_inputs placeholders w :
  (exists placeholder, placeholder ∈ placeholders /\ placeholder +:+ ":" ∈ made)
  \/ ~ NoDup placeholders ->
  ask_fields p made user_inputs placeholders w = (w, Raises DuplicateWidgetID).
Proof.
  revert made user_inputs.
  induction placeholders as [|x placeholders IH]; intros made user_inputs Hdup.
  - destruct Hdup as [(y & Hy & _)|Hnd]; [by apply elem_of_nil in Hy|].
    destruct Hnd. constructor.
  - cbn [ask_fields]. rewrite bind_run. unfold st_text_input.
    case_bool_decide as Hx; [done|]. rewrite ret_run. apply IH.
    destruct (decide (x ∈ placeholders)) as [Hin|Hout].
    { left. exists x. split; [done|]. apply list_elem_of_here. }
    destruct Hdup as [(y & Hy & Hmade)|Hnd].
    + left. exists y. apply elem_of_cons in Hy as [->|Hy]; [done|].
      split; [done|]. by apply list_elem_of_further.
    + right. intros Hnd'. apply Hnd. by apply NoDup_cons.
Qed.

Lemma collect_inputs_run placeholders w :
  NoDup placeholders ->
  collect_inputs p placeholders w = (w, Returns (field_values p placeholders)).
Proof.
  intros Hnd. unfold collect_inputs. rewrite ask_fields_run; try done.
  - intros y _ Hin. by apply elem_of_nil in Hin.
  - intros y _ Hin. by apply elem_of_nil in Hin.
Qed.

Lemma collect_inputs_dup placeholders w :
  ~ NoDup placeholders ->
  collect_inputs p placeholders w = (w, Raises DuplicateWidgetID).
Proof. intros Hnd. apply ask_fields_dup. by right. Qed.

End Asking.

Section Generate.

Context `{libs : Libraries}.

(** The template section up to the loop over the placeholders. *)
Lemma template_section_asked p w form doc :
  form_upload p = Some form ->
  docx_paragraphs (file_bytes form) = Returns doc ->
  extract_placeholders (Str.join nl doc) <> [] ->
  template_section p w
  = (user_inputs ← collect_inputs p (extract_placeholders (Str.join nl doc));
     when (button p "Generate Filled Document")
          (generate_filled_document form user_inputs))
      (draw (fields_asked (extract_placeholders (Str.join nl doc))) w).
Proof.
  intros Hform Hdoc Hsome. unfold template_section.
  rewrite emit_bind, Hform, bind_run. unfold read_docx.
  rewrite call_bind, Hdoc, ret_run.
  destruct (extract_placeholders (Str.join nl doc)) as [|placeholder placeholders];
    [done|].
  rewrite !emit_bind, !draw_draw. done.
Qed.

Lemma template_section_clicked p w form doc :
  form_upload p = Some form ->
  docx_paragraphs (file_bytes form) = Returns doc ->
  extract_placeholders (Str.join nl doc) <> [] ->
  NoDup (extract_placeholders (Str.join nl doc)) ->
  button p "Generate Filled Document" = true ->
  template_section p w
  = generate_filled_document form
      (field_values p (extract_placeholders (Str.join nl doc)))
      (draw (fields_asked (extract_placeholders (Str.join nl doc))) w).
Proof.
  intros Hform Hdoc Hsome Hnd Hbutton.
  rewrite (template_section_asked p w form doc) by done.
  by rewrite bind_run, collect_inputs_run, Hbutton.
Qed.

(** A placeholder that stands twice in the form ends the section at its
    second text input, whatever was typed and clicked. *)
Lemma template_section_repeated p w form doc :
  form_upload p = Some form ->
  docx_paragraphs (file_bytes form) = Returns doc ->
  ~ NoDup (extract_placeholders (Str.join nl doc)) ->
  template_section p w
  = (draw (fields_asked (extract_placeholders (Str.join nl doc))) w,
     Raises DuplicateWidgetID).
Proof.
  intros Hform Hdoc Hnd.
  rewrite (template_section_asked p w form doc); [|done|done|].
  - by rewrite bind_run, collect_inputs_dup.
  - intros E. apply Hnd. rewrite E. constructor.
Qed.

Lemma generate_filled w form doc user_inputs :
  docx_paragraphs (file_bytes form) = Returns doc ->
  all_values user_inputs = true ->
  generate_filled_document form user_inputs w
  = match fill_document user_inputs doc with
    | Returns filled =>
        (draw [Success "Document filled successfully!";
               DownloadButton "Download Completed Document" filled
                 "completed_form.docx" DOCX] w,
         Returns ())
    | Raises e => (w, Raises e)
    end.
Proof.
  intros Hdoc Hall. unfold generate_filled_document, fill_docx_template.
  rewrite Hall, bind_run, call_bind, Hdoc. unfold call.
  destruct (fill_document user_inputs doc); [|done].
  by rewrite emit_bind, emit_run, draw_draw.
Qed.

(** C6, as amended. The handler is reached when the placeholders of the
    form are distinct; a placeholder that stands twice ends the section
    with Streamlit's exception before it. When [Generate Filled Document] is
    clicked while the input of some placeholder is empty, the section draws
    the warning and returns: no download button and no document, and nothing
    but the screen changes. When every placeholder has a value, the section
    fills the document: it draws the success message and offers the filled
    document when the filling returns, as it does when the paragraphs and
    the values hold only characters XML holds, and it ends with the
    exception of the filling otherwise. *)
Theorem generate_requires_all_fields p w form doc placeholders :
  form_upload p = Some form ->
  docx_paragraphs (file_bytes form) = Returns doc ->
  extract_placeholders (Str.join nl doc) = placeholders ->
  placeholders <> [] ->
  button p "Generate Filled Document" = true ->
  (NoDup placeholders ->
   (exists placeholder,
       placeholder ∈ placeholders /\ text_input p (placeholder +:+ ":") = EmptyString) ->
   template_section p w
   = (draw (fields_asked placeholders
              ++ [Warning "Please fill in all fields before generating the document."]) w,
      Returns ()))
  /\ (NoDup placeholders ->
      (forall placeholder,
         placeholder ∈ placeholders -> text_input p (placeholder +:+ ":") <> EmptyString) ->
      template_section p w
      = match fill_document (field_values p placeholders) doc with
        | Returns filled =>
            (draw (fields_asked placeholders
                     ++ [Success "Document filled successfully!";
                         DownloadButton "Download Completed Document" filled
                           "completed_form.docx" DOCX]) w,
             Returns ())
        | Raises e => (draw (fields_asked placeholders) w, Raises e)
        end)
  /\ (NoDup placeholders ->
      (forall placeholder,
         placeholder ∈ placeholders ->
         text_input p (placeholder +:+ ":") <> EmptyString
         /\ xml_ok (text_input p (placeholder +:+ ":")) = true) ->
      forallb xml_ok doc = true ->
      exists filled,
        fill_document (field_values p placeholders) doc = Returns filled
        /\ template_section p w
           = (draw (fields_asked placeholders
                      ++ [Success "Document filled successfully!";
                          DownloadButton "Download Completed Document" filled
                            "completed_form.docx" DOCX]) w,
              Returns ()))
  /\ (~ NoDup placeholders ->
      template_section p w
      = (draw (fields_asked placeholders) w, Raises DuplicateWidgetID)).
Proof.
  intros Hform Hdoc <- Hsome Hbutton.
  assert (forall placeholders',
             placeholders' = extract_placeholders (Str.join nl doc) ->
             NoDup placeholders' ->
             (forall placeholder,
                placeholder ∈ placeholders' ->
                text_input p (placeholder +:+ ":") <> EmptyString) ->
             template_section p w
             = match fill_document (field_values p placeholders') doc with
               | Returns filled =>
                   (draw (fields_asked placeholders'
                            ++ [Success "Document filled successfully!";
                                DownloadButton "Download Completed Document" filled
                                  "completed_form.docx" DOCX]) w,
                    Returns ())
               | Raises e => (draw (fields_asked placeholders') w, Raises e)
               end) as Hfilled.
  { intros placeholders' -> Hnd Hall.
    rewrite (template_section_clicked p w form doc) by done.
    rewrite (generate_filled _ form doc)
      by (done || by apply all_values_field_values).
    destruct (fill_document _ doc); [|done]. by rewrite draw_draw. }
  split; [|split; [|split]].
  - intros Hnd (placeholder & Hin & Hempty).
    rewrite (template_section_clicked p w form doc) by done.
    unfold generate_filled_document. destruct (all_values _) eqn:Hall.
    + by destruct (proj1 (all_values_field_values _ _) Hall placeholder Hin).
    + by rewrite emit_run, draw_draw.
  - intros Hnd Hall. by apply Hfilled.
  - intros Hnd Hall Hxml.
    destruct (Template.fill_document_xml
                (field_values p (extract_placeholders (Str.join nl doc))) doc Hxml)
      as [filled Hfill].
    { apply values_field_values. intros placeholder Hin. by apply Hall. }
    exists filled. split; [done|].
    rewrite (Hfilled _ eq_refl Hnd) by (intros placeholder Hin; by apply Hall).
    by rewrite Hfill.
  - intros Hnd. by apply (template_section_repeated p w form doc).
Qed.

End Generate.

Lemma generate_requires_all_fields_witness :
  let p := pressing "Generate Filled Document"
             (typing "Name:" "Ada Lovelace"
                (with_form (Upload DOCX "Dear {{Name}}, welcome.") idle)) in
  template_section (libs := sample_libraries) p (fresh ∅)
  = (draw (fields_asked ["Name"]
             ++ [Success "Document filled successfully!";
                 DownloadButton "Download Completed Document"
                   ["Dear Ada Lovelace, welcome."] "completed_form.docx" DOCX])
          (fresh ∅),
     Returns ()).
Proof.
  apply (proj1 (proj2 (generate_requires_all_fields (libs := sample_libraries)
                  (pressing "Generate Filled Document"
                     (typing "Name:" "Ada Lovelace"
                        (with_form (Upload DOCX "Dear {{Name}}, welcome.") idle)))
                  (fresh ∅) (Upload DOCX "Dear {{Name}}, welcome.")
                  ["Dear {{Name}}, welcome."] ["Name"]
                  eq_refl eq_refl eq_refl ltac:(discriminate) eq_refl))).
  - apply NoDup_singleton.
  - intros placeholder Hin. apply list_elem_of_singleton in Hin as ->. discriminate.
Defined.

(** C6, as stated, fails: with a value for every placeholder the filling
    can still end in a hard error and produce no document. Here the value
    typed for the one placeholder begins with a form feed, a character XML
    does not hold. *)
Lemma generate_fails_on_control_character :
  let p := pressing "Generate Filled Document"
             (typing "Name:" (String form_feed "Ada Lovelace")
                (with_form (Upload DOCX "Dear {{Name}}, welcome.") idle)) in
  extract_placeholders "Dear {{Name}}, welcome." = ["Name"]
  /\ text_input p "Name:" <> EmptyString
  /\ template_section (libs := sample_libraries) p (fresh ∅)
     = (draw (fields_asked ["Name"]) (fresh ∅), Raises XML_INCOMPATIBLE).
Proof. split; [reflexivity|]. split; [discriminate|reflexivity]. Qed.

End TemplateForm.

(** ** The two forms *)

Module Forms.

Import Script.

Lemma for_each_emit {A : Type} (f : A -> element) xs w :
  for_each xs (fun x => emit (f x)) w = (draw (f <$> xs) w, Returns ()).
Proof.
  revert w. induction xs as [|x xs IH]; intros w.
  - by rewrite draw_nil.
  - cbn [for_each]. by rewrite emit_bind, IH, draw_draw.
Qed.

Lemma append_row_returns path record w :
  append_row path record w = ((append_row path record w).1, Returns ()).
Proof.
  destruct (files w !! path) as [rows|] eqn:E.
  - by rewrite (Persistence.append_row_existing _ _ _ rows).
  - by rewrite Persistence.append_row_new.
Qed.

Lemma select_truthy options i :
  options <> [] -> Forall (fun o => Str.truthy o = true) options ->
  Str.truthy (select options i) = true.
Proof.
  intros Hsome Hall. unfold select. rewrite Forall_forall in Hall.
  destruct (options !! i) as [o|] eqn:E; simpl.
  - by eapply Hall, list_elem_of_lookup_2.
  - destruct options as [|o options]; [done|]. simpl. apply Hall, list_elem_of_here.
Qed.

(** The questionnaire record: its five fields in the order of the form. *)
Lemma questionnaire_responses_items p :
  questionnaire_responses p
  = [("Name", text_input p "What is your name?");
     ("Contact", text_input p "What is your contact information?");
     ("Issue Type",
      select ["Family Law"; "Criminal Law"; "Corporate Law"; "Civil Disputes"; "Other"]
             (choice p "What type of legal issue are you facing?"));
     ("Urgency",
      select ["Immediate"; "Within a Week"; "Not Urgent"]
             (choice p "How urgent is your legal issue?"));
     ("Details", text_area p "Please provide a brief description of your legal issue.")].
Proof. reflexivity. Qed.

(** The feedback record: its four fields in the order of the form. *)
Lemma feedback_items p :
  feedback p
  = [("User Experience",
      select ["Excellent"; "Good"; "Average"; "Poor"]
             (choice p "How was your overall experience?"));
     ("Ease of Use", select ["Yes"; "No"] (choice p "Was the chatbot easy to use?"));
     ("Accuracy", select ["Yes"; "No"] (choice p "Was the response accurate?"));
     ("Comments", text_area p "Any additional comments or suggestions?")].
Proof. reflexivity. Qed.

Lemma questionnaire_all_values p :
  all_values (questionnaire_responses p)
  = Str.truthy (text_input p "What is your name?")
    && (Str.truthy (text_input p "What is your contact information?")
        && Str.truthy (text_area p "Please provide a brief description of your legal issue.")).
Proof.
  rewrite questionnaire_responses_items. unfold all_values, dict_values.
  cbn [fmap list_fmap snd forallb].
  rewrite !select_truthy by first [done | repeat constructor].
  by rewrite andb_true_r.
Qed.

(** A click on [Submit Feedback] saves the record and thanks, unconditionally. *)
Lemma feedback_section_clicked p w :
  button p "Submit Feedback" = true ->
  feedback_section p w
  = (draw (Success "Thank you for your feedback!"
           :: Write "**Summary of Feedback:**"
           :: ((fun item => Write ("**" +:+ item.1 +:+ "**: " +:+ item.2))
                 <$> feedback p))
          (save_feedback_to_csv (feedback p) w).1,
     Returns ()).
Proof.
  intros Hbutton. unfold feedback_section. rewrite Hbutton. cbn [when].
  unfold submit_feedback. rewrite bind_run. unfold save_feedback_to_csv.
  rewrite append_row_returns, !emit_bind, for_each_emit, !draw_draw. done.
Qed.

(** C8, as amended: the questionnaire is written to its log only when the
    name, the contact and the description are all filled in (the two choice
    fields always hold an option), and a submission with one of them empty
    draws a warning and writes nothing. The feedback form has no such check:
    every submission is written to its log and thanked, whatever its
    comments field holds. *)
Theorem submissions_checked p w :
  (button p "Submit Questionnaire" = true ->
   (text_input p "What is your name?" = EmptyString
    \/ text_input p "What is your contact information?" = EmptyString
    \/ text_area p "Please provide a brief description of your legal issue." = EmptyString ->
    questionnaire_section p w
    = (draw [Subheader "Guided Intake Questionnaire for Legal Issues";
             Write "Answer the following questions to help us understand your legal issue better.";
             Warning "Please fill out all fields before submitting."] w,
       Returns ()))
   /\ (text_input p "What is your name?" <> EmptyString ->
       text_input p "What is your contact information?" <> EmptyString ->
       text_area p "Please provide a brief description of your legal issue." <> EmptyString ->
       questionnaire_section p w
       = (draw [Success "Thank you for submitting the questionnaire. We will get back to you shortly!"]
               (save_questionnaire_to_csv (questionnaire_responses p)
                  (draw [Subheader "Guided Intake Questionnaire for Legal Issues";
                         Write "Answer the following questions to help us understand your legal issue better."]
                        w)).1,
          Returns ())))
  /\ (button p "Submit Feedback" = true ->
      feedback_section p w
      = (draw (Success "Thank you for your feedback!"
               :: Write "**Summary of Feedback:**"
               :: ((fun item => Write ("**" +:+ item.1 +:+ "**: " +:+ item.2))
                     <$> feedback p))
              (save_feedback_to_csv (feedback p) w).1,
         Returns ())).
Proof.
  split.
  - intros Hbutton. unfold questionnaire_section.
    rewrite !emit_bind, Hbutton, draw_draw. cbn [when app].
    unfold submit_questionnaire. rewrite questionnaire_all_values. split.
    + intros Hempty. replace (_ && _) with false; [by rewrite emit_run, draw_draw|].
      destruct Hempty as [-> | [-> | ->]]; cbn [Str.truthy andb]; by rewrite ?andb_false_r.
    + intros Hname Hcontact Hdetails.
      apply TemplateForm.truthy_empty in Hname, Hcontact, Hdetails.
      rewrite Hname, Hcontact, Hdetails. cbn [andb].
      rewrite bind_run. unfold save_questionnaire_to_csv.
      rewrite append_row_returns. by rewrite emit_run.
  - apply feedback_section_clicked.
Qed.

Lemma submissions_checked_witness :
  let p := pressing "Submit Questionnaire" idle in
  button p "Submit Questionnaire" = true
  /\ text_input p "What is your name?" = EmptyString
  /\ questionnaire_section p (fresh ∅)
     = (draw [Subheader "Guided Intake Questionnaire for Legal Issues";
              Write "Answer the following questions to help us understand your legal issue better.";
              Warning "Please fill out all fields before submitting."] (fresh ∅),
        Returns ()).
Proof.
  split; [reflexivity|]. split; [reflexivity|].
  exact (proj1 (proj1 (submissions_checked (pressing "Submit Questionnaire" idle) (fresh ∅))
                  eq_refl)
               (or_introl eq_refl)).
Defined.

(** C8, as stated, fails for the feedback form: a submission whose comments
    are empty is written to the log, and no warning is drawn. *)
Lemma feedback_saved_with_empty_comments :
  let p := pressing "Submit Feedback" idle in
  dict_get "Comments" (feedback p) = Some EmptyString
  /\ files (feedback_section p (fresh ∅)).1 !! FEEDBACK_FILE
     = Some [["User Experience"; "Ease of Use"; "Accuracy"; "Comments"];
             ["Excellent"; "Yes"; "Yes"; EmptyString]]
  /\ screen (feedback_section p (fresh ∅)).1
     = [Success "Thank you for your feedback!";
        Write "**Summary of Feedback:**";
        Write "**User Experience**: Excellent";
        Write "**Ease of Use**: Yes";
        Write "**Accuracy**: Yes";
        Write "**Comments**: "].
Proof.
  cbv zeta. split; [reflexivity|].
  assert (feedback_section (pressing "Submit Feedback" idle) (fresh ∅)
          = (draw [Success "Thank you for your feedback!";
                   Write "**Summary of Feedback:**";
                   Write "**User Experience**: Excellent";
                   Write "**Ease of Use**: Yes";
                   Write "**Accuracy**: Yes";
                   Write "**Comments**: "]
                  (World [] None
                     (<[FEEDBACK_FILE :=
                          [["User Experience"; "Ease of Use"; "Accuracy"; "Comments"];
                           ["Excellent"; "Yes"; "Yes"; EmptyString]]]> ∅)),
             Returns ())) as ->.
  { rewrite feedback_section_clicked by reflexivity.
    unfold save_feedback_to_csv.
    rewrite Persistence.append_row_new by apply lookup_empty. reflexivity. }
  split; [apply lookup_insert_eq|reflexivity].
Qed.

End Forms.

(** ** The chat history *)

Module History.

Import Script.

(** *** Code that leaves the history alone *)

Lemma keeps_ret {A : Type} (a : A) : keeps_history (mret a : M A).
Proof. by intros w. Qed.

Lemma keeps_raise {A : Type} e : keeps_history (raise e : M A).
Proof. by intros w. Qed.

Lemma keeps_call {A : Type} (r : outcome A) : keeps_history (call r).
Proof. by intros w. Qed.

Lemma keeps_emit e : keeps_history (emit e).
Proof. by intros w. Qed.

Lemma keeps_get_files : keeps_history get_files.
Proof. by intros w. Qed.

Lemma keeps_set_files fs : keeps_history (set_files fs).
Proof. by intros w. Qed.

Lemma keeps_get_chat_history : keeps_history get_chat_history.
Proof. by intros w. Qed.

Lemma keeps_bind {A B : Type} (m : M A) (k : A -> M B) :
  keeps_history m -> (forall a, keeps_history (k a)) -> keeps_history (m ≫= k).
Proof.
  intros Hm Hk w. rewrite bind_run. specialize (Hm w).
  destruct (m w) as [w' [a|e]]; simpl in *; [|done]. by rewrite Hk.
Qed.

Lemma keeps_try {A : Type} (body : M A) handler :
  keeps_history body -> (forall e, keeps_history (handler e)) ->
  keeps_history (try_except body handler).
Proof.
  intros Hm Hk w. unfold try_except. specialize (Hm w).
  destruct (body w) as [w' [a|e]]; simpl in *; [done|]. by rewrite Hk.
Qed.

Lemma keeps_when b body : keeps_history body -> keeps_history (when b body).
Proof. intros Hb. destruct b; [done|apply keeps_ret]. Qed.

Lemma keeps_for_each {A : Type} (xs : list A) body :
  (forall x, keeps_history (body x)) -> keeps_history (for_each xs body).
Proof.
  intros Hb. induction xs as [|x xs IH]; [apply keeps_ret|].
  cbn [for_each]. apply keeps_bind; [apply Hb|by intros _].
Qed.

Lemma keeps_collect_inputs p placeholders : keeps_history (collect_inputs p placeholders).
Proof.
  unfold collect_inputs. generalize (@nil string) as made, (@nil (string * string)) as d.
  induction placeholders as [|x placeholders IH]; intros made d; [apply keeps_ret|].
  cbn [ask_fields]. apply keeps_bind; [|intros value; apply IH].
  unfold st_text_input. case_bool_decide; [apply keeps_raise|apply keeps_ret].
Qed.

Create HintDb script.

#[local] Hint Unfold generate_filled_document fill_docx_template read_docx
  show_document summarize_document submit_questionnaire submit_feedback
  save_questionnaire_to_csv save_feedback_to_csv append_row path_exists
  to_csv to_csv_append : script.

Ltac keeps :=
  repeat first
    [ apply keeps_collect_inputs | apply keeps_ret | apply keeps_raise | apply keeps_call | apply keeps_emit
    | apply keeps_get_files | apply keeps_set_files | apply keeps_get_chat_history
    | apply keeps_when | apply keeps_for_each; intros ?
    | apply keeps_try; [|intros ?]
    | apply keeps_bind; [|intros ?]
    | match goal with
      | |- keeps_history (match ?x with _ => _ end) => destruct x
      end
    | progress autounfold with script ].

Lemma keeps_append_row path record : keeps_history (append_row path record).
Proof.
  keeps.
Qed.

Lemma keeps_display_chunks chunks failure acc n :
  keeps_history (display_chunks chunks failure acc n).
Proof.
  revert acc n. induction chunks as [|[c|c|c] chunks IH]; intros acc n;
    cbn [display_chunks]; [destruct failure; keeps|..]; try apply IH.
  apply keeps_bind; [apply keeps_emit|]. intros _. apply IH.
Qed.

Section Sections.

Context `{libs : Libraries}.
Variable p : pass.

Lemma keeps_template_section : keeps_history (template_section p).
Proof.
  unfold template_section. keeps.
Qed.

Lemma keeps_extract_text_from_file file : keeps_history (extract_text_from_file file).
Proof. intros w. by rewrite (Summarizer.extract_frame file w w). Qed.

Lemma keeps_first_summary_text summary : keeps_history (first_summary_text summary).
Proof.
  intros w. by destruct (Summarize.first_summary_text_frame summary w) as [r ->].
Qed.

Lemma keeps_summarization_section : keeps_history (summarization_section p).
Proof.
  unfold summarization_section. keeps.
  all: first [apply keeps_extract_text_from_file | apply keeps_first_summary_text].
Qed.

Lemma keeps_history_section : keeps_history history_section.
Proof.
  unfold history_section. keeps.
  match goal with |- keeps_history (render_message ?m) => destruct m end; keeps.
Qed.

Lemma keeps_questionnaire_section : keeps_history (questionnaire_section p).
Proof.
  unfold questionnaire_section. keeps.
Qed.

Lemma keeps_feedback_section : keeps_history (feedback_section p).
Proof.
  unfold feedback_section. keeps.
Qed.

(** The language chosen is always one of the four of the mapping. *)
Lemma language_code :
  exists code,
    dict_get (select ["English"; "German"; "French"; "Hindi"]
                     (choice p "Choose the language for responses:"))
             language_mapping = Some code.
Proof.
  destruct (choice p _) as [|[|[|[|n]]]]; by eexists.
Qed.

Lemma ask_history user_input selected_language w h :
  chat_history w = Some h ->
  chat_history (ask p user_input selected_language w).1
  = Some (h ++ if Str.strip_truthy user_input then [HumanMessage user_input] else []).
Proof.
  intros Hh. unfold ask. destruct (Str.strip_truthy user_input).
  - unfold chat_history_append, get_chat_history, set_chat_history.
    rewrite !bind_run, Hh. cbn [fst snd]. cbv beta iota.
    unfold display_response. by rewrite keeps_display_chunks.
  - rewrite emit_run. cbn [fst]. by rewrite chat_history_draw, Hh, app_nil_r.
Qed.

(** What the chat section makes of the history, whether the stream ends or
    fails. *)
Lemma chat_section_history w :
  chat_history (chat_section p w).1 = Some (default [] (chat_history w) ++ asked p).
Proof.
  unfold chat_section. rewrite emit_bind. unfold get_chat_history at 1.
  rewrite bind_run. cbv beta iota. rewrite chat_history_draw.
  set (w1 := draw _ w). rewrite bind_run.
  assert (exists w2, chat_history w2 = Some (default [] (chat_history w))
                     /\ (when (bool_decide (chat_history w = None)) (set_chat_history [])) w1
                        = (w2, Returns ())) as (w2 & Hw2 & ->).
  { destruct (chat_history w) as [h|] eqn:Hh.
    - exists w1. rewrite bool_decide_eq_false_2 by done. split; [|done].
      subst w1. by rewrite chat_history_draw.
    - eexists. rewrite bool_decide_eq_true_2 by done. split; [|done]. done. }
  destruct language_code as [code ->]. rewrite bind_run, ret_run.
  unfold asked. destruct (button p "Ask"); cbn [when andb].
  - by rewrite (ask_history _ _ _ _ Hw2).
  - rewrite ret_run. cbn [fst]. by rewrite app_nil_r.
Qed.

(** What one run of the script makes of the history. *)
Lemma page_history w :
  chat_history (page p w).1 = chat_history w
  \/ chat_history (page p w).1 = Some (default [] (chat_history w) ++ asked p).
Proof.
  unfold page. rewrite bind_run.
  pose proof (keeps_template_section w) as H1.
  destruct (template_section p w) as [w1 [[]|e]]; cbn [fst] in *; [|by left].
  rewrite bind_run. pose proof (keeps_summarization_section w1) as H2.
  destruct (summarization_section p w1) as [w2 [[]|e]]; cbn [fst] in *;
    [|left; congruence].
  rewrite bind_run. pose proof (chat_section_history w2) as H3.
  rewrite H2, H1 in H3.
  destruct (chat_section p w2) as [w3 [[]|e]]; cbn [fst] in *; [|by right].
  right. rewrite <- H3.
  assert (keeps_history (history_section ;;
                         emit (Subheader "Feedback Form") ;;
                         emit (Write "Please provide your valuable feedback to improve the Legal Chatbot Assistant.") ;;
                         questionnaire_section p ;; feedback_section p)) as Hrest.
  { apply keeps_bind; [apply keeps_history_section|intros _].
    apply keeps_bind; [apply keeps_emit|intros _].
    apply keeps_bind; [apply keeps_emit|intros _].
    apply keeps_bind; [apply keeps_questionnaire_section|intros _].
    apply keeps_feedback_section. }
  apply Hrest.
Qed.

Lemma run_history w :
  chat_history (run p w).1 = chat_history w
  \/ chat_history (run p w).1 = Some (default [] (chat_history w) ++ asked p).
Proof. unfold run. apply (page_history (World [] (chat_history w) (files w))). Qed.

End Sections.

(** *** Only user messages *)

Lemma asked_human p : forallb is_human (asked p) = true.
Proof. unfold asked. by destruct (_ && _). Qed.

Lemma run_only_user `{libs : Libraries} p w :
  only_user_messages w -> only_user_messages (run p w).1.
Proof.
  unfold only_user_messages. intros Hw h Hh.
  destruct (run_history p w) as [E|E]; rewrite E in Hh; [by apply Hw|].
  injection Hh as <-. rewrite forallb_app, asked_human, andb_true_r.
  destruct (chat_history w) as [h0|]; [by apply Hw|done].
Qed.

Lemma session_only_user `{libs : Libraries} passes w :
  only_user_messages w -> only_user_messages (session passes w).
Proof.
  unfold session. revert w. induction passes as [|p passes IH]; intros w Hw; [done|].
  cbn [foldl]. by apply IH, run_only_user.
Qed.

Lemma human_contents h :
  forallb is_human h = true -> exists contents, h = HumanMessage <$> contents.
Proof.
  induction h as [|[c|c|c] h IH]; cbn [forallb is_human andb]; intros Hh; try done.
  - by exists [].
  - destruct (IH Hh) as [contents ->]. by exists (c :: contents).
Qed.

Lemma render_human contents w :
  for_each (HumanMessage <$> contents) render_message w
  = (draw ((fun content => Markdown ("**You:** " +:+ content)) <$> contents) w,
     Returns ()).
Proof.
  revert w. induction contents as [|c contents IH]; intros w.
  - by rewrite draw_nil.
  - rewrite !fmap_cons. cbn [for_each render_message].
    by rewrite emit_bind, IH, draw_draw.
Qed.

Lemma history_section_human contents w :
  chat_history w = Some (HumanMessage <$> contents) ->
  history_section w
  = (draw (Subheader "Chat History"
           :: ((fun content => Markdown ("**You:** " +:+ content)) <$> contents)) w,
     Returns ()).
Proof.
  intros Hh. unfold history_section. rewrite emit_bind.
  unfold get_chat_history. rewrite bind_run. cbv beta iota.
  rewrite chat_history_draw, Hh, render_human, draw_draw. done.
Qed.

(** C10: in every session, after any runs of the script, the chat history
    holds user messages only. The chat section leaves in the history what it
    held before (the empty list on the first run) followed by the query as
    one user message when [Ask] is clicked on a query that is not all
    whitespace, and by nothing otherwise; this whether the stream ends or
    fails, and without the assistant's text. A run of the whole script
    leaves the history as it was or as the chat section makes it. The
    renderer therefore only ever draws lines of the user. *)
Theorem chat_history_only_user `{libs : Libraries} passes fs :
  (forall h, chat_history (session passes (fresh fs)) = Some h ->
             exists contents,
               h = HumanMessage <$> contents
               /\ history_section (session passes (fresh fs))
                  = (draw (Subheader "Chat History"
                           :: ((fun content => Markdown ("**You:** " +:+ content))
                                 <$> contents))
                          (session passes (fresh fs)),
                     Returns ()))
  /\ (forall p w,
        chat_history (chat_section p w).1
        = Some (default [] (chat_history w)
                  ++ (if button p "Ask" && Str.strip_truthy (text_input p ASK_LABEL)
                      then [HumanMessage (text_input p ASK_LABEL)]
                      else [])))
  /\ (forall p w,
        chat_history (run p w).1 = chat_history w
        \/ chat_history (run p w).1
           = Some (default [] (chat_history w)
                     ++ (if button p "Ask" && Str.strip_truthy (text_input p ASK_LABEL)
                         then [HumanMessage (text_input p ASK_LABEL)]
                         else []))).
Proof.
  split; [|split].
  - intros h Hh.
    assert (only_user_messages (session passes (fresh fs))) as Hinv
      by by apply session_only_user.
    destruct (human_contents h (Hinv h Hh)) as [contents ->].
    exists contents. split; [done|]. by apply history_section_human.
  - apply chat_section_history.
  - apply run_history.
Qed.

Lemma chat_history_only_user_witness :
  let p := pressing "Ask"
             (typing ASK_LABEL "Is a verbal lease binding?"
                (streaming [AIMessage "Often, "; AIMessage "yes."] None idle)) in
  chat_history (session (libs := sample_libraries) [p; idle] (fresh ∅))
    = Some [HumanMessage "Is a verbal lease binding?"]
  /\ exists contents,
       [HumanMessage "Is a verbal lease binding?"] = HumanMessage <$> contents
       /\ history_section (session (libs := sample_libraries) [p; idle] (fresh ∅))
          = (draw (Subheader "Chat History"
                   :: ((fun content => Markdown ("**You:** " +:+ content)) <$> contents))
                  (session (libs := sample_libraries) [p; idle] (fresh ∅)),
             Returns ()).
Proof.
  split; [vm_compute; reflexivity|].
  exact (proj1 (chat_history_only_user (libs := sample_libraries)
                  [pressing "Ask"
                     (typing ASK_LABEL "Is a verbal lease binding?"
                        (streaming [AIMessage "Often, "; AIMessage "yes."] None idle));
                   idle] ∅)
               [HumanMessage "Is a verbal lease binding?"]
               ltac:(vm_compute; reflexivity)).
Defined.

End History.

(** ** The model on small inputs *)

Module Examples.

Example findall_lazy : extract_placeholders "{{a}} and {{b}}" = ["a"; "b"].
Proof. reflexivity. Qed.

Example findall_leftmost : extract_placeholders "{{{n}}" = ["{n"].
Proof. reflexivity. Qed.

Example findall_first_close : extract_placeholders "{{a}}}" = ["a"].
Proof. reflexivity. Qed.

Example findall_nested : extract_placeholders "{{x{{A}}y}}" = ["x{{A"].
Proof. reflexivity. Qed.

Example findall_after_failure :
  extract_placeholders ("{{a" +:+ nl +:+ "{{b}}") = ["b"].
Proof. reflexivity. Qed.

Example findall_empty_name : extract_placeholders "{{}}" = [""].
Proof. reflexivity. Qed.

Example replace_non_overlapping : Str.replace "aa" "b" "aaaaa" = "bba".
Proof. reflexivity. Qed.

Example replace_empty_old : Str.replace "" "-" "abc" = "-a-b-c-".
Proof. reflexivity. Qed.

Example join_three : Str.join ", " ["Name"; "Date"; "Name"] = "Name, Date, Name".
Proof. reflexivity. Qed.

Example strip_blank : Str.strip_truthy "   " = false.
Proof. reflexivity. Qed.

Example strip_query : Str.strip_truthy "  rent? " = true.
Proof. reflexivity. Qed.

(** One pass of replacement can bring a marker about: with the items in
    this order the marker of [xqy] is made by the replacement of [A], after
    the turn of [xqy]. *)
Example fill_makes_marker :
  fill_paragraphs [("xqy", "z"); ("A", "q")] ["{{x{{A}}y}}"] = ["{{xqy}}"].
Proof. reflexivity. Qed.

(** A field name with braces can take the markers of two other fields. *)
Example fill_takes_markers :
  fill_paragraphs [("a}}{{b", "v")] ["{{a}}{{b}}"] = ["v"].
Proof. reflexivity. Qed.

Example select_in_range : select ["Yes"; "No"] 1 = "No".
Proof. reflexivity. Qed.

Example select_default : select ["Yes"; "No"] 7 = "Yes".
Proof. reflexivity. Qed.

Example dict_set_keeps_place :
  dict_set "a" "3" [("a", "1"); ("b", "2")] = [("a", "3"); ("b", "2")].
Proof. reflexivity. Qed.

Example language_codes :
  (fun language => dict_get language language_mapping)
    <$> ["English"; "German"; "French"; "Hindi"]
  = [Some "en"; Some "de"; Some "fr"; Some "hi"].
Proof. reflexivity. Qed.

End Examples.

(** ** What the pattern finds *)

Module Detection.

Import StrFacts.

Lemma contains_cons sub c s :
  Str.contains sub s = true -> Str.contains sub (String c s) = true.
Proof. intros Hs. cbn [Str.contains]. rewrite Hs. apply orb_true_r. Qed.

Lemma after_open_sound s s' : Re.after_open s = Some s' -> s = "{{" +:+ s'.
Proof.
  destruct s as [|a [|b s]]; try done. cbn [Re.after_open].
  destruct (Ascii.eqb a "{") eqn:Ha; [|done]. destruct (Ascii.eqb b "{") eqn:Hb; [|done].
  apply eqb_true in Ha as ->. apply eqb_true in Hb as ->. by intros [= ->].
Qed.

(** The lazy group ends where [}}] first starts, and holds no newline. *)
Lemma lazy_group_sound s g :
  Re.lazy_group s = Some g ->
  name_ok g = true /\ exists rest, s = g +:+ "}}" +:+ rest.
Proof.
  revert g. induction s as [|c s IH]; intros g.
  - cbn. done.
  - unfold Re.lazy_group; fold Re.lazy_group.
    destruct (Str.startswith "}}" (String c s)) eqn:Hp.
    + intros [= <-]. split; [reflexivity|]. by apply startswith_split in Hp.
    + destruct (Re.dot c) eqn:Hc; [|done].
      destruct (Re.lazy_group s) as [g'|] eqn:Hg; [|done]. intros [= <-].
      destruct (IH g' eq_refl) as [Hok [rest ->]]. split; [|by exists rest].
      unfold name_ok, spec_name_ok in *. apply andb_true_iff in Hok as [Hclose Hdot].
      cbn [Str.all_chars]. rewrite Hc, Hdot, andb_true_r. cbn [andb].
      rewrite sapp_cons. cbn [Str.contains].
      apply negb_true_iff in Hclose. rewrite Hclose, orb_false_r.
      apply negb_true_iff. etrans; [|exact Hp].
      change (String c (g' +:+ "}}" +:+ rest)) with (String c g' +:+ "}" +:+ "}" +:+ rest).
      rewrite <- sapp_assoc, startswith_app_le; [reflexivity|].
      rewrite slength_app. simpl. lia.
Qed.

Lemma match_here_sound s g :
  Re.match_here s = Some g ->
  name_ok g = true /\ exists rest, s = marker g +:+ rest.
Proof.
  unfold Re.match_here. destruct (Re.after_open s) as [s'|] eqn:Hs; [|done].
  apply after_open_sound in Hs as ->. cbn [mbind option_bind].
  intros Hg. apply lazy_group_sound in Hg as [Hok [rest ->]]. split; [done|].
  exists rest. unfold marker. by rewrite !sapp_assoc.
Qed.

Lemma findall_from_sound k s g :
  g ∈ Re.findall_from k s -> name_ok g = true /\ Str.contains (marker g) s = true.
Proof.
  revert k. induction s as [|c s IH]; intros k Hg.
  - by apply elem_of_nil in Hg.
  - destruct k as [|k].
    + rewrite Placeholders.findall_from_cons in Hg.
      destruct (Re.match_here (String c s)) as [g0|] eqn:Hm.
      * apply elem_of_cons in Hg as [->|Hg].
        -- apply match_here_sound in Hm as [Hok [rest ->]]. split; [done|].
           apply contains_prefix.
        -- destruct (IH _ Hg) as [? ?]. split; [done|]. by apply contains_cons.
      * destruct (IH _ Hg) as [? ?]. split; [done|]. by apply contains_cons.
    + cbn [Re.findall_from] in Hg. destruct (IH _ Hg) as [? ?].
      split; [done|]. by apply contains_cons.
Qed.

(** X1: [extract_placeholders] invents nothing: the marker of every name it
    returns stands in the text, and the name is on one line, holds no [}}]
    and does not end in [}]. *)
Theorem extract_placeholders_sound text name :
  name ∈ extract_placeholders text ->
  Str.contains (marker name) text = true /\ name_ok name = true.
Proof. intros Hin. by destruct (findall_from_sound 0 text name Hin). Qed.

Lemma extract_placeholders_sound_witness :
  "Date" ∈ extract_placeholders "Signed by {{Name}} on {{Date}}."
  /\ Str.contains (marker "Date") "Signed by {{Name}} on {{Date}}." = true
  /\ name_ok "Date" = true.
Proof.
  assert ("Date" ∈ extract_placeholders "Signed by {{Name}} on {{Date}}.") as Hin.
  { change (extract_placeholders _) with ["Name"; "Date"].
    apply list_elem_of_further, list_elem_of_here. }
  split; [exact Hin|].
  exact (extract_placeholders_sound "Signed by {{Name}} on {{Date}}." "Date" Hin).
Defined.

Lemma lazy_group_some name rest :
  Str.all_chars Re.dot name = true ->
  is_Some (Re.lazy_group (name +:+ "}}" +:+ rest)).
Proof.
  induction name as [|c name IH]; [by eexists|].
  cbn [Str.all_chars]. intros Hn. apply andb_true_iff in Hn as [Hc Hn].
  rewrite sapp_cons. unfold Re.lazy_group; fold Re.lazy_group.
  destruct (Str.startswith _ _); [by eexists|]. rewrite Hc.
  destruct (IH Hn) as [g ->]. by eexists.
Qed.

Lemma match_here_some name rest :
  Str.all_chars Re.dot name = true -> is_Some (Re.match_here (marker name +:+ rest)).
Proof.
  intros Hn. unfold marker. rewrite !sapp_assoc.
  change ("{{" +:+ name +:+ "}}" +:+ rest)
    with (String "{" (String "{" (name +:+ "}}" +:+ rest))).
  unfold Re.match_here. rewrite Placeholders.after_open_marker.
  by apply lazy_group_some.
Qed.

Lemma findall_finds before s :
  is_Some (Re.match_here s) -> Re.findall_from 0 (before +:+ s) <> [].
Proof.
  intros [g Hg]. induction before as [|c before IH].
  - destruct s as [|c s]; [done|].
    rewrite sapp_nil_l, Placeholders.findall_from_cons, Hg. done.
  - rewrite sapp_cons, Placeholders.findall_from_cons.
    destruct (Re.match_here (String c (before +:+ s))); [done|exact IH].
Qed.

(** X2: [extract_placeholders] returns the empty list exactly when the
    text nowhere holds [{{], then a run of characters without a line break,
    then [}}]. *)
Theorem extract_placeholders_none text :
  extract_placeholders text = []
  <-> ~ exists before name rest,
          text = before +:+ marker name +:+ rest
          /\ Str.all_chars Re.dot name = true.
Proof.
  split.
  - intros Hnone (before & name & rest & -> & Hname).
    apply (findall_finds before (marker name +:+ rest)); [|exact Hnone].
    by apply match_here_some.
  - intros Hno. destruct (extract_placeholders text) as [|name names] eqn:E; [done|].
    destruct Hno.
    assert (name ∈ extract_placeholders text) as Hin by (rewrite E; apply list_elem_of_here).
    apply (findall_from_sound 0) in Hin as [Hok Hc].
    apply contains_split in Hc as (before & rest & ->).
    exists before, name, rest. split; [done|].
    unfold name_ok in Hok. by apply andb_true_iff in Hok as [_ ?].
Qed.

Lemma startswith_close_line u t :
  Str.startswith "}}" (u +:+ nl +:+ t) = Str.startswith "}}" u.
Proof.
  destruct u as [|a [|b u]]; [reflexivity| |].
  - cbn. destruct (Ascii.eqb "}" a); reflexivity.
  - change (String a (String b u) +:+ nl +:+ t)
      with (String a (String b EmptyString) +:+ u +:+ nl +:+ t).
    change (String a (String b u)) with (String a (String b EmptyString) +:+ u).
    rewrite !startswith_app_le; [done|simpl; lia..].
Qed.

(** The lazy group does not reach over a newline. *)
Lemma lazy_group_line u t : Re.lazy_group (u +:+ nl +:+ t) = Re.lazy_group u.
Proof.
  induction u as [|c u IH]; [reflexivity|].
  rewrite sapp_cons. unfold Re.lazy_group; fold Re.lazy_group.
  pose proof (startswith_close_line (String c u) t) as Hp. rewrite sapp_cons in Hp.
  by rewrite Hp, IH.
Qed.

Lemma match_here_line u t : Re.match_here (u +:+ nl +:+ t) = Re.match_here u.
Proof.
  unfold Re.match_here. destruct u as [|a [|b u]]; [by destruct t| |].
  - cbn. destruct (Ascii.eqb a "{"); reflexivity.
  - rewrite !sapp_cons. cbn [Re.after_open].
    destruct (_ && _); [|done]. cbn [mbind option_bind]. apply lazy_group_line.
Qed.

Lemma match_here_length u g :
  Re.match_here u = Some g -> String.length g + 4 <= String.length u.
Proof.
  intros Hg. apply match_here_sound in Hg as [_ [rest ->]].
  unfold marker. rewrite !slength_app. simpl. lia.
Qed.

(** The scan of a line ends at its newline, and starts afresh behind it. *)
Lemma findall_from_line k s t :
  k <= String.length s ->
  Re.findall_from k (s +:+ nl +:+ t) = Re.findall_from k s ++ Re.findall_from 0 t.
Proof.
  revert k. induction s as [|c s IH]; intros k Hk.
  - simpl in Hk. replace k with 0 by lia.
    change (EmptyString +:+ nl +:+ t) with (String Re.newline t).
    rewrite Placeholders.findall_from_cons.
    by rewrite (match_here_line EmptyString t : Re.match_here (String Re.newline t) = _).
  - rewrite sapp_cons. destruct k as [|k].
    + rewrite !Placeholders.findall_from_cons.
      pose proof (match_here_line (String c s) t) as Hm. rewrite sapp_cons in Hm.
      rewrite Hm. destruct (Re.match_here (String c s)) as [g|] eqn:Hg.
      * apply match_here_length in Hg. simpl in Hg.
        rewrite IH by lia. done.
      * apply IH. lia.
    + cbn [Re.findall_from]. apply IH. simpl in Hk. lia.
Qed.

Lemma extract_line s t :
  extract_placeholders (s +:+ nl +:+ t) = extract_placeholders s ++ extract_placeholders t.
Proof. apply findall_from_line. lia. Qed.

Lemma extract_join paragraphs :
  extract_placeholders (Str.join nl paragraphs)
  = concat (extract_placeholders <$> paragraphs).
Proof.
  induction paragraphs as [|first [|second rest] IH]; [done| |].
  - cbn. by rewrite app_nil_r.
  - rewrite Summarizer.join_cons, extract_line, IH. done.
Qed.

(** X3: no placeholder reaches over a line break: the placeholders of two
    texts joined by a newline are those of the first followed by those of
    the second. So the placeholders [extract_placeholders] finds in the text
    of [read_docx] are those of the paragraphs, in the order of the
    document, and a marker broken over two paragraphs is not found. *)
Theorem extract_placeholders_by_line :
  (forall s t,
      extract_placeholders (s +:+ nl +:+ t)
      = extract_placeholders s ++ extract_placeholders t)
  /\ (forall paragraphs,
        extract_placeholders (Str.join nl paragraphs)
        = concat (extract_placeholders <$> paragraphs)).
Proof. split; [apply extract_line|apply extract_join]. Qed.

End Detection.

(** ** The map of inputs and the filled document *)

Module Filling.

Import StrFacts.

Lemma field_values_get p placeholders k :
  k ∈ placeholders ->
  dict_get k (field_values p placeholders) = Some (text_input p (k +:+ ":")).
Proof.
  unfold field_values. induction placeholders as [|x placeholders IH]; intros Hin.
  - by apply elem_of_nil in Hin.
  - rewrite fmap_cons. cbn [dict_get].
    destruct (String.eqb_spec x k) as [->|Hne]; [done|].
    apply IH. by apply elem_of_cons in Hin as [->|Hin].
Qed.

Lemma field_values_elem p placeholders k v :
  (k, v) ∈ field_values p placeholders ->
  k ∈ placeholders /\ v = text_input p (k +:+ ":").
Proof.
  unfold field_values. intros (x & [= -> ->] & Hin)%list_elem_of_fmap. done.
Qed.

(** X4: the loop that asks one value per placeholder returns exactly when
    the placeholders are distinct. Then the map has one entry for each
    placeholder, in the order of the document, and the entry of a
    placeholder holds what was typed into its input. When a placeholder
    stands twice, the loop ends with Streamlit's exception at the second
    text input of its label, and no map is built. *)
Theorem collect_inputs_dict p placeholders w :
  (NoDup placeholders ->
   collect_inputs p placeholders w = (w, Returns (field_values p placeholders))
   /\ dict_keys (field_values p placeholders) = placeholders
   /\ (forall k, k ∈ placeholders ->
                 dict_get k (field_values p placeholders)
                 = Some (text_input p (k +:+ ":"))))
  /\ (~ NoDup placeholders ->
      collect_inputs p placeholders w = (w, Raises DuplicateWidgetID)).
Proof.
  split.
  - intros Hnd. split; [by apply TemplateForm.collect_inputs_run|].
    split; [apply TemplateForm.dict_keys_field_values|]. intros k. apply field_values_get.
  - apply TemplateForm.collect_inputs_dup.
Qed.

Lemma collect_inputs_dict_witness :
  let p := typing "Name:" "Ada" idle in
  collect_inputs p ["Name"; "Date"] (fresh ∅)
    = (fresh ∅, Returns [("Name", "Ada"); ("Date", "")])
  /\ collect_inputs p ["Name"; "Date"; "Name"] (fresh ∅)
     = (fresh ∅, Raises DuplicateWidgetID).
Proof.
  split.
  - apply (proj1 (collect_inputs_dict (typing "Name:" "Ada" idle) ["Name"; "Date"]
                    (fresh ∅))).
    apply NoDup_cons. split; [by intros ?%list_elem_of_singleton|]. apply NoDup_singleton.
  - apply (proj2 (collect_inputs_dict (typing "Name:" "Ada" idle)
                    ["Name"; "Date"; "Name"] (fresh ∅))).
    intros [Hout _]%NoDup_cons. apply Hout. by apply list_elem_of_further, list_elem_of_here.
Defined.

(** *** Filling twice, and in another order *)


Lemma doc_ok_elem doc segs :
  doc_ok doc = true -> segs ∈ doc -> forallb segment_ok segs = true.
Proof.
  unfold doc_ok. rewrite forallb_forall. intros Hdoc Hin.
  by apply Hdoc, list_elem_of_In.
Qed.

Lemma fill_paragraphs_render user_inputs (doc : list (list segment)) :
  doc_ok doc = true -> inputs_ok user_inputs = true ->
  fill_paragraphs user_inputs (render <$> doc)
  = render <$> (fmap (M := list) (fill_segment user_inputs) <$> doc).
Proof.
  intros Hdoc Hin. unfold fill_paragraphs. rewrite <- !list_fmap_compose.
  apply list_fmap_ext. intros i segs Hi. simpl.
  apply Template.fill_paragraph_render; [done|].
  by eapply doc_ok_elem, list_elem_of_lookup_2.
Qed.








(** *** From the template to the filled document *)

Lemma no_close_contains name :
  brace_free name = true -> Str.contains "}}" (name +:+ "}") = false.
Proof.
  induction name as [|c name IH]; [reflexivity|].
  intros Hn. apply Template.brace_free_cons in Hn as (_ & Hc & Hn).
  rewrite sapp_cons. cbn [Str.contains Str.startswith].
  by rewrite (Ascii.eqb_sym "}" c), Hc, IH.
Qed.

Lemma findall_lit text rest :
  no_open text = true -> Re.findall_from 0 (text +:+ rest) = Re.findall_from 0 rest.
Proof.
  unfold no_open. induction text as [|c text IH]; [done|].
  cbn [Str.all_chars]. intros Ht. apply andb_true_iff in Ht as [Hc Ht].
  apply negb_true_iff in Hc.
  rewrite sapp_cons, Placeholders.findall_from_cons. unfold Re.match_here.
  rewrite Placeholders.after_open_startswith; [by apply IH|].
  cbn [Str.startswith]. by rewrite (Ascii.eqb_sym "{" c), Hc.
Qed.

(** The placeholders of a paragraph of literal text without [{] and
    markers with one-line names without braces are the names of its
    markers. *)
Lemma extract_render segs :
  forallb segment_ok segs = true -> forallb one_line segs = true ->
  extract_placeholders (render segs) = marker_names segs.
Proof.
  unfold extract_placeholders, Re.findall.
  induction segs as [|seg segs IH]; [done|].
  cbn [forallb]. intros Hok Hline.
  apply andb_true_iff in Hok as [Hseg Hok]. apply andb_true_iff in Hline as [Hone Hline].
  rewrite Template.render_cons. destruct seg as [text|name]; cbn [render_segment].
  - rewrite findall_lit by done. by apply IH.
  - assert (name_ok name = true) as Hname.
    { unfold name_ok, spec_name_ok. cbn [segment_ok one_line] in *.
      by rewrite no_close_contains, Hone. }
    rewrite Placeholders.findall_marker by done. by rewrite IH.
Qed.

Lemma marker_names_elem name segs :
  name ∈ marker_names segs <-> Marker name ∈ segs.
Proof.
  unfold marker_names. rewrite list_elem_of_omap. split.
  - intros ([text|name'] & Hin & Heq); [done|]. by injection Heq as ->.
  - intros Hin. by exists (Marker name).
Qed.

Lemma no_open_contains s : no_open s = true -> Str.contains "{{" s = false.
Proof.
  unfold no_open. induction s as [|c s IH]; [reflexivity|].
  cbn [Str.all_chars]. intros Hs. apply andb_true_iff in Hs as [Hc Hs].
  apply negb_true_iff in Hc. cbn [Str.contains Str.startswith].
  by rewrite (Ascii.eqb_sym "{" c), Hc, IH.
Qed.

Lemma no_open_render_typed p segs :
  forallb segment_ok segs = true ->
  (forall name, Marker name ∈ segs -> no_open (text_input p (name +:+ ":")) = true) ->
  no_open (render (typed p <$> segs)) = true.
Proof.
  induction segs as [|seg segs IH]; [done|].
  cbn [forallb]. intros Hok Hval. apply andb_true_iff in Hok as [Hseg Hok].
  rewrite fmap_cons, Template.render_cons. unfold no_open in *. rewrite all_chars_app.
  rewrite IH; [|done|by intros name Hin; apply Hval, list_elem_of_further].
  rewrite andb_true_r. destruct seg as [text|name]; [done|].
  apply Hval, list_elem_of_here.
Qed.

(** X7: on a template of literal text without [{] and markers with one-line
    names without braces, in which no placeholder stands twice, when the
    paragraphs and what is typed are read back as assigned and nothing typed
    holds a [{]: the placeholders found are the names of the markers in the
    order of the document, the loop over them returns the map of what was
    typed, the filling returns, the filled document is the template with
    every marker replaced by what was typed for it, and no [{{] and no
    placeholder is left in it. *)
Theorem filled_document_has_no_marker p (doc : list (list segment)) w :
  doc_ok doc = true -> forallb (forallb one_line) doc = true ->
  NoDup (concat (marker_names <$> doc)) ->
  forallb docx_text (render <$> doc) = true ->
  (forall name, name ∈ concat (marker_names <$> doc) ->
                no_open (text_input p (name +:+ ":")) = true
                /\ docx_text (text_input p (name +:+ ":")) = true) ->
  let placeholders := extract_placeholders (Str.join nl (render <$> doc)) in
  placeholders = concat (marker_names <$> doc)
  /\ collect_inputs p placeholders w = (w, Returns (field_values p placeholders))
  /\ exists filled,
       fill_document (field_values p placeholders) (render <$> doc) = Returns filled
       /\ filled = render <$> (fmap (M := list) (typed p) <$> doc)
       /\ Forall (fun text => Str.contains "{{" text = false
                              /\ extract_placeholders text = []) filled.
Proof.
  intros Hdoc Hline Hnd Hkept Hval placeholders.
  assert (placeholders = concat (marker_names <$> doc)) as Hph.
  { subst placeholders. rewrite Detection.extract_join, <- list_fmap_compose.
    f_equal. apply list_fmap_ext. intros i segs Hi. simpl.
    apply extract_render; [by eapply doc_ok_elem, list_elem_of_lookup_2|].
    rewrite forallb_forall in Hline. by eapply Hline, list_elem_of_In, list_elem_of_lookup_2. }
  assert (forall name segs, segs ∈ doc -> Marker name ∈ segs -> name ∈ placeholders) as Hin.
  { intros name segs Hsegs Hname. rewrite Hph. apply list_elem_of_In, in_concat.
    exists (marker_names segs). split; apply list_elem_of_In.
    - apply list_elem_of_fmap. by exists segs.
    - by apply marker_names_elem. }
  assert (inputs_ok (field_values p placeholders) = true) as Hok.
  { unfold inputs_ok. rewrite forallb_forall. intros [k v] Hitem.
    apply list_elem_of_In, field_values_elem in Hitem as [Hk ->].
    cbn [fst snd]. rewrite (proj1 (Hval k ltac:(by rewrite <- Hph))). rewrite andb_true_r.
    rewrite Hph in Hk. apply list_elem_of_In, in_concat in Hk as (names & Hnames & Hk).
    apply list_elem_of_In, list_elem_of_fmap in Hnames as (segs & -> & Hsegs).
    apply list_elem_of_In, marker_names_elem in Hk.
    pose proof (doc_ok_elem doc segs Hdoc Hsegs) as Hsegs_ok.
    rewrite forallb_forall in Hsegs_ok. by apply list_elem_of_In, Hsegs_ok in Hk. }
  assert (fill_paragraphs (field_values p placeholders) (render <$> doc)
          = render <$> (fmap (M := list) (typed p) <$> doc)) as Hfilled.
  { rewrite fill_paragraphs_render by done. f_equal.
    apply list_fmap_ext. intros i segs Hi. apply list_fmap_ext. intros j seg Hj.
    destruct seg as [text|name]; [done|]. cbn [fill_segment typed].
    rewrite field_values_get; [done|].
    by eapply Hin; eapply list_elem_of_lookup_2. }
  split; [done|]. split.
  { apply TemplateForm.collect_inputs_run. by rewrite Hph. }
  eexists. split.
  { apply Template.fill_document_kept; [done|].
    apply TemplateForm.values_field_values. intros name Hname.
    apply Hval. by rewrite <- Hph. }
  rewrite Hfilled. split; [done|].
  apply Forall_forall. intros text Htext.
  apply list_elem_of_fmap in Htext as (segs' & -> & Hsegs').
  apply list_elem_of_fmap in Hsegs' as (segs & -> & Hsegs).
  assert (no_open (render (typed p <$> segs)) = true) as Hno.
  { apply no_open_render_typed; [by eapply doc_ok_elem|].
    intros name Hname. apply Hval. rewrite <- Hph. by eapply Hin. }
  pose proof (no_open_contains _ Hno) as Hc. split; [done|].
  apply Placeholders.findall_tail. unfold tail_ok. by rewrite Hc.
Qed.

Lemma filled_document_has_no_marker_witness :
  let p := typing "Date:" "1 May" (typing "Name:" "Ada" idle) in
  let doc := [[Lit "Dear "; Marker "Name"; Lit ","];
              [Lit "signed on "; Marker "Date"; Lit "."]] in
  extract_placeholders (Str.join nl (render <$> doc)) = ["Name"; "Date"]
  /\ exists filled,
       fill_document
         (field_values p (extract_placeholders (Str.join nl (render <$> doc))))
         (render <$> doc) = Returns filled
       /\ filled = ["Dear Ada,"; "signed on 1 May."].
Proof.
  assert (forall name,
             name ∈ ["Name"; "Date"] ->
             no_open (text_input (typing "Date:" "1 May" (typing "Name:" "Ada" idle))
                        (name +:+ ":")) = true
             /\ docx_text (text_input (typing "Date:" "1 May" (typing "Name:" "Ada" idle))
                             (name +:+ ":")) = true) as Hval.
  { intros name Hin. repeat (apply elem_of_cons in Hin as [->|Hin]; [by split|]).
    by apply elem_of_nil in Hin. }
  assert (NoDup ["Name"; "Date"]) as Hnd.
  { apply NoDup_cons. split; [by intros ?%list_elem_of_singleton|]. apply NoDup_singleton. }
  destruct (filled_document_has_no_marker
              (typing "Date:" "1 May" (typing "Name:" "Ada" idle))
              [[Lit "Dear "; Marker "Name"; Lit ","];
               [Lit "signed on "; Marker "Date"; Lit "."]]
              (fresh ∅) eq_refl eq_refl Hnd eq_refl Hval)
    as (H1 & _ & filled & Hfill & Hfilled & _).
  split; [exact H1|]. exists filled. split; [exact Hfill|exact Hfilled].
Defined.

End Filling.

(** ** What each section touches *)

Module Frames.

Import Script.

Lemma draws_ret {A : Type} (a : A) : only_draws (mret a : M A).
Proof. intros w. exists [], (Returns a). by rewrite draw_nil. Qed.

Lemma draws_raise {A : Type} e : only_draws (raise e : M A).
Proof. intros w. exists [], (Raises e). by rewrite draw_nil. Qed.

Lemma draws_call {A : Type} (r : outcome A) : only_draws (call r).
Proof. intros w. exists [], r. by rewrite draw_nil. Qed.

Lemma draws_emit e : only_draws (emit e).
Proof. intros w. by exists [e], (Returns ()). Qed.

Lemma draws_get_chat_history : only_draws get_chat_history.
Proof. intros w. exists [], (Returns (chat_history w)). by rewrite draw_nil. Qed.

Lemma draws_bind {A B : Type} (m : M A) (k : A -> M B) :
  only_draws m -> (forall a, only_draws (k a)) -> only_draws (m ≫= k).
Proof.
  intros Hm Hk w. rewrite bind_run. destruct (Hm w) as (es & [a|e] & ->).
  - destruct (Hk a (draw es w)) as (es' & r & ->). exists (es ++ es'), r.
    by rewrite draw_draw.
  - by exists es, (Raises e).
Qed.

Lemma draws_try {A : Type} (body : M A) handler :
  only_draws body -> (forall e, only_draws (handler e)) ->
  only_draws (try_except body handler).
Proof.
  intros Hm Hk w. unfold try_except. destruct (Hm w) as (es & [a|e] & ->).
  - by exists es, (Returns a).
  - destruct (Hk e (draw es w)) as (es' & r & ->). exists (es ++ es'), r.
    by rewrite draw_draw.
Qed.

Lemma draws_when b body : only_draws body -> only_draws (when b body).
Proof. intros Hb. destruct b; [done|apply draws_ret]. Qed.

Lemma draws_for_each {A : Type} (xs : list A) body :
  (forall x, only_draws (body x)) -> only_draws (for_each xs body).
Proof.
  intros Hb. induction xs as [|x xs IH]; [apply draws_ret|].
  cbn [for_each]. apply draws_bind; [apply Hb|by intros _].
Qed.

Lemma draws_collect_inputs p placeholders : only_draws (collect_inputs p placeholders).
Proof.
  unfold collect_inputs. generalize (@nil string) as made, (@nil (string * string)) as d.
  induction placeholders as [|x placeholders IH]; intros made d; [apply draws_ret|].
  cbn [ask_fields]. apply draws_bind; [|intros value; apply IH].
  unfold st_text_input. case_bool_decide; [apply draws_raise|apply draws_ret].
Qed.

#[local] Hint Unfold generate_filled_document fill_docx_template read_docx
  show_document summarize_document first_summary_text extract_text_from_file
  render_message : script.

Ltac draws :=
  repeat first
    [ apply draws_collect_inputs | apply draws_ret | apply draws_raise | apply draws_call | apply draws_emit
    | apply draws_get_chat_history
    | apply draws_when | apply draws_for_each; intros ?
    | apply draws_try; [|intros ?]
    | apply draws_bind; [|intros ?]
    | match goal with
      | |- only_draws (match ?x with _ => _ end) => destruct x
      end
    | progress autounfold with script ].

Lemma draws_display_chunks chunks failure acc n :
  only_draws (display_chunks chunks failure acc n).
Proof.
  intros w. rewrite Chat.display_chunks_frames. by eexists _, _.
Qed.

Lemma draws_template_section `{libs : Libraries} p : only_draws (template_section p).
Proof. unfold template_section. draws. Qed.

Lemma draws_summarization_section `{libs : Libraries} p :
  only_draws (summarization_section p).
Proof. unfold summarization_section. draws. Qed.

Lemma draws_history_section : only_draws history_section.
Proof. unfold history_section. draws. Qed.

Lemma draws_keeps_files {A : Type} (m : M A) : only_draws m -> keeps_files m.
Proof. intros Hm w. by destruct (Hm w) as (es & r & ->). Qed.

Lemma draws_keeps_history {A : Type} (m : M A) : only_draws m -> keeps_history m.
Proof. intros Hm w. by destruct (Hm w) as (es & r & ->). Qed.

(** Two worlds drawn from the same one are the same only if the same was
    drawn. *)
Lemma draw_inj es es' w : draw es w = draw es' w -> es = es'.
Proof. unfold draw. intros [= H]. by apply app_inv_head in H. Qed.

Lemma append_row_run path record w :
  append_row path record w
  = (World (screen w) (chat_history w) (append_row_files path record (files w)),
     Returns ()).
Proof.
  unfold append_row_files. destruct (files w !! path) as [rows|] eqn:E.
  - by apply Persistence.append_row_existing.
  - by apply Persistence.append_row_new.
Qed.

Lemma questionnaire_section_run p w :
  exists es,
    questionnaire_section p w
    = (World (screen w ++ es) (chat_history w) (questionnaire_files p (files w)),
       Returns ()).
Proof.
  unfold questionnaire_section, questionnaire_files. rewrite !emit_bind, draw_draw.
  destruct (button p "Submit Questionnaire"); cbn [when andb].
  - unfold submit_questionnaire. destruct (all_values _).
    + rewrite bind_run. unfold save_questionnaire_to_csv. rewrite append_row_run.
      rewrite emit_run. eexists. unfold draw. cbn [screen chat_history files].
      by rewrite <- app_assoc.
    + rewrite emit_run, draw_draw. by eexists.
  - by eexists.
Qed.

Lemma feedback_section_run p w :
  exists es,
    feedback_section p w
    = (World (screen w ++ es) (chat_history w) (feedback_files p (files w)),
       Returns ()).
Proof.
  unfold feedback_files. destruct (button p "Submit Feedback") eqn:Hb.
  - rewrite Forms.feedback_section_clicked by done.
    unfold save_feedback_to_csv. rewrite append_row_run. by eexists.
  - unfold feedback_section. rewrite Hb. exists []. cbn [when]. rewrite ret_run.
    destruct w. cbn. by rewrite app_nil_r.
Qed.

End Frames.

(** ** The sections, case by case *)

Module Runs.

Import Script Frames.

Section Template.

Context `{libs : Libraries}.
Variable p : pass.

Lemma template_no_form w :
  form_upload p = None ->
  template_section p w
  = (draw [Subheader "Document Filling Assistance for Legal Forms"] w, Returns ()).
Proof. intros Hform. unfold template_section. by rewrite emit_bind, Hform. Qed.

Lemma template_unreadable w form e :
  form_upload p = Some form -> docx_paragraphs (file_bytes form) = Raises e ->
  template_section p w
  = (draw [Subheader "Document Filling Assistance for Legal Forms"] w, Raises e).
Proof.
  intros Hform Hdoc. unfold template_section, read_docx.
  by rewrite emit_bind, Hform, bind_run, call_bind, Hdoc.
Qed.

Lemma template_no_placeholder w form doc :
  form_upload p = Some form -> docx_paragraphs (file_bytes form) = Returns doc ->
  extract_placeholders (Str.join nl doc) = [] ->
  template_section p w
  = (draw [Subheader "Document Filling Assistance for Legal Forms";
           Warning "No placeholders found in the document. Please upload a document with placeholders like {{Name}}."]
          w, Returns ()).
Proof.
  intros Hform Hdoc Hnone. unfold template_section, read_docx.
  rewrite emit_bind, Hform, bind_run, call_bind, Hdoc, ret_run, Hnone.
  by rewrite emit_run, draw_draw.
Qed.

Lemma template_not_clicked w form doc :
  form_upload p = Some form -> docx_paragraphs (file_bytes form) = Returns doc ->
  extract_placeholders (Str.join nl doc) <> [] ->
  NoDup (extract_placeholders (Str.join nl doc)) ->
  button p "Generate Filled Document" = false ->
  template_section p w
  = (draw (fields_asked (extract_placeholders (Str.join nl doc))) w, Returns ()).
Proof.
  intros Hform Hdoc Hsome Hnd Hbutton.
  rewrite (TemplateForm.template_section_asked p w form doc) by done.
  by rewrite bind_run, TemplateForm.collect_inputs_run, Hbutton.
Qed.

(** X8: the other cases of the template section. Without a form it draws
    its heading only; a form the DOCX library cannot read ends the run with
    the library's exception; a form without placeholder gets a warning; a
    form in which a placeholder stands twice ends the run with Streamlit's
    exception behind the heading of the fields, whatever is typed or
    clicked; with distinct placeholders and before the button is clicked
    only the fields are asked. A download is offered only when the button
    was clicked on a form the library reads, with distinct placeholders
    whose inputs are all filled in. *)
Theorem template_section_cases w :
  (form_upload p = None ->
   template_section p w
   = (draw [Subheader "Document Filling Assistance for Legal Forms"] w, Returns ()))
  /\ (forall form e,
        form_upload p = Some form -> docx_paragraphs (file_bytes form) = Raises e ->
        template_section p w
        = (draw [Subheader "Document Filling Assistance for Legal Forms"] w, Raises e))
  /\ (forall form doc,
        form_upload p = Some form -> docx_paragraphs (file_bytes form) = Returns doc ->
        extract_placeholders (Str.join nl doc) = [] ->
        template_section p w
        = (draw [Subheader "Document Filling Assistance for Legal Forms";
                 Warning "No placeholders found in the document. Please upload a document with placeholders like {{Name}}."]
                w, Returns ()))
  /\ (forall form doc,
        form_upload p = Some form -> docx_paragraphs (file_bytes form) = Returns doc ->
        ~ NoDup (extract_placeholders (Str.join nl doc)) ->
        template_section p w
        = (draw (fields_asked (extract_placeholders (Str.join nl doc))) w,
           Raises DuplicateWidgetID))
  /\ (forall form doc,
        form_upload p = Some form -> docx_paragraphs (file_bytes form) = Returns doc ->
        extract_placeholders (Str.join nl doc) <> [] ->
        NoDup (extract_placeholders (Str.join nl doc)) ->
        button p "Generate Filled Document" = false ->
        template_section p w
        = (draw (fields_asked (extract_placeholders (Str.join nl doc))) w, Returns ()))
  /\ (forall es r,
        template_section p w = (draw es w, r) -> existsb is_download es = true ->
        button p "Generate Filled Document" = true
        /\ exists form doc,
             form_upload p = Some form
             /\ docx_paragraphs (file_bytes form) = Returns doc
             /\ NoDup (extract_placeholders (Str.join nl doc))
             /\ forall placeholder,
                  placeholder ∈ extract_placeholders (Str.join nl doc) ->
                  text_input p (placeholder +:+ ":") <> EmptyString).
Proof.
  split; [apply template_no_form|]. split; [apply template_unreadable|].
  split; [apply template_no_placeholder|].
  split; [apply TemplateForm.template_section_repeated|].
  split; [apply template_not_clicked|].
  intros es r Hrun Hdown.
  destruct (form_upload p) as [form|] eqn:Hform.
  2: { rewrite template_no_form in Hrun by done.
       apply (f_equal fst), draw_inj in Hrun. by subst es. }
  destruct (docx_paragraphs (file_bytes form)) as [doc|e] eqn:Hdoc.
  2: { rewrite (template_unreadable w form e) in Hrun by done.
       apply (f_equal fst), draw_inj in Hrun. by subst es. }
  destruct (extract_placeholders (Str.join nl doc)) as [|ph phs] eqn:Hph.
  { rewrite (template_no_placeholder w form doc) in Hrun by done.
    apply (f_equal fst), draw_inj in Hrun. by subst es. }
  destruct (decide (NoDup (ph :: phs))) as [Hnd|Hnd].
  2: { rewrite (TemplateForm.template_section_repeated p w form doc) in Hrun
         by (done || by rewrite Hph).
       apply (f_equal fst), draw_inj in Hrun. subst es. by rewrite Hph in Hdown. }
  destruct (button p "Generate Filled Document") eqn:Hbutton.
  2: { rewrite (template_not_clicked w form doc) in Hrun by (done || by rewrite Hph).
       apply (f_equal fst), draw_inj in Hrun. subst es. by rewrite Hph in Hdown. }
  split; [done|]. exists form, doc. split; [done|]. split; [done|].
  split; [by rewrite Hph|].
  rewrite (TemplateForm.template_section_clicked p w form doc) in Hrun
    by (done || by rewrite Hph).
  rewrite Hph in *. apply TemplateForm.all_values_field_values.
  destruct (all_values (field_values p (ph :: phs))) eqn:Hall; [done|].
  unfold generate_filled_document in Hrun. rewrite Hall in Hrun.
  rewrite emit_run, draw_draw in Hrun. apply (f_equal fst), draw_inj in Hrun.
  subst es. by rewrite existsb_app in Hdown.
Qed.

End Template.

Lemma template_section_cases_witness :
  let lease := Upload DOCX "Lease to {{Tenant}} from {{Start}}." in
  let twice := Upload DOCX "Dear {{Name}}, yours, {{Name}}" in
  template_section (libs := sample_libraries) (typing "Tenant:" "Ada" (with_form lease idle))
    (fresh ∅)
  = (draw (fields_asked ["Tenant"; "Start"]) (fresh ∅), Returns ())
  /\ template_section (libs := sample_libraries)
       (pressing "Generate Filled Document" (typing "Name:" "Ada" (with_form twice idle)))
       (fresh ∅)
     = (draw (fields_asked ["Name"; "Name"]) (fresh ∅), Raises DuplicateWidgetID).
Proof.
  assert (NoDup ["Tenant"; "Start"]) as Hnd.
  { apply NoDup_cons. split; [by intros ?%list_elem_of_singleton|]. apply NoDup_singleton. }
  assert (~ NoDup ["Name"; "Name"]) as Hdup.
  { intros [Hout _]%NoDup_cons. apply Hout, list_elem_of_here. }
  split.
  - exact (proj1 (proj2 (proj2 (proj2 (proj2
             (template_section_cases (libs := sample_libraries)
                (typing "Tenant:" "Ada"
                   (with_form (Upload DOCX "Lease to {{Tenant}} from {{Start}}.") idle))
                (fresh ∅))))))
            (Upload DOCX "Lease to {{Tenant}} from {{Start}}.")
            ["Lease to {{Tenant}} from {{Start}}."] eq_refl eq_refl
            ltac:(discriminate) Hnd eq_refl).
  - exact (proj1 (proj2 (proj2 (proj2
             (template_section_cases (libs := sample_libraries)
                (pressing "Generate Filled Document"
                   (typing "Name:" "Ada"
                      (with_form (Upload DOCX "Dear {{Name}}, yours, {{Name}}") idle)))
                (fresh ∅)))))
            (Upload DOCX "Dear {{Name}}, yours, {{Name}}")
            ["Dear {{Name}}, yours, {{Name}}"] eq_refl eq_refl Hdup).
Defined.

(** X9: what the summarize action draws for each answer of the pipeline.
    The summary of the first result under its heading; for an empty list of
    results, or a first result without [summary_text], the heading and then
    the error of the failed lookup. *)
Theorem summarize_document_cases p document_text w :
  (forall first rest text,
      summarizer p document_text = Returns (first :: rest) ->
      dict_get "summary_text" first = Some text ->
      summarize_document p document_text w
      = (draw [Subheader "Document Summary"; Write text] w, Returns ()))
  /\ (summarizer p document_text = Returns [] ->
      summarize_document p document_text w
      = (draw [Subheader "Document Summary";
               Error "Error during summarization: list index out of range"] w,
         Returns ()))
  /\ (forall first rest,
        summarizer p document_text = Returns (first :: rest) ->
        dict_get "summary_text" first = None ->
        summarize_document p document_text w
        = (draw [Subheader "Document Summary";
                 Error "Error during summarization: 'summary_text'"] w,
           Returns ())).
Proof.
  unfold summarize_document, try_except. rewrite call_bind.
  split; [|split].
  - intros first rest text -> Hget. rewrite emit_bind, bind_run.
    cbn [first_summary_text]. rewrite Hget, ret_run, emit_run, draw_draw. done.
  - intros ->. rewrite emit_bind, bind_run. cbn [first_summary_text].
    unfold raise. by rewrite emit_run, draw_draw.
  - intros first rest -> Hget. rewrite emit_bind, bind_run.
    cbn [first_summary_text]. rewrite Hget. unfold raise.
    by rewrite emit_run, draw_draw.
Qed.

Lemma summarize_document_cases_witness :
  let p := {| form_upload := None; file_upload := None;
              text_input := text_input idle; text_area := text_area idle;
              choice := choice idle; button := button idle;
              summarizer _ := Returns [[("summary_text", "A lease of one year.")]];
              astream := astream idle |} in
  summarize_document p "Lease of 1 May" (fresh ∅)
  = (draw [Subheader "Document Summary"; Write "A lease of one year."] (fresh ∅),
     Returns ()).
Proof.
  exact (proj1 (summarize_document_cases
                  {| form_upload := None; file_upload := None;
                     text_input := text_input idle; text_area := text_area idle;
                     choice := choice idle; button := button idle;
                     summarizer _ := Returns [[("summary_text", "A lease of one year.")]];
                     astream := astream idle |}
                  "Lease of 1 May" (fresh ∅))
               [("summary_text", "A lease of one year.")] [] "A lease of one year."
               eq_refl eq_refl).
Defined.

End Runs.

(** ** Runs and sessions *)

Module Sessions.

Import Script Frames.

Lemma language_selected p :
  dict_get (select ["English"; "German"; "French"; "Hindi"]
                   (choice p "Choose the language for responses:"))
           language_mapping
  = Some (selected_language p)
  /\ selected_language p ∈ ["en"; "de"; "fr"; "hi"].
Proof.
  unfold selected_language.
  destruct (choice p _) as [|[|[|[|n]]]]; (split; [reflexivity|]); cbn;
    repeat constructor.
Qed.

Lemma chat_section_eq p w :
  chat_section p w
  = if button p "Ask" then
      if Str.strip_truthy (text_input p ASK_LABEL) then
        (World (screen w
                  ++ Subheader "Chat with the Legal Chatbot"
                  :: response_areas
                       (astream p [HumanMessage (text_input p ASK_LABEL)]
                          (selected_language p)).1)
               (Some (default [] (chat_history w)
                        ++ [HumanMessage (text_input p ASK_LABEL)]))
               (files w),
         match (astream p [HumanMessage (text_input p ASK_LABEL)]
                  (selected_language p)).2 with
         | None => Returns ()
         | Some e => Raises e
         end)
      else
        (World (screen w ++ [Subheader "Chat with the Legal Chatbot";
                             Warning "Please enter a valid query."])
               (Some (default [] (chat_history w))) (files w),
         Returns ())
    else
      (World (screen w ++ [Subheader "Chat with the Legal Chatbot"])
             (Some (default [] (chat_history w))) (files w),
       Returns ()).
Proof.
  unfold chat_section. rewrite emit_bind. unfold get_chat_history at 1.
  rewrite bind_run. cbv beta iota. rewrite chat_history_draw, bind_run.
  assert ((when (bool_decide (chat_history w = None)) (set_chat_history []))
            (draw [Subheader "Chat with the Legal Chatbot"] w)
          = (World (screen w ++ [Subheader "Chat with the Legal Chatbot"])
                   (Some (default [] (chat_history w))) (files w),
             Returns ())) as ->.
  { destruct (chat_history w) as [h|] eqn:Hh.
    - rewrite bool_decide_eq_false_2 by done. cbn [when]. rewrite ret_run.
      unfold draw. by rewrite Hh.
    - rewrite bool_decide_eq_true_2 by done. reflexivity. }
  destruct (language_selected p) as [-> _]. rewrite bind_run, ret_run.
  destruct (button p "Ask"); cbn [when]; [|by rewrite ret_run].
  unfold ask. destruct (Str.strip_truthy (text_input p ASK_LABEL)).
  - unfold chat_history_append, get_chat_history, set_chat_history.
    rewrite !bind_run. cbn [chat_history screen files]. cbv beta iota.
    unfold display_response. rewrite Chat.display_chunks_frames.
    unfold draw. cbn [chat_history screen files]. rewrite <- app_assoc. done.
  - rewrite emit_run. unfold draw. cbn [chat_history screen files].
    by rewrite <- app_assoc.
Qed.

(** X10: the chat section, case by case. It starts the history as the empty
    list when the session has none. Without a click on [Ask] it draws its
    heading only; a query of whitespace gets a warning and leaves the history
    as it is. Otherwise the query goes into the history, the workflow is
    asked with this one query (not with the history) and with the code of
    the chosen language, which is always one of the four of the mapping, and
    the response area is drawn for each assistant chunk; when the stream
    fails, its exception ends the run after the query was recorded and the
    chunks delivered so far were drawn. *)
Theorem chat_section_cases p w :
  selected_language p ∈ ["en"; "de"; "fr"; "hi"]
  /\ chat_section p w
     = if button p "Ask" then
         if Str.strip_truthy (text_input p ASK_LABEL) then
           (World (screen w
                     ++ Subheader "Chat with the Legal Chatbot"
                     :: response_areas
                          (astream p [HumanMessage (text_input p ASK_LABEL)]
                             (selected_language p)).1)
                  (Some (default [] (chat_history w)
                           ++ [HumanMessage (text_input p ASK_LABEL)]))
                  (files w),
            match (astream p [HumanMessage (text_input p ASK_LABEL)]
                     (selected_language p)).2 with
            | None => Returns ()
            | Some e => Raises e
            end)
         else
           (World (screen w ++ [Subheader "Chat with the Legal Chatbot";
                                Warning "Please enter a valid query."])
                  (Some (default [] (chat_history w))) (files w),
            Returns ())
       else
         (World (screen w ++ [Subheader "Chat with the Legal Chatbot"])
                (Some (default [] (chat_history w))) (files w),
          Returns ()).
Proof. split; [apply language_selected|apply chat_section_eq]. Qed.

(** *** Sections that return *)

Section Returning.

Context `{libs : Libraries}.
Variable p : pass.

Lemma template_returns w :
  readable p -> exists es, template_section p w = (draw es w, Returns ()).
Proof.
  intros [Hform _]. destruct (form_upload p) as [form|] eqn:Ef.
  2: { rewrite Runs.template_no_form by done. by eexists. }
  destruct (Hform form Ef) as (doc & Hdoc & Hnd & Hxml & Hval).
  destruct (extract_placeholders (Str.join nl doc)) as [|ph phs] eqn:Hph.
  { rewrite (Runs.template_no_placeholder p w form doc) by done. by eexists. }
  destruct (button p "Generate Filled Document") eqn:Hb.
  2: { rewrite (Runs.template_not_clicked p w form doc) by (done || by rewrite Hph).
       by eexists. }
  rewrite (TemplateForm.template_section_clicked p w form doc)
    by (done || by rewrite Hph).
  rewrite Hph. destruct (all_values (field_values p (ph :: phs))) eqn:Hall.
  - rewrite (TemplateForm.generate_filled _ form doc) by done.
    destruct (Template.fill_document_xml (field_values p (ph :: phs)) doc Hxml)
      as [filled ->]; [by apply TemplateForm.values_field_values|].
    rewrite draw_draw. by eexists.
  - unfold generate_filled_document. rewrite Hall, emit_run, draw_draw. by eexists.
Qed.

Lemma extract_returns file w :
  well_formed file -> exists r, extract_text_from_file file w = (w, Returns r).
Proof.
  intros (Hpdf & Hdocx & Htxt). destruct (supported (file_type file)) eqn:E.
  - destruct (Summarizer.supported_cases _ E) as [E'|[E'|E']].
    + destruct (Hpdf E') as [pages Hr]. rewrite Summarizer.extract_pdf, Hr by done.
      by eexists.
    + destruct (Hdocx E') as [ps Hr]. rewrite Summarizer.extract_docx, Hr by done.
      by eexists.
    + destruct (Htxt E') as [text Hr]. rewrite Summarizer.extract_txt, Hr by done.
      by eexists.
  - rewrite Summarizer.extract_other by done. by eexists.
Qed.

Lemma show_document_returns document_text w :
  exists es, show_document p document_text w = (draw es w, Returns ()).
Proof.
  unfold show_document. destruct (text_truthy document_text).
  - cbv zeta. rewrite !emit_bind, draw_draw.
    destruct (button p "Summarize Document"); cbn [when].
    + match goal with |- context [summarize_document p ?t ?w'] =>
        destruct (Summarize.summarize_document_returns p t w') as [drawn ->]
      end.
      rewrite draw_draw. by eexists.
    + rewrite ret_run. by eexists.
  - rewrite emit_run. by eexists.
Qed.

Lemma summarization_returns w :
  readable p -> exists es, summarization_section p w = (draw es w, Returns ()).
Proof.
  intros [_ Hfile]. unfold summarization_section. rewrite emit_bind.
  destruct (file_upload p) as [file|] eqn:Ef; [|rewrite ret_run; by eexists].
  rewrite bind_run.
  destruct (extract_returns file (draw [Subheader "Upload a Legal Document for Summarization"] w)
              (Hfile file eq_refl)) as [r ->].
  destruct (show_document_returns r
              (draw [Subheader "Upload a Legal Document for Summarization"] w))
    as [es ->].
  rewrite draw_draw. by eexists.
Qed.

End Returning.

Lemma history_section_returns w h :
  chat_history w = Some h -> exists es, history_section w = (draw es w, Returns ()).
Proof.
  intros Hh. unfold history_section. rewrite emit_bind.
  unfold get_chat_history. rewrite bind_run. cbv beta iota.
  rewrite chat_history_draw, Hh.
  assert (forall w', exists es, for_each h render_message w' = (draw es w', Returns ()))
    as Hloop.
  { clear Hh. induction h as [|m h IH]; intros w'.
    - exists []. by rewrite draw_nil.
    - cbn [for_each]. rewrite bind_run.
      assert (exists es, render_message m w' = (draw es w', Returns ())) as [es ->].
      { destruct m; cbn [render_message]; rewrite ?emit_run, ?ret_run; eexists;
          [done|done|by rewrite draw_nil]. }
      destruct (IH (draw es w')) as [es' ->]. rewrite draw_draw. by eexists. }
  destruct (Hloop (draw [Subheader "Chat History"] w)) as [es ->].
  rewrite draw_draw. by eexists.
Qed.

Lemma keeps_files_chat_section `{libs : Libraries} p : keeps_files (chat_section p).
Proof.
  intros w. rewrite chat_section_eq.
  destruct (button p "Ask"); [destruct (Str.strip_truthy _)|]; done.
Qed.

(** The sections behind the chat, from the history to the feedback form. *)
Lemma rest_run p w h :
  chat_history w = Some h ->
  exists es,
    (history_section ;;
     emit (Subheader "Feedback Form") ;;
     emit (Write "Please provide your valuable feedback to improve the Legal Chatbot Assistant.") ;;
     questionnaire_section p ;; feedback_section p) w
    = (World (screen w ++ es) (chat_history w)
             (feedback_files p (questionnaire_files p (files w))),
       Returns ()).
Proof.
  intros Hh. rewrite bind_run.
  destruct (history_section_returns w h Hh) as [es1 ->].
  rewrite !emit_bind, !draw_draw, bind_run.
  destruct (questionnaire_section_run p (draw (es1 ++ [Subheader "Feedback Form"] ++ [Write "Please provide your valuable feedback to improve the Legal Chatbot Assistant."]) w))
    as [es2 ->].
  match goal with |- context [feedback_section p ?w'] =>
    destruct (feedback_section_run p w') as [es3 ->]
  end.
  cbn [screen chat_history files draw]. rewrite <- !app_assoc. by eexists.
Qed.

Section Pages.

Context `{libs : Libraries}.
Variable p : pass.

(** What a run makes of the files: nothing when it ends before the forms,
    and otherwise what the two forms make of them. *)
Lemma page_files w :
  files (page p w).1 = files w
  \/ files (page p w).1 = feedback_files p (questionnaire_files p (files w)).
Proof.
  unfold page. rewrite bind_run.
  destruct (draws_template_section p w) as (es1 & [[]|e] & ->); [|by left].
  rewrite bind_run.
  destruct (draws_summarization_section p (draw es1 w)) as (es2 & [[]|e] & ->);
    [|by left].
  rewrite bind_run.
  pose proof (keeps_files_chat_section p (draw es2 (draw es1 w))) as Hf.
  pose proof (History.chat_section_history p (draw es2 (draw es1 w))) as Hh.
  destruct (chat_section p (draw es2 (draw es1 w))) as [w3 [[]|e]]; cbn [fst] in *;
    [|by left].
  destruct (rest_run p w3 _ Hh) as [es ->]. right. cbn [fst files]. by rewrite Hf.
Qed.

(** A run whose uploads the libraries read and whose stream does not fail
    goes through every section. *)
Lemma page_complete w :
  readable p -> stream_ends p ->
  exists es,
    page p w
    = (World (screen w ++ es) (Some (default [] (chat_history w) ++ asked p))
             (feedback_files p (questionnaire_files p (files w))),
       Returns ()).
Proof.
  intros Hread Hends. unfold page. rewrite bind_run.
  destruct (template_returns p w Hread) as [es1 ->]. rewrite bind_run.
  destruct (summarization_returns p (draw es1 w) Hread) as [es2 ->]. rewrite bind_run.
  pose proof (keeps_files_chat_section p (draw es2 (draw es1 w))) as Hf.
  pose proof (History.chat_section_history p (draw es2 (draw es1 w))) as Hh.
  assert (exists w3, chat_section p (draw es2 (draw es1 w)) = (w3, Returns ())
                     /\ exists es3, screen w3 = screen w ++ es3) as (w3 & Hc & es3 & Hs).
  { rewrite chat_section_eq. destruct (button p "Ask"); [|eexists; split; [done|]].
    - destruct (Str.strip_truthy _); [rewrite Hends|]; eexists; (split; [done|]);
        cbn [screen draw]; rewrite <- !app_assoc; by eexists.
    - cbn [screen draw]. rewrite <- !app_assoc. by eexists. }
  rewrite Hc in *. cbn [fst] in *.
  destruct (rest_run p w3 _ Hh) as [es ->]. rewrite Hs, <- app_assoc, Hh, Hf.
  by eexists.
Qed.

(** A run whose uploads the libraries read reaches the chat section. *)
Lemma page_history_readable w :
  readable p ->
  chat_history (page p w).1 = Some (default [] (chat_history w) ++ asked p).
Proof.
  intros Hread. unfold page. rewrite bind_run.
  destruct (template_returns p w Hread) as [es1 ->]. rewrite bind_run.
  destruct (summarization_returns p (draw es1 w) Hread) as [es2 ->]. rewrite bind_run.
  pose proof (History.chat_section_history p (draw es2 (draw es1 w))) as Hh.
  destruct (chat_section p (draw es2 (draw es1 w))) as [w3 [[]|e]]; cbn [fst] in *;
    [|done].
  by destruct (rest_run p w3 _ Hh) as [es ->].
Qed.

End Pages.

(** X11: an upload its library cannot read ends the run, since the script
    catches no exception of the readers. With an unreadable form the run
    stops behind the first heading; with an unreadable file for
    summarization it stops behind the heading of that section. The chat, the
    history and the two forms are not reached: the chat history and the
    files are left as they were, whatever button was clicked. *)
Theorem unreadable_upload_aborts `{libs : Libraries} p w :
  (forall form e,
      form_upload p = Some form -> docx_paragraphs (file_bytes form) = Raises e ->
      run p w
      = (World [Subheader "Document Filling Assistance for Legal Forms"]
               (chat_history w) (files w),
         Raises e))
  /\ (forall file e,
        file_upload p = Some file ->
        (extract_text_from_file file w).2 = Raises e ->
        exists es e',
          run p w = (World es (chat_history w) (files w), Raises e')
          /\ (form_upload p = None ->
              es = [Subheader "Document Filling Assistance for Legal Forms";
                    Subheader "Upload a Legal Document for Summarization"]
              /\ e' = e)).
Proof.
  split.
  - intros form e Hform Hdoc. unfold run, page.
    by rewrite bind_run, (Runs.template_unreadable p _ form e).
  - intros file e Hfile Hextract. unfold run, page. rewrite bind_run.
    set (w0 := World [] (chat_history w) (files w)).
    destruct (draws_template_section p w0) as (es1 & [[]|e1] & Ht); rewrite Ht.
    + rewrite bind_run. unfold summarization_section.
      rewrite emit_bind, Hfile, bind_run.
      rewrite (Summarizer.extract_frame file _ w), Hextract.
      eexists _, e. split; [reflexivity|]. intros Hform.
      rewrite Runs.template_no_form in Ht by done.
      apply (f_equal fst), draw_inj in Ht. by subst es1.
    + exists es1, e1. split; [done|]. intros Hform.
      rewrite Runs.template_no_form in Ht by done. by apply (f_equal snd) in Ht.
Qed.

Lemma unreadable_upload_aborts_witness :
  let libs := {| docx_paragraphs _ := Raises "PackageNotFoundError";
                 pdf_pages bytes := Returns [bytes];
                 utf8_decode bytes := Returns bytes |} in
  let p := pressing "Submit Feedback" (with_form (Upload DOCX "not a zip") idle) in
  run (libs := libs) p (fresh ∅)
  = (World [Subheader "Document Filling Assistance for Legal Forms"] None ∅,
     Raises "PackageNotFoundError").
Proof.
  exact (proj1 (unreadable_upload_aborts
                  (libs := {| docx_paragraphs _ := Raises "PackageNotFoundError";
                              pdf_pages bytes := Returns [bytes];
                              utf8_decode bytes := Returns bytes |})
                  (pressing "Submit Feedback" (with_form (Upload DOCX "not a zip") idle))
                  (fresh ∅))
               (Upload DOCX "not a zip") "PackageNotFoundError" eq_refl eq_refl).
Defined.

(** X12: over a session whose uploads go through the first two sections
    (the libraries read them, no placeholder stands twice in a form, and the
    paragraphs of a form and what is typed for its placeholders hold only
    characters XML holds), the chat history is the list of the queries that
    were asked (a click on [Ask] with a query that is not all whitespace),
    one user message each, in the order of the runs; this also when a stream
    failed. *)
Theorem session_history `{libs : Libraries} passes w :
  Forall readable passes -> passes <> [] ->
  chat_history (session passes w)
  = Some (default [] (chat_history w) ++ concat (asked <$> passes)).
Proof.
  unfold session. revert w. induction passes as [|p passes IH]; intros w Hread Hne; [done|].
  apply Forall_cons in Hread as [Hp Hread]. cbn [foldl].
  pose proof (page_history_readable p (World [] (chat_history w) (files w)) Hp) as Hrun.
  cbn [chat_history] in Hrun. fold (run p w) in Hrun.
  destruct passes as [|p' passes].
  - cbn. by rewrite Hrun, app_nil_r.
  - rewrite IH by done. rewrite Hrun. cbn. by rewrite <- !app_assoc.
Qed.

Lemma readable_no_upload `{libs : Libraries} p :
  form_upload p = None -> file_upload p = None -> readable p.
Proof. intros Hf Hu. split; intros ?; by rewrite ?Hf, ?Hu. Qed.

(** With the stand-ins, a form of one paragraph goes through when its
    placeholders are distinct and it and what is typed hold only characters
    XML holds. *)
Lemma sample_readable p form :
  form_upload p = Some form -> file_upload p = None ->
  NoDup (extract_placeholders (file_bytes form)) ->
  xml_ok (file_bytes form) = true ->
  (forall placeholder,
     placeholder ∈ extract_placeholders (file_bytes form) ->
     xml_ok (text_input p (placeholder +:+ ":")) = true) ->
  readable (libs := sample_libraries) p.
Proof.
  intros Hform Hfile Hnd Hxml Hval. split.
  - intros form' Hform'. rewrite Hform in Hform'. injection Hform' as <-.
    exists [file_bytes form]. split; [done|]. split; [done|].
    split; [|done]. cbn [forallb]. by rewrite Hxml.
  - intros file. by rewrite Hfile.
Qed.

Lemma session_history_witness :
  let lease := Upload DOCX "Lease to {{Tenant}}." in
  let ask q := pressing "Ask" (typing ASK_LABEL q idle) in
  chat_history (session (libs := sample_libraries)
                  [typing "Tenant:" "Ada" (with_form lease (ask "Is a verbal lease binding?"));
                   ask "   "; idle; ask "And a sublease?"]
                  (fresh ∅))
  = Some [HumanMessage "Is a verbal lease binding?"; HumanMessage "And a sublease?"].
Proof.
  assert (readable (libs := sample_libraries)
            (typing "Tenant:" "Ada"
               (with_form (Upload DOCX "Lease to {{Tenant}}.")
                  (pressing "Ask" (typing ASK_LABEL "Is a verbal lease binding?" idle)))))
    as Hlease.
  { apply (sample_readable _ (Upload DOCX "Lease to {{Tenant}}.")); try reflexivity.
    - apply NoDup_singleton.
    - intros placeholder Hin. apply list_elem_of_singleton in Hin as ->. reflexivity. }
  apply (session_history (libs := sample_libraries)
           [typing "Tenant:" "Ada"
              (with_form (Upload DOCX "Lease to {{Tenant}}.")
                 (pressing "Ask" (typing ASK_LABEL "Is a verbal lease binding?" idle)));
            pressing "Ask" (typing ASK_LABEL "   " idle); idle;
            pressing "Ask" (typing ASK_LABEL "And a sublease?" idle)] (fresh ∅)).
  - apply Forall_cons_2; [exact Hlease|].
    repeat (apply Forall_cons_2; [by apply readable_no_upload|]). constructor.
  - discriminate.
Defined.

Lemma append_row_files_other path record fs other :
  other <> path -> append_row_files path record fs !! other = fs !! other.
Proof.
  intros Hne. unfold append_row_files.
  destruct (fs !! path); by rewrite lookup_insert_ne.
Qed.

Lemma questionnaire_files_other p fs other :
  other <> QUESTIONNAIRE_FILE -> questionnaire_files p fs !! other = fs !! other.
Proof.
  intros Hne. unfold questionnaire_files.
  destruct (_ && _); [by apply append_row_files_other|done].
Qed.

Lemma feedback_files_other p fs other :
  other <> FEEDBACK_FILE -> feedback_files p fs !! other = fs !! other.
Proof.
  intros Hne. unfold feedback_files.
  destruct (button p _); [by apply append_row_files_other|done].
Qed.

Lemma run_files `{libs : Libraries} p w :
  files (run p w).1 = files w
  \/ files (run p w).1 = feedback_files p (questionnaire_files p (files w)).
Proof. apply (page_files p (World [] (chat_history w) (files w))). Qed.

(** X13: a run writes files only through the two forms. It leaves every
    path other than the two logs as it was; it leaves the feedback log as it
    was unless [Submit Feedback] was clicked, and the questionnaire log as it
    was unless [Submit Questionnaire] was clicked with every field filled
    in; without a click on either button no file changes. *)
Theorem files_written_by_forms_only `{libs : Libraries} p w :
  (forall path,
      path <> QUESTIONNAIRE_FILE -> path <> FEEDBACK_FILE ->
      files (run p w).1 !! path = files w !! path)
  /\ (button p "Submit Feedback" = false ->
      files (run p w).1 !! FEEDBACK_FILE = files w !! FEEDBACK_FILE)
  /\ (button p "Submit Questionnaire" = false
      \/ all_values (questionnaire_responses p) = false ->
      files (run p w).1 !! QUESTIONNAIRE_FILE = files w !! QUESTIONNAIRE_FILE)
  /\ (button p "Submit Questionnaire" = false -> button p "Submit Feedback" = false ->
      files (run p w).1 = files w).
Proof.
  destruct (run_files p w) as [->| ->].
  { repeat split; done. }
  split; [|split; [|split]].
  - intros path Hq Hf. by rewrite feedback_files_other, questionnaire_files_other.
  - intros Hb. unfold feedback_files at 1. rewrite Hb.
    by apply questionnaire_files_other.
  - intros Hq. rewrite feedback_files_other by done.
    unfold questionnaire_files. by destruct Hq as [-> | ->]; rewrite ?andb_false_r.
  - intros Hq Hf. unfold feedback_files, questionnaire_files. by rewrite Hq, Hf.
Qed.

Lemma files_written_by_forms_only_witness :
  let p := pressing "Ask" (typing ASK_LABEL "Is a verbal lease binding?" idle) in
  files (run (libs := sample_libraries) p (fresh ∅)).1 = ∅.
Proof.
  exact (proj2 (proj2 (proj2 (files_written_by_forms_only (libs := sample_libraries)
                                (pressing "Ask"
                                   (typing ASK_LABEL "Is a verbal lease binding?" idle))
                                (fresh ∅))))
               eq_refl eq_refl).
Defined.

(** X14: a run whose uploads go through the first two sections (the
    libraries read them, no placeholder stands twice in the form, and the
    paragraphs of the form and what is typed for its placeholders hold only
    characters XML holds) and whose stream does not fail goes through every
    section and returns; its history is the old one
    with the query asked, its files are what the questionnaire form and
    then the feedback form make of the old ones. Over a session of such
    runs the files are what the forms of the runs make of them in turn. *)
Theorem complete_runs `{libs : Libraries} passes w :
  (forall p, readable p -> stream_ends p ->
             exists es,
               run p w
               = (World es (Some (default [] (chat_history w) ++ asked p))
                        (feedback_files p (questionnaire_files p (files w))),
                  Returns ()))
  /\ (Forall (fun p => readable p /\ stream_ends p) passes ->
      files (session passes w)
      = foldl (fun fs p => feedback_files p (questionnaire_files p fs)) (files w) passes).
Proof.
  split.
  - intros p Hread Hends. unfold run.
    destruct (page_complete p (World [] (chat_history w) (files w)) Hread Hends)
      as [es ->]. by eexists.
  - unfold session. revert w. induction passes as [|p passes IH]; intros w Hall; [done|].
    apply Forall_cons in Hall as [[Hread Hends] Hall]. cbn [foldl].
    rewrite IH by done. f_equal. unfold run.
    by destruct (page_complete p (World [] (chat_history w) (files w)) Hread Hends)
      as [es ->].
Qed.

Lemma complete_runs_witness :
  let lease := Upload DOCX "Lease to {{Tenant}}." in
  let fill := pressing "Generate Filled Document"
                (typing "Tenant:" "Ada" (with_form lease idle)) in
  let rate := pressing "Submit Feedback" idle in
  (exists es,
      run (libs := sample_libraries) fill (fresh ∅) = (World es (Some []) ∅, Returns ()))
  /\ files (session (libs := sample_libraries) [fill; rate; rate] (fresh ∅))
     = {[ FEEDBACK_FILE := [FEEDBACK_HEADER;
                            ["Excellent"; "Yes"; "Yes"; ""];
                            ["Excellent"; "Yes"; "Yes"; ""]] ]}.
Proof.
  assert (readable (libs := sample_libraries)
            (pressing "Generate Filled Document"
               (typing "Tenant:" "Ada" (with_form (Upload DOCX "Lease to {{Tenant}}.") idle))))
    as Hfill.
  { apply (sample_readable _ (Upload DOCX "Lease to {{Tenant}}.")); try reflexivity.
    - apply NoDup_singleton.
    - intros placeholder Hin. apply list_elem_of_singleton in Hin as ->. reflexivity. }
  split.
  - apply (proj1 (complete_runs (libs := sample_libraries) [] (fresh ∅))
             (pressing "Generate Filled Document"
                (typing "Tenant:" "Ada"
                   (with_form (Upload DOCX "Lease to {{Tenant}}.") idle)))
             Hfill).
    done.
  - etrans.
    + apply (proj2 (complete_runs (libs := sample_libraries)
                      [pressing "Generate Filled Document"
                         (typing "Tenant:" "Ada"
                            (with_form (Upload DOCX "Lease to {{Tenant}}.") idle));
                       pressing "Submit Feedback" idle; pressing "Submit Feedback" idle]
                      (fresh ∅))).
      apply Forall_cons_2; [by split|].
      repeat (apply Forall_cons_2; [split; [by apply readable_no_upload|done]|]).
      constructor.
    + by vm_compute.
Defined.

Lemma one_of_elem options s : s ∈ options -> one_of options s = true.
Proof.
  intros Hin. unfold one_of. apply existsb_exists.
  exists s. split; [by apply list_elem_of_In|apply String.eqb_refl].
Qed.

Lemma one_of_select options i : options <> [] -> one_of options (select options i) = true.
Proof.
  intros Hne. apply one_of_elem. unfold select.
  destruct (options !! i) as [s|] eqn:E; cbn [default].
  - by apply list_elem_of_lookup_2 in E.
  - destruct options as [|s options]; [done|]. apply list_elem_of_here.
Qed.

Lemma append_row_files_log path header row_ok record fs :
  dict_keys record = header -> row_ok (dict_values record) = true ->
  log_ok header row_ok (fs !! path) ->
  log_ok header row_ok (append_row_files path record fs !! path).
Proof.
  intros Hkeys Hrow Hlog. unfold append_row_files.
  destruct (fs !! path) as [rows|]; rewrite lookup_insert_eq; cbn [log_ok] in *.
  - destruct Hlog as (body & -> & Hbody). exists (body ++ [dict_values record]).
    split; [done|]. rewrite forallb_app, Hbody. cbn. by rewrite Hrow.
  - exists [dict_values record]. rewrite Hkeys. split; [done|]. cbn. by rewrite Hrow.
Qed.

Lemma questionnaire_row p :
  all_values (questionnaire_responses p) = true ->
  questionnaire_row_ok (dict_values (questionnaire_responses p)) = true.
Proof.
  rewrite Forms.questionnaire_all_values, Forms.questionnaire_responses_items.
  intros [Hname [Hcontact Hdetails]%andb_prop]%andb_prop.
  cbn [dict_values fmap list_fmap snd questionnaire_row_ok].
  rewrite Hname, Hcontact, Hdetails, !one_of_select by done. reflexivity.
Qed.

Lemma feedback_row p : feedback_row_ok (dict_values (feedback p)) = true.
Proof.
  rewrite Forms.feedback_items.
  cbn [dict_values fmap list_fmap snd feedback_row_ok].
  by rewrite !one_of_select.
Qed.

Lemma logs_ok_forms p fs :
  logs_ok fs -> logs_ok (feedback_files p (questionnaire_files p fs)).
Proof.
  intros [Hq Hf]. split.
  - rewrite feedback_files_other by done. unfold questionnaire_files.
    destruct (button p _ && all_values _) eqn:E; [|done].
    apply andb_prop in E as [_ Hall].
    apply append_row_files_log; [reflexivity|by apply questionnaire_row|done].
  - assert (log_ok FEEDBACK_HEADER feedback_row_ok
              (questionnaire_files p fs !! FEEDBACK_FILE)) as Hf'.
    { by rewrite questionnaire_files_other. }
    unfold feedback_files. destruct (button p _); [|done].
    apply append_row_files_log; [reflexivity|apply feedback_row|done].
Qed.

(** X15: the two logs stay well formed. When each log is missing or is its
    header followed by rows of its form (the questionnaire's with no empty
    cell, the choices among the options offered), then it is so after every
    run and after every session, whatever the runs were and however they
    ended. A log that did not begin with its header never gets one: the
    header is written only with the first row of a missing file. *)
Theorem logs_stay_well_formed `{libs : Libraries} passes w :
  logs_ok (files w) -> logs_ok (files (session passes w)).
Proof.
  unfold session. revert w. induction passes as [|p passes IH]; intros w Hok; [done|].
  cbn [foldl]. apply IH.
  destruct (run_files p w) as [-> | ->]; [done|by apply logs_ok_forms].
Qed.

Lemma logs_stay_well_formed_witness :
  logs_ok (files (session (libs := sample_libraries)
                    [pressing "Submit Feedback" idle;
                     pressing "Submit Questionnaire" (typing "What is your name?" "Ada" idle);
                     pressing "Submit Feedback" idle]
                    (fresh ∅))).
Proof.
  apply (logs_stay_well_formed (libs := sample_libraries)
           [pressing "Submit Feedback" idle;
            pressing "Submit Questionnaire" (typing "What is your name?" "Ada" idle);
            pressing "Submit Feedback" idle] (fresh ∅)).
  split; cbn [fresh files]; rewrite lookup_empty; exact I.
Defined.

(** X16: a query shows in the chat history in the run in which it is
    asked, since the script draws the history behind the chat. In a run whose
    uploads go through the first two sections (the libraries read them, no
    placeholder stands twice in the form, and the paragraphs of the form and
    what is typed for its placeholders hold only characters XML holds) and
    whose stream does not fail, between the
    heading [Chat History] and the heading [Feedback Form] the page holds
    one line [**You:**] for each query of the session, this run's last, and
    nothing else. *)
Theorem asked_query_shown `{libs : Libraries} p w contents :
  readable p -> stream_ends p ->
  default [] (chat_history w) ++ asked p = HumanMessage <$> contents ->
  exists before after,
    screen (run p w).1
    = before
      ++ Subheader "Chat History"
         :: ((fun content => Markdown ("**You:** " +:+ content)) <$> contents)
      ++ Subheader "Feedback Form" :: after.
Proof.
  intros Hread Hends Hcontents. unfold run, page.
  set (w0 := World [] (chat_history w) (files w)). rewrite bind_run.
  destruct (template_returns p w0 Hread) as [es1 ->]. rewrite bind_run.
  destruct (summarization_returns p (draw es1 w0) Hread) as [es2 ->]. rewrite bind_run.
  pose proof (History.chat_section_history p (draw es2 (draw es1 w0))) as Hh.
  assert (exists w3, chat_section p (draw es2 (draw es1 w0)) = (w3, Returns ()))
    as [w3 Hc].
  { rewrite chat_section_eq. destruct (button p "Ask"); [|by eexists].
    destruct (Str.strip_truthy _); [rewrite Hends|]; by eexists. }
  rewrite Hc in *. cbn [fst] in Hh. cbn [draw chat_history w0] in Hh.
  rewrite Hcontents in Hh. rewrite bind_run.
  rewrite (History.history_section_human contents w3 Hh).
  rewrite !emit_bind, !draw_draw, bind_run.
  match goal with |- context [questionnaire_section p ?w'] =>
    destruct (questionnaire_section_run p w') as [es4 ->]
  end.
  match goal with |- context [feedback_section p ?w'] =>
    destruct (feedback_section_run p w') as [es5 ->]
  end.
  cbn [fst screen draw]. exists (screen w3). eexists.
  rewrite <- !app_assoc. reflexivity.
Qed.

Lemma asked_query_shown_witness :
  let lease := Upload DOCX "Lease to {{Tenant}}." in
  let p := with_form lease
             (pressing "Ask" (typing ASK_LABEL "Is a verbal lease binding?" idle)) in
  exists before after,
    screen (run (libs := sample_libraries) p (fresh ∅)).1
    = before
      ++ Subheader "Chat History"
         :: [Markdown "**You:** Is a verbal lease binding?"]
      ++ Subheader "Feedback Form" :: after.
Proof.
  apply (asked_query_shown (libs := sample_libraries)
           (with_form (Upload DOCX "Lease to {{Tenant}}.")
              (pressing "Ask" (typing ASK_LABEL "Is a verbal lease binding?" idle)))
           (fresh ∅) ["Is a verbal lease binding?"]).
  - apply (sample_readable _ (Upload DOCX "Lease to {{Tenant}}.")); try reflexivity.
    + apply NoDup_singleton.
    + intros placeholder Hin. apply list_elem_of_singleton in Hin as ->. reflexivity.
  - done.
  - reflexivity.
Defined.

End Sessions.
